(** * LLMX: cache keys, cache manager, provider adapters and dispatcher

    A shallow embedding of the Python package [llmx] (cache.py, core.py,
    providers/*.py, types.py, exceptions.py) together with the properties
    claimed for it.

    Conventions.
    - A Python [str] is the list of its Unicode code points ([pystr]).
    - Python objects that are mutated after construction ([Response]) live
      in a heap and are passed around by reference.
    - Functions that raise return a [result]; functions that also touch the
      heap, the caches or the network run in the monad [M].
    - What the interpreter and third-party libraries provide and the package
      merely calls ([float.__repr__], SHA-256, [str.lower], [str()], the HTTP
      transport, Redis and pickle) is a parameter of the development.
    - The [async_] methods repeat their synchronous counterparts line for
      line, with [await] at the calls; they are not embedded a second time.
      Objects are taken once constructed: the [__init__] methods are not
      embedded. *)

From Stdlib Require Import ZArith NArith List Ascii Lia Bool.
From stdpp Require Import base tactics option list numbers gmap pretty.
Import ListNotations.

Set Warnings "-register-all".
Local Open Scope N_scope.

(** ** Python strings *)

Definition pystr : Type := list N.

Fixpoint of_string (s : string) : pystr :=
  match s with
  | EmptyString => []
  | String a r => N_of_ascii a :: of_string r
  end.

Definition py (s : string) : pystr := of_string s.
Arguments py s%_string.

(** [sep.join(parts)] *)
Fixpoint join (sep : pystr) (parts : list pystr) : pystr :=
  match parts with
  | [] => []
  | p :: rest =>
      match rest with
      | [] => p
      | _ :: _ => p ++ sep ++ join sep rest
      end
  end.

(** [s.startswith(p)] *)
Fixpoint startswith (s p : pystr) {struct p} : bool :=
  match p with
  | [] => true
  | c :: p' =>
      match s with
      | [] => false
      | d :: s' => (N.eqb d c) && startswith s' p'
      end
  end.

(** [s[n:]] *)
Definition slice_from (n : nat) (s : pystr) : pystr := skipn n s.

(** [c.isspace()]: the code points Python treats as whitespace (bidirectional
    class WS, B or S, or category Zs). *)
Definition isspace (c : N) : bool :=
  ((9 <=? c) && (c <=? 13)) || ((28 <=? c) && (c <=? 32))
  || (c =? 133) || (c =? 160) || (c =? 5760)
  || ((8192 <=? c) && (c <=? 8202))
  || (c =? 8232) || (c =? 8233) || (c =? 8239) || (c =? 8287)
  || (c =? 12288).

(** [s.lstrip()], [s.rstrip()], [s.strip()] *)
Fixpoint lstrip (s : pystr) : pystr :=
  match s with
  | [] => []
  | c :: s' => if isspace c then lstrip s' else s
  end.

Definition rstrip (s : pystr) : pystr := rev (lstrip (rev s)).

Definition strip (s : pystr) : pystr := rstrip (lstrip s).

(** [len(s.split())]: the number of maximal runs of non-whitespace. *)
Fixpoint count_words_from (in_word : bool) (s : pystr) : nat :=
  match s with
  | [] => 0%nat
  | c :: s' =>
      if isspace c then count_words_from false s'
      else if in_word then count_words_from true s'
           else S (count_words_from true s')
  end.

Definition count_words (s : pystr) : nat := count_words_from false s.

(** Truthiness of a string and [x or default]. *)
Definition str_truthy (s : pystr) : bool :=
  match s with [] => false | _ :: _ => true end.

Definition opt_str_or (o : option pystr) (d : pystr) : pystr :=
  match o with
  | Some s => if str_truthy s then s else d
  | None => d
  end.

(** [repr] of an [int]: decimal digits with a leading minus sign. *)
Definition repr_int (z : Z) : pystr := of_string (pretty z).

(** Comparison of strings, by code point, as [sorted] uses it on keys. *)
Fixpoint str_leb (a b : pystr) : bool :=
  match a, b with
  | [], _ => true
  | _ :: _, [] => false
  | x :: a', y :: b' =>
      if x <? y then true else if y <? x then false else str_leb a' b'
  end.

Definition pystr_eqb (a b : pystr) : bool := bool_decide (a = b).

(** ** The data model (types.py) *)

(** [Literal["system", "user", "assistant"]] *)
Inductive role := system | user | assistant.

Definition role_str (r : role) : pystr :=
  match r with
  | system => py "system"
  | user => py "user"
  | assistant => py "assistant"
  end.

Global Instance role_eq_dec : EqDecision role.
Proof. solve_decision. Defined.

Record Message := { msg_role : role; msg_content : pystr }.

Record Choice := { content : pystr; finish_reason : option pystr }.

Record Usage := { prompt_tokens : Z; completion_tokens : Z; total_tokens : Z }.

Record Response := {
  text : list Choice;
  usage : option Usage;
  provider : pystr;
  model : pystr;
  cached : bool
}.

Record StreamChunk := {
  chunk_content : pystr;
  chunk_finish_reason : option pystr;
  done : bool
}.

Record ProviderConfig := {
  api_key : option pystr;
  api_base : option pystr;
  organization : option pystr;
  timeout : Z;
  max_retries : Z
}.

Record CacheConfig := {
  enabled : bool;
  redis_url : option pystr;
  ttl : Z;
  key_prefix : pystr
}.

Section Llmx.

(** Python's [float]; [float_json f] is the text [json.dumps] emits for it
    ([float.__repr__], or NaN, Infinity, -Infinity). *)
Context {pyfloat : Type}.
Context (float_json : pyfloat -> pystr).

(** [hashlib.sha256(s.encode()).hexdigest()] *)
Context (sha256_hexdigest : pystr -> pystr).

Record GenerationConfig := {
  gc_model : option pystr;
  gc_max_tokens : option Z;
  gc_temperature : option pyfloat;
  gc_top_p : option pyfloat;
  gc_stream : bool;
  gc_use_cache : bool
}.

(** ** JSON-like Python values and [json.dumps(..., sort_keys=True)] *)

Inductive pyval :=
  | PNone
  | PBool (b : bool)
  | PInt (z : Z)
  | PFloat (f : pyfloat)
  | PStr (s : pystr)
  | PList (l : list pyval)
  | PDict (d : list (pystr * pyval)).

(** ['{0:04x}'.format(n)] for [n < 0x10000] *)
Definition hex_digit (d : N) : N := if d <? 10 then 48 + d else 87 + d.

Definition hex4 (n : N) : pystr :=
  [hex_digit (n / 4096 mod 16); hex_digit (n / 256 mod 16);
   hex_digit (n / 16 mod 16); hex_digit (n mod 16)].

(** [json.encoder.py_encode_basestring_ascii]: the replacement of one code
    point matched by [ESCAPE_ASCII]. *)
Definition escape_char (c : N) : pystr :=
  if c =? 92 then [92; 92]
  else if c =? 34 then [92; 34]
  else if c =? 8 then [92; 98]
  else if c =? 12 then [92; 102]
  else if c =? 10 then [92; 110]
  else if c =? 13 then [92; 114]
  else if c =? 9 then [92; 116]
  else if (32 <=? c) && (c <=? 126) then [c]
  else if c <? 65536 then [92; 117] ++ hex4 c
  else
    let n := c - 65536 in
    let s1 := N.lor 55296 (N.land (N.shiftr n 10) 1023) in
    let s2 := N.lor 56320 (N.land n 1023) in
    ([92; 117] ++ hex4 s1) ++ [92; 117] ++ hex4 s2.

Definition encode_basestring_ascii (s : pystr) : pystr :=
  [34] ++ flat_map escape_char s ++ [34].

Fixpoint insert_item (kv : pystr * pystr) (l : list (pystr * pystr)) :
    list (pystr * pystr) :=
  match l with
  | [] => [kv]
  | kv' :: r =>
      if str_leb (fst kv) (fst kv') then kv :: l else kv' :: insert_item kv r
  end.

(** [sorted(dct.items())], on items whose values are already encoded. *)
Definition sort_items (l : list (pystr * pystr)) : list (pystr * pystr) :=
  fold_right insert_item [] l.

Definition dump_item (kv : pystr * pystr) : pystr :=
  encode_basestring_ascii (fst kv) ++ py ": " ++ snd kv.

Fixpoint json_dumps (v : pyval) : pystr :=
  match v with
  | PNone => py "null"
  | PBool true => py "true"
  | PBool false => py "false"
  | PInt z => repr_int z
  | PFloat f => float_json f
  | PStr s => encode_basestring_ascii s
  | PList l => py "[" ++ join (py ", ") (List.map json_dumps l) ++ py "]"
  | PDict d =>
      py "{"
      ++ join (py ", ")
           (List.map dump_item
              (sort_items
                 (List.map (fun kv => (fst kv, json_dumps (snd kv))) d)))
      ++ py "}"
  end.

Definition opt_val {A} (f : A -> pyval) (o : option A) : pyval :=
  match o with
  | Some a => f a
  | None => PNone
  end.

(** ** cache.py: the cache key *)

Definition message_dict (msg : Message) : pyval :=
  PDict [(py "role", PStr (role_str (msg_role msg)));
         (py "content", PStr (msg_content msg))].

Definition cache_data (messages : list Message) (config : GenerationConfig)
    (provider_name : pystr) : pyval :=
  PDict [(py "messages", PList (List.map message_dict messages));
         (py "model", opt_val PStr (gc_model config));
         (py "max_tokens", opt_val PInt (gc_max_tokens config));
         (py "temperature", opt_val PFloat (gc_temperature config));
         (py "top_p", opt_val PFloat (gc_top_p config));
         (py "provider", PStr provider_name)].

Definition cache_string (messages : list Message) (config : GenerationConfig)
    (provider_name : pystr) : pystr :=
  json_dumps (cache_data messages config provider_name).

Definition get_cache_key (cfg : CacheConfig) (messages : list Message)
    (config : GenerationConfig) (provider_name : pystr) : pystr :=
  key_prefix cfg ++ sha256_hexdigest (cache_string messages config provider_name).

(** *** Reading one escaped code point back

    [unescape_one] is not part of the package: it is the inverse of
    [escape_char] that the injectivity proof of the cache string runs on.
    A high surrogate written as an escape and followed by the escape of a low
    surrogate reads back as one astral code point, as any JSON reader does. *)

Definition is_high_surrogate (c : N) : bool := (55296 <=? c) && (c <=? 56319).
Definition is_low_surrogate (c : N) : bool := (56320 <=? c) && (c <=? 57343).

Definition unhex_digit (c : N) : option N :=
  if (48 <=? c) && (c <=? 57) then Some (c - 48)
  else if (97 <=? c) && (c <=? 102) then Some (c - 87)
  else None.

Definition unhex4 (s : pystr) : option (N * pystr) :=
  match s with
  | a :: b :: c :: d :: r =>
      match unhex_digit a, unhex_digit b, unhex_digit c, unhex_digit d with
      | Some x, Some y, Some z, Some w =>
          Some (4096 * x + 256 * y + 16 * z + w, r)
      | _, _, _, _ => None
      end
  | _ => None
  end.

(** The code unit written by a leading [\uXXXX] escape, if there is one. *)
Definition read_u_escape (s : pystr) : option (N * pystr) :=
  match s with
  | c :: e :: r => if (c =? 92) && (e =? 117) then unhex4 r else None
  | _ => None
  end.

Definition unescape_one (s : pystr) : option (N * pystr) :=
  match s with
  | [] => None
  | c :: r =>
      if c =? 34 then None
      else if c =? 92 then
        match r with
        | [] => None
        | e :: r' =>
            if e =? 92 then Some (92, r')
            else if e =? 34 then Some (34, r')
            else if e =? 98 then Some (8, r')
            else if e =? 102 then Some (12, r')
            else if e =? 110 then Some (10, r')
            else if e =? 114 then Some (13, r')
            else if e =? 116 then Some (9, r')
            else
              match read_u_escape s with
              | Some (v, r1) =>
                  if is_high_surrogate v then
                    match read_u_escape r1 with
                    | Some (v', r2) =>
                        if is_low_surrogate v'
                        then Some (65536 + (v - 55296) * 1024 + (v' - 56320), r2)
                        else Some (v, r1)
                    | None => Some (v, r1)
                    end
                  else Some (v, r1)
              | None => None
              end
        end
      else Some (c, r)
  end.

(** A Python string: code points below 0x110000. It is free of surrogate
    pairs when no high surrogate is immediately followed by a low one. *)
Definition code_point (c : N) : Prop := c < 1114112.

Fixpoint no_surrogate_pair (s : pystr) : bool :=
  match s with
  | [] => true
  | c :: r =>
      match r with
      | [] => true
      | d :: _ =>
          negb (is_high_surrogate c && is_low_surrogate d)
          && no_surrogate_pair r
      end
  end.

Definition wf_str (s : pystr) : Prop :=
  Forall code_point s /\ no_surrogate_pair s = true.

Definition low_escape_ahead (r : pystr) : bool :=
  match read_u_escape r with
  | Some (v, _) => is_low_surrogate v
  | None => false
  end.

(** ** exceptions.py, and the exceptions of the interpreter and of the
       libraries that can escape from the package *)

Inductive exn :=
  | ProviderError (message : pyval) (provider_of : pystr) (status_code : Z)
  | AuthenticationError (message : pystr) (provider_of : pystr)
  | RateLimitError (message : pystr) (provider_of : pystr)
  | ValidationError (message : pystr)
  | ConfigurationError (message : pystr)
  | CacheError (message : pystr)
  | StreamingError (message : pystr)
  | TransportError (message : pystr)
  | JSONDecodeError
  | PydanticValidationError
  | AttributeError
  | IndexError
  | RuntimeError (message : pystr).

Inductive result (A : Type) :=
  | Ok (a : A)
  | Raise (e : exn).
Arguments Ok {A} a.
Arguments Raise {A} e.

(** ** The state a generator runs in

    [Response] objects are mutable and shared: they live in [heap] and are
    named by their location. [memory_cache] is [CacheManager._memory_cache];
    [redis] is the state of the external store; [http_requests] counts the
    requests sent so far and [sleeps] the waits between retries. *)

Definition loc := nat.

Context {redis_state : Type}.

Record world := mkWorld {
  heap : gmap loc Response;
  next_loc : loc;
  memory_cache : gmap pystr loc;
  redis : redis_state;
  http_requests : nat;
  sleeps : nat
}.

Definition M (A : Type) : Type := world -> result A * world.

Definition ret {A} (a : A) : M A := fun w => (Ok a, w).

Definition raise {A} (e : exn) : M A := fun w => (Raise e, w).

Definition bind {A B} (c : M A) (k : A -> M B) : M B :=
  fun w =>
    match c w with
    | (Ok a, w') => k a w'
    | (Raise e, w') => (Raise e, w')
    end.

(** [try: c except Exception as e: h e] *)
Definition try_except {A} (c : M A) (h : exn -> M A) : M A :=
  fun w =>
    match c w with
    | (Ok a, w') => (Ok a, w')
    | (Raise e, w') => h e w'
    end.

Notation "x <- c ;; k" := (bind c (fun x => k))
  (at level 100, c at next level, right associativity).
Notation "c ;;; k" := (bind c (fun _ => k))
  (at level 100, right associativity).

(** Construction of a [Response], reading it, and [obj.cached = b]. *)
Definition alloc (r : Response) : M loc :=
  fun w =>
    (Ok (next_loc w),
     mkWorld (<[next_loc w := r]> (heap w)) (S (next_loc w)) (memory_cache w)
       (redis w) (http_requests w) (sleeps w)).

Definition deref (l : loc) : M Response :=
  fun w =>
    match heap w !! l with
    | Some r => (Ok r, w)
    | None => (Raise (RuntimeError (py "dangling reference")), w)
    end.

Definition with_cached (b : bool) (r : Response) : Response :=
  {| text := text r; usage := usage r; provider := provider r;
     model := model r; cached := b |}.

Definition set_cached (l : loc) (b : bool) : M unit :=
  fun w =>
    (Ok tt,
     mkWorld (alter (with_cached b) l (heap w)) (next_loc w) (memory_cache w)
       (redis w) (http_requests w) (sleeps w)).

Definition set_memory_cache (m : gmap pystr loc) (w : world) : world :=
  mkWorld (heap w) (next_loc w) m (redis w) (http_requests w) (sleeps w).

Definition set_redis (rs : redis_state) (w : world) : world :=
  mkWorld (heap w) (next_loc w) (memory_cache w) rs (http_requests w) (sleeps w).

(** ** cache.py: [CacheManager]

    The Redis client and pickle are taken as given: a command runs on the
    state of the store and returns or raises. *)

Context (redis_get : pystr -> redis_state -> result (option pystr) * redis_state).
Context (redis_setex :
  pystr -> Z -> pystr -> redis_state -> result unit * redis_state).
Context (redis_keys : pystr -> redis_state -> result (list pystr) * redis_state).
Context (redis_delete : list pystr -> redis_state -> result unit * redis_state).
Context (pickle_dumps : Response -> pystr).
Context (pickle_loads : pystr -> result Response).

(** [self.config] and whether [self._redis_client] is set. *)
Record CacheManager := {
  cm_config : CacheConfig;
  cm_redis_client : bool
}.

Definition memory_get (key : pystr) : M (option loc) :=
  fun w => (Ok (memory_cache w !! key), w).

Definition cache_get (self : CacheManager) (key : pystr) : M (option loc) :=
  if negb (enabled (cm_config self)) then ret None
  else if cm_redis_client self then
    fun w =>
      match redis_get key (redis w) with
      | (Ok (Some cached_data), rs) =>
          if str_truthy cached_data then
            match pickle_loads cached_data with
            | Ok r => (l <- alloc r ;; ret (Some l)) (set_redis rs w)
            | Raise _ => (Ok None, set_redis rs w)
            end
          else memory_get key (set_redis rs w)
      | (Ok None, rs) => memory_get key (set_redis rs w)
      | (Raise _, rs) => (Ok None, set_redis rs w)
      end
  else memory_get key.

Definition memory_set (key : pystr) (response : loc) : M unit :=
  fun w => (Ok tt, set_memory_cache (<[key := response]> (memory_cache w)) w).

Definition cache_set (self : CacheManager) (key : pystr) (response : loc) :
    M unit :=
  if negb (enabled (cm_config self)) then ret tt
  else if cm_redis_client self then
    fun w =>
      match deref response w with
      | (Ok r, _) =>
          match redis_setex key (ttl (cm_config self)) (pickle_dumps r) (redis w) with
          | (Ok _, rs) => memory_set key response (set_redis rs w)
          | (Raise _, rs) => (Ok tt, set_redis rs w)
          end
      | (Raise _, _) => (Ok tt, w)
      end
  else memory_set key response.

Definition memory_clear : M unit :=
  fun w => (Ok tt, set_memory_cache ∅ w).

Definition cache_clear (self : CacheManager) : M unit :=
  if negb (enabled (cm_config self)) then ret tt
  else if cm_redis_client self then
    fun w =>
      match redis_keys (key_prefix (cm_config self) ++ py "*") (redis w) with
      | (Ok [], rs) => memory_clear (set_redis rs w)
      | (Ok (k :: ks), rs) =>
          match redis_delete (k :: ks) rs with
          | (Ok _, rs') => memory_clear (set_redis rs' w)
          | (Raise _, rs') => (Ok tt, set_redis rs' w)
          end
      | (Raise _, rs) => (Ok tt, set_redis rs w)
      end
  else memory_clear.

(** A run of [set] calls, to state what [get] returns after it. *)
Fixpoint cache_set_all (self : CacheManager) (entries : list (pystr * loc)) :
    M unit :=
  match entries with
  | [] => ret tt
  | (k, r) :: rest => cache_set self k r ;;; cache_set_all self rest
  end.

(** ** providers/base.py: the adapter interface

    [BaseProvider] as the dispatcher sees it. [adapter_generate] returns a
    reference to the [Response] it built. [adapter_generate_stream] is a
    generator function: calling it runs nothing, and running the generator
    it returns gives the chunks produced and the exception, if any, that
    ended the iteration. *)

Definition kwargs : Type := list (pystr * pyval).

Record stream_run := {
  emitted : list StreamChunk;
  failure : option exn
}.

Definition generator : Type := world -> stream_run * world.

Record Adapter := {
  provider_config : ProviderConfig;
  adapter_default_model : pystr;
  adapter_generate : list Message -> GenerationConfig -> kwargs -> M loc;
  adapter_generate_stream :
    list Message -> GenerationConfig -> kwargs -> generator
}.

(** ** providers/__init__.py: the registry *)

Inductive provider_class :=
  | OpenAIProvider
  | ClaudeProvider
  | GrokProvider
  | CohereProvider
  | HuggingFaceProvider.

Definition _PROVIDERS : list (pystr * provider_class) :=
  [(py "openai", OpenAIProvider);
   (py "azure", OpenAIProvider);
   (py "claude", ClaudeProvider);
   (py "anthropic", ClaudeProvider);
   (py "grok", GrokProvider);
   (py "xai", GrokProvider);
   (py "cohere", CohereProvider);
   (py "huggingface", HuggingFaceProvider);
   (py "hf", HuggingFaceProvider)].

(** [d.get(key)] on a dictionary kept as its items in insertion order. *)
Fixpoint dict_get {A} (key : pystr) (d : list (pystr * A)) : option A :=
  match d with
  | [] => None
  | (k, v) :: r => if pystr_eqb k key then Some v else dict_get key r
  end.

Definition dict_keys {A} (d : list (pystr * A)) : list pystr := List.map fst d.

(** [str.lower], and the construction [provider_class(config)] of an adapter
    (which validates the credentials and may raise). *)
Context (py_lower : pystr -> pystr).
Context (instantiate : provider_class -> ProviderConfig -> M Adapter).

Definition get_provider (provider_name : pystr) (config : ProviderConfig) :
    M Adapter :=
  let provider_name := py_lower provider_name in
  match dict_get provider_name _PROVIDERS with
  | None =>
      let available := join (py ", ") (dict_keys _PROVIDERS) in
      raise (ConfigurationError
               (py "Provider '" ++ provider_name
                ++ py "' not supported. Available providers: " ++ available))
  | Some provider_class => instantiate provider_class config
  end.

Definition list_providers : list pystr := dict_keys _PROVIDERS.

(** ** core.py: [LLMGenerator] *)

Record LLMGenerator := {
  gen_provider_name : pystr;
  gen_fallback_providers : list pystr;
  gen_cache : CacheManager;
  gen_provider : Adapter;
  gen_default_model : pystr
}.

(** What a caller may put in the list of messages: a [Message], a [dict], or
    anything else (given by the text of its type). *)
Inductive raw_message :=
  | RawMessage (m : Message)
  | RawDict (d : list (pystr * pyval))
  | RawOther (type_repr : pystr).

Definition role_of_str (s : pystr) : option role :=
  if pystr_eqb s (py "system") then Some system
  else if pystr_eqb s (py "user") then Some user
  else if pystr_eqb s (py "assistant") then Some assistant
  else None.

(** [Message] built from the items of a dict: pydantic validates the two
    fields and ignores the others. *)
Definition Message_of_dict (d : list (pystr * pyval)) : result Message :=
  match dict_get (py "role") d, dict_get (py "content") d with
  | Some (PStr r), Some (PStr c) =>
      match role_of_str r with
      | Some ro => Ok {| msg_role := ro; msg_content := c |}
      | None => Raise PydanticValidationError
      end
  | _, _ => Raise PydanticValidationError
  end.

Definition normalize_message (msg : raw_message) : result Message :=
  match msg with
  | RawDict d => Message_of_dict d
  | RawMessage m => Ok m
  | RawOther t => Raise (ValidationError (py "Invalid message type: " ++ t))
  end.

Fixpoint _normalize_messages (messages : list raw_message) :
    result (list Message) :=
  match messages with
  | [] => Ok []
  | msg :: rest =>
      match normalize_message msg with
      | Ok m =>
          match _normalize_messages rest with
          | Ok normalized => Ok (m :: normalized)
          | Raise e => Raise e
          end
      | Raise e => Raise e
      end
  end.

Definition lift {A} (r : result A) : M A := fun w => (r, w).

(** [generate] returns a [Response] or a generator. *)
Inductive generated :=
  | GResponse (r : loc)
  | GStream (g : generator).

(** A generator function: the call builds the generator and runs nothing. *)
Definition _generate_stream (self : LLMGenerator) (messages : list Message)
    (config : GenerationConfig) (kw : kwargs) : generator :=
  adapter_generate_stream (gen_provider self) messages config kw.

(** [_try_fallback]. [active] is the exception being handled where the
    function is called: it is what the bare [raise] after the loop re-raises
    (the handler of a failed fallback has been left by then). *)
Definition fallback_attempt (self : LLMGenerator) (fallback_provider : pystr)
    (messages : list Message) (config : GenerationConfig) (kw : kwargs) :
    M loc :=
  fallback <- get_provider fallback_provider
                (provider_config (gen_provider self)) ;;
  adapter_generate fallback messages config kw.

Fixpoint _try_fallback_loop (self : LLMGenerator) (active : option exn)
    (fallbacks : list pystr) (messages : list Message)
    (config : GenerationConfig) (kw : kwargs) : M loc :=
  match fallbacks with
  | [] =>
      match active with
      | Some e => raise e
      | None => raise (RuntimeError (py "No active exception to reraise"))
      end
  | fallback_provider :: rest =>
      try_except
        (fallback_attempt self fallback_provider messages config kw)
        (fun _ => _try_fallback_loop self active rest messages config kw)
  end.

(** The fallbacks, tried in turn from [w], all fail: the exception met last
    ([last] when there is no fallback) and the world they leave. *)
Fixpoint failed_fallbacks (self : LLMGenerator) (fallbacks : list pystr)
    (messages : list Message) (config : GenerationConfig) (kw : kwargs)
    (last : exn) (w : world) : option (exn * world) :=
  match fallbacks with
  | [] => Some (last, w)
  | fallback_provider :: rest =>
      match fallback_attempt self fallback_provider messages config kw w with
      | (Raise x, w') => failed_fallbacks self rest messages config kw x w'
      | (Ok _, _) => None
      end
  end.

Definition _try_fallback (self : LLMGenerator) (active : option exn)
    (messages : list Message) (config : GenerationConfig) (kw : kwargs) :
    M loc :=
  _try_fallback_loop self active (gen_fallback_providers self) messages config kw.

Definition list_truthy {A} (l : list A) : bool :=
  match l with [] => false | _ :: _ => true end.

Definition generate (self : LLMGenerator) (messages : list raw_message)
    (model : option pystr) (max_tokens : option Z)
    (temperature top_p : option pyfloat) (stream use_cache : bool)
    (kw : kwargs) : M generated :=
  normalized_messages <- lift (_normalize_messages messages) ;;
  let config :=
    {| gc_model := Some (opt_str_or model (gen_default_model self));
       gc_max_tokens := max_tokens;
       gc_temperature := temperature;
       gc_top_p := top_p;
       gc_stream := stream;
       gc_use_cache := use_cache |} in
  let cache_key :=
    get_cache_key (cm_config (gen_cache self)) normalized_messages config
      (gen_provider_name self) in
  cached_response <-
    (if use_cache && negb stream
     then cache_get (gen_cache self) cache_key
     else ret None) ;;
  match cached_response with
  | Some hit => set_cached hit true ;;; ret (GResponse hit)
  | None =>
      try_except
        (if stream
         then ret (GStream (_generate_stream self normalized_messages config kw))
         else
           response <- adapter_generate (gen_provider self)
                         normalized_messages config kw ;;
           (if use_cache
            then cache_set (gen_cache self) cache_key response
            else ret tt) ;;;
           ret (GResponse response))
        (fun e =>
           if list_truthy (gen_fallback_providers self)
           then
             r <- _try_fallback self (Some e) normalized_messages config kw ;;
             ret (GResponse r)
           else raise e)
  end.

(** ** The HTTP transport (httpx) and the retry decorator (tenacity)

    [http_post n url payload] is what the [n]-th request of the run meets:
    an exception of the transport, or a reply. A reply carries its status,
    the value of [response.json()] when the body is JSON, and the text of the
    [HTTPStatusError] that [raise_for_status] builds for it. *)

Record http_response := {
  status : Z;
  json_body : option pyval;
  error_str : pystr
}.

Inductive http_outcome :=
  | HttpFailed (e : exn)
  | HttpReplied (r : http_response).

Context (http_post : nat -> pystr -> pyval -> http_outcome).

Definition request_sent (w : world) : world :=
  mkWorld (heap w) (next_loc w) (memory_cache w) (redis w)
    (S (http_requests w)) (sleeps w).

Definition client_post (url : pystr) (payload : pyval) : M http_response :=
  fun w =>
    match http_post (http_requests w) url payload with
    | HttpFailed e => (Raise e, request_sent w)
    | HttpReplied r => (Ok r, request_sent w)
    end.

(** [response.raise_for_status()] raises unless the status is 2xx. *)
Definition is_success (r : http_response) : bool :=
  ((200 <=? status r) && (status r <=? 299))%Z.

Definition response_json (r : http_response) : M pyval :=
  match json_body r with
  | Some data => ret data
  | None => raise JSONDecodeError
  end.

Definition waited (w : world) : world :=
  mkWorld (heap w) (next_loc w) (memory_cache w) (redis w)
    (http_requests w) (S (sleeps w)).

Definition wait : M unit := fun w => (Ok tt, waited w).

(** [@retry(stop=stop_after_attempt(3), wait=wait_exponential(...),
    reraise=True)]: no [retry=] predicate is given, so every exception of
    the body is retried; after the last attempt the exception is re-raised. *)
Fixpoint retrying {A} (more : nat) (body : M A) : M A :=
  match more with
  | O => body
  | S n => try_except body (fun _ => wait ;;; retrying n body)
  end.

Definition retry_stop_after_3 {A} (body : M A) : M A := retrying 2 body.

(** Three requests in a row, the first numbered [n], are answered with a
    status other than 2xx. *)
Definition three_error_replies (url : pystr) (payload : pyval) (n : nat)
    (r1 r2 r3 : http_response) : Prop :=
  (http_post n url payload = HttpReplied r1
   /\ http_post (S n) url payload = HttpReplied r2
   /\ http_post (S (S n)) url payload = HttpReplied r3)
  /\ (is_success r1 = false /\ is_success r2 = false /\ is_success r3 = false).

(** The world after three requests and the two waits between them. *)
Definition after_three_attempts (w : world) : world :=
  request_sent (waited (request_sent (waited (request_sent w)))).

(** ** providers/base.py: helpers *)

Definition _validate_model (class_name : pystr) (supported_models : list pystr)
    (model : pystr) : result unit :=
  if existsb (pystr_eqb model) supported_models then Ok tt
  else
    Raise (ConfigurationError
             (py "Model '" ++ model ++ py "' not supported by " ++ class_name
              ++ py ". Supported models: "
              ++ join (py ", ") supported_models)).

Definition _prepare_messages (messages : list Message) : list pyval :=
  List.map message_dict messages.

(** [d[key] = v] and [d.update(other)] *)
Fixpoint dict_set {A} (key : pystr) (v : A) (d : list (pystr * A)) :
    list (pystr * A) :=
  match d with
  | [] => [(key, v)]
  | (k, x) :: r =>
      if pystr_eqb k key then (k, v) :: r else (k, x) :: dict_set key v r
  end.

Definition dict_update {A} (d other : list (pystr * A)) : list (pystr * A) :=
  fold_left (fun acc kv => dict_set (fst kv) (snd kv) acc) other d.

(** [if config.max_tokens:] holds for an integer other than zero. *)
Definition int_truthy (o : option Z) : bool :=
  match o with
  | Some z => negb (Z.eqb z 0)
  | None => false
  end.

(** [if config.max_tokens: d[key] = config.max_tokens] and
    [if x is not None: d[key] = x] *)
Definition set_if_truthy_int (key : pystr) (o : option Z)
    (d : list (pystr * pyval)) : list (pystr * pyval) :=
  match o with
  | Some z => if int_truthy o then dict_set key (PInt z) d else d
  | None => d
  end.

Definition set_if_not_none (key : pystr) (o : option pyfloat)
    (d : list (pystr * pyval)) : list (pystr * pyval) :=
  match o with
  | Some f => dict_set key (PFloat f) d
  | None => d
  end.

(** The message of the [ProviderError] raised for a status other than 401 and
    429: [error_data.get("error", {}).get("message", str(error))], and
    [str(error)] whenever that expression raises. *)
Definition nested_error_message (r : http_response) : pyval :=
  match json_body r with
  | Some (PDict error_data) =>
      match dict_get (py "error") error_data with
      | None => PStr (error_str r)
      | Some (PDict e) =>
          match dict_get (py "message") e with
          | Some m => m
          | None => PStr (error_str r)
          end
      | Some _ => PStr (error_str r)
      end
  | _ => PStr (error_str r)
  end.

(** [error_data.get(key, str(error))], and [str(error)] when that raises. *)
Definition flat_error_message (key : pystr) (r : http_response) : pyval :=
  match json_body r with
  | Some (PDict error_data) =>
      match dict_get key error_data with
      | Some m => m
      | None => PStr (error_str r)
      end
  | _ => PStr (error_str r)
  end.

(** The parsers of the OpenAI, Claude and Cohere replies build a [Response]
    from the JSON body and the model, or raise; nothing below depends on how
    (the Hugging Face parser is spelled out further down). *)
Context (parse_response : provider_class -> pyval -> pystr -> result Response).

(** ** providers/openai.py *)

Definition openai_default_model : pystr := py "gpt-3.5-turbo".

Definition openai_supported_models : list pystr :=
  [py "gpt-3.5-turbo"; py "gpt-3.5-turbo-16k"; py "gpt-4"; py "gpt-4-32k";
   py "gpt-4-turbo"; py "gpt-4o"; py "gpt-4o-mini"].

Definition openai_handle_http_error (r : http_response) : exn :=
  if (status r =? 401)%Z
  then AuthenticationError (py "Invalid API key") (py "openai")
  else if (status r =? 429)%Z
  then RateLimitError (py "Rate limit exceeded") (py "openai")
  else ProviderError (nested_error_message r) (py "openai") (status r).

Definition openai_payload (model : pystr) (messages : list Message)
    (config : GenerationConfig) (kw : kwargs) : pyval :=
  let payload :=
    [(py "model", PStr model);
     (py "messages", PList (_prepare_messages messages))] in
  let payload := set_if_truthy_int (py "max_tokens") (gc_max_tokens config) payload in
  let payload := set_if_not_none (py "temperature") (gc_temperature config) payload in
  let payload := set_if_not_none (py "top_p") (gc_top_p config) payload in
  PDict (dict_update payload kw).

(** The body of [generate], one attempt. *)
Definition openai_generate_once (messages : list Message)
    (config : GenerationConfig) (kw : kwargs) : M loc :=
  let model := opt_str_or (gc_model config) openai_default_model in
  lift (_validate_model (py "OpenAIProvider") openai_supported_models model) ;;;
  response <- client_post (py "/chat/completions")
                (openai_payload model messages config kw) ;;
  if is_success response then
    data <- response_json response ;;
    r <- lift (parse_response OpenAIProvider data model) ;;
    alloc r
  else raise (openai_handle_http_error response).

Definition openai_generate (messages : list Message)
    (config : GenerationConfig) (kw : kwargs) : M loc :=
  retry_stop_after_3 (openai_generate_once messages config kw).

(** ** providers/claude.py *)

Definition claude_default_model : pystr := py "claude-3-haiku-20240307".

Definition claude_supported_models : list pystr :=
  [py "claude-3-haiku-20240307"; py "claude-3-sonnet-20240229";
   py "claude-3-opus-20240229"; py "claude-3-5-sonnet-20241022";
   py "claude-2.1"; py "claude-2.0"; py "claude-instant-1.2"].

Definition claude_handle_http_error (r : http_response) : exn :=
  if (status r =? 401)%Z
  then AuthenticationError (py "Invalid API key") (py "claude")
  else if (status r =? 429)%Z
  then RateLimitError (py "Rate limit exceeded") (py "claude")
  else ProviderError (nested_error_message r) (py "claude") (status r).

(** The conversion loop: [system_message] and [claude_messages] after the
    messages seen so far. *)
Definition claude_convert_step (acc : option pystr * list pyval)
    (msg : Message) : option pystr * list pyval :=
  let (system_message, claude_messages) := acc in
  if decide (msg_role msg = system)
  then (Some (msg_content msg), claude_messages)
  else (system_message,
        claude_messages
        ++ [PDict [(py "role", PStr (role_str (msg_role msg)));
                   (py "content", PStr (msg_content msg))]]).

Definition claude_convert (messages : list Message) :
    option pystr * list pyval :=
  fold_left claude_convert_step messages (None, []).

Definition int_or (o : option Z) (d : Z) : Z :=
  match o with
  | Some z => if int_truthy o then z else d
  | None => d
  end.

(** The payload before [payload.update(kwargs)]. *)
Definition claude_base_payload (model : pystr) (messages : list Message)
    (config : GenerationConfig) : list (pystr * pyval) :=
  let (system_message, claude_messages) := claude_convert messages in
  let payload :=
    [(py "model", PStr model);
     (py "messages", PList claude_messages);
     (py "max_tokens", PInt (int_or (gc_max_tokens config) 1024))] in
  let payload :=
    match system_message with
    | Some s => if str_truthy s then dict_set (py "system") (PStr s) payload else payload
    | None => payload
    end in
  let payload := set_if_not_none (py "temperature") (gc_temperature config) payload in
  set_if_not_none (py "top_p") (gc_top_p config) payload.

Definition claude_payload (model : pystr) (messages : list Message)
    (config : GenerationConfig) (kw : kwargs) : pyval :=
  PDict (dict_update (claude_base_payload model messages config) kw).

Definition claude_generate_once (messages : list Message)
    (config : GenerationConfig) (kw : kwargs) : M loc :=
  let model := opt_str_or (gc_model config) claude_default_model in
  lift (_validate_model (py "ClaudeProvider") claude_supported_models model) ;;;
  response <- client_post (py "/messages")
                (claude_payload model messages config kw) ;;
  if is_success response then
    data <- response_json response ;;
    r <- lift (parse_response ClaudeProvider data model) ;;
    alloc r
  else raise (claude_handle_http_error response).

Definition claude_generate (messages : list Message)
    (config : GenerationConfig) (kw : kwargs) : M loc :=
  retry_stop_after_3 (claude_generate_once messages config kw).

(** ** providers/cohere.py *)

Definition cohere_default_model : pystr := py "command".

Definition cohere_supported_models : list pystr :=
  [py "command"; py "command-light"; py "command-nightly"; py "command-r";
   py "command-r-plus"].

Definition cohere_handle_http_error (r : http_response) : exn :=
  if (status r =? 401)%Z
  then AuthenticationError (py "Invalid API key") (py "cohere")
  else if (status r =? 429)%Z
  then RateLimitError (py "Rate limit exceeded") (py "cohere")
  else ProviderError (flat_error_message (py "message") r) (py "cohere") (status r).

Definition cohere_part (msg : Message) : pystr :=
  match msg_role msg with
  | system => py "System: " ++ msg_content msg
  | user => py "User: " ++ msg_content msg
  | assistant => py "Assistant: " ++ msg_content msg
  end.

Definition _convert_messages_to_cohere (messages : list Message) : pystr :=
  join [10] (List.map cohere_part messages).

Definition cohere_payload (model : pystr) (messages : list Message)
    (config : GenerationConfig) (kw : kwargs) : pyval :=
  let payload :=
    [(py "model", PStr model);
     (py "message", PStr (_convert_messages_to_cohere messages))] in
  let payload := set_if_truthy_int (py "max_tokens") (gc_max_tokens config) payload in
  let payload := set_if_not_none (py "temperature") (gc_temperature config) payload in
  let payload := set_if_not_none (py "p") (gc_top_p config) payload in
  PDict (dict_update payload kw).

Definition cohere_generate_once (messages : list Message)
    (config : GenerationConfig) (kw : kwargs) : M loc :=
  let model := opt_str_or (gc_model config) cohere_default_model in
  lift (_validate_model (py "CohereProvider") cohere_supported_models model) ;;;
  response <- client_post (py "/chat")
                (cohere_payload model messages config kw) ;;
  if is_success response then
    data <- response_json response ;;
    r <- lift (parse_response CohereProvider data model) ;;
    alloc r
  else raise (cohere_handle_http_error response).

Definition cohere_generate (messages : list Message)
    (config : GenerationConfig) (kw : kwargs) : M loc :=
  retry_stop_after_3 (cohere_generate_once messages config kw).

(** ** providers/huggingface.py *)

Definition hf_default_model : pystr := py "microsoft/DialoGPT-medium".

Definition hf_default_base_url : pystr :=
  py "https://api-inference.huggingface.co/models".

Definition hf_handle_http_error (r : http_response) : exn :=
  if (status r =? 401)%Z
  then AuthenticationError (py "Invalid HuggingFace token") (py "huggingface")
  else if (status r =? 429)%Z
  then RateLimitError (py "Rate limit exceeded") (py "huggingface")
  else if (status r =? 503)%Z
  then ProviderError
         (PStr (py "Model is currently loading, please try again later"))
         (py "huggingface") (status r)
  else ProviderError (flat_error_message (py "error") r) (py "huggingface")
         (status r).

Definition hf_part (msg : Message) : pystr :=
  match msg_role msg with
  | system => py "System: " ++ msg_content msg
  | user => py "Human: " ++ msg_content msg
  | assistant => py "Assistant: " ++ msg_content msg
  end.

Definition _convert_messages_to_hf (messages : list Message) : pystr :=
  let parts := List.map hf_part messages in
  let parts :=
    if negb (list_truthy parts)
       || negb (startswith (List.last parts []) (py "Assistant:"))
    then parts ++ [py "Assistant:"]
    else parts in
  join [10] parts.

(** [str(x)] of a decoded JSON value. *)
Context (py_str : pyval -> pystr).

(** The value bound to [content] in [_parse_response]; [AttributeError] is
    what [generated_text.startswith] raises when the field is not a string. *)
Definition hf_content (data : pyval) (input_text : pystr) : result pyval :=
  match data with
  | PList (result :: _) =>
      match result with
      | PDict d =>
          match dict_get (py "generated_text") d with
          | Some (PStr generated_text) =>
              if startswith generated_text input_text
              then Ok (PStr (strip (slice_from (length input_text) generated_text)))
              else Ok (PStr generated_text)
          | Some _ => Raise AttributeError
          | None => Ok (PStr (py_str result))
          end
      | _ => Ok (PStr (py_str result))
      end
  | PDict d =>
      match dict_get (py "generated_text") d with
      | Some v => Ok v
      | None => Ok (PStr (py_str data))
      end
  | _ => Ok (PStr (py_str data))
  end.

(** [Choice(content=content, ...)] accepts a string only. *)
Definition hf_parse_response (data : pyval) (model : pystr)
    (input_text : pystr) : result Response :=
  match hf_content data input_text with
  | Ok (PStr content) =>
      Ok {| text := [{| content := content; finish_reason := Some (py "stop") |}];
            usage :=
              Some {| prompt_tokens := Z.of_nat (count_words input_text);
                      completion_tokens := Z.of_nat (count_words content);
                      total_tokens :=
                        Z.of_nat (count_words input_text + count_words content) |};
            provider := py "huggingface";
            model := model;
            cached := false |}
  | Ok _ => Raise PydanticValidationError
  | Raise e => Raise e
  end.

Definition endswith (s p : pystr) : bool := startswith (rev s) (rev p).

Definition hf_url (self : ProviderConfig) (model : pystr) : pystr :=
  let base_url := opt_str_or (api_base self) hf_default_base_url in
  if negb (endswith base_url model) then base_url ++ py "/" ++ model
  else base_url.

Definition hf_payload (input_text : pystr) (config : GenerationConfig)
    (kw : kwargs) : pyval :=
  let parameters := [] in
  let parameters :=
    set_if_truthy_int (py "max_new_tokens") (gc_max_tokens config) parameters in
  let parameters :=
    set_if_not_none (py "temperature") (gc_temperature config) parameters in
  let parameters := set_if_not_none (py "top_p") (gc_top_p config) parameters in
  PDict [(py "inputs", PStr input_text);
         (py "parameters", PDict (dict_update parameters kw))].

Definition hf_generate_once (self : ProviderConfig) (messages : list Message)
    (config : GenerationConfig) (kw : kwargs) : M loc :=
  let model := opt_str_or (gc_model config) hf_default_model in
  let input_text := _convert_messages_to_hf messages in
  response <- client_post (hf_url self model)
                (hf_payload input_text config kw) ;;
  if is_success response then
    data <- response_json response ;;
    r <- lift (hf_parse_response data model input_text) ;;
    alloc r
  else raise (hf_handle_http_error response).

Definition hf_generate (self : ProviderConfig) (messages : list Message)
    (config : GenerationConfig) (kw : kwargs) : M loc :=
  retry_stop_after_3 (hf_generate_once self messages config kw).

(** [range(start, stop, step)] for a positive step: at most [stop] values. *)
Fixpoint range_from (fuel start stop step : nat) : list nat :=
  match fuel with
  | O => []
  | S fuel' =>
      if (start <? stop)%nat
      then start :: range_from fuel' (start + step)%nat stop step
      else []
  end.

Definition py_range (start stop step : nat) : list nat :=
  range_from stop start stop step.

Definition chunk_size : nat := 10.

(** The chunk built by the loop body at index [i]. *)
Definition hf_stream_chunk (content : pystr) (i : nat) : StreamChunk :=
  let chunk := firstn chunk_size (skipn i content) in
  let is_last := (length content <=? i + chunk_size)%nat in
  {| chunk_content := chunk;
     chunk_finish_reason := if is_last then Some (py "stop") else None;
     done := is_last |}.

Definition hf_stream_chunks (content : pystr) : list StreamChunk :=
  List.map (hf_stream_chunk content) (py_range 0 (length content) chunk_size).

(** [generate_stream]: a full [generate], then the chunks of
    [response.text[0].content]. *)
Definition hf_generate_stream (self : ProviderConfig)
    (messages : list Message) (config : GenerationConfig) (kw : kwargs) :
    generator :=
  fun w =>
    match hf_generate self messages config kw w with
    | (Ok response, w') =>
        match heap w' !! response with
        | Some r =>
            match text r with
            | c :: _ =>
                ({| emitted := hf_stream_chunks (content c); failure := None |}, w')
            | [] => ({| emitted := []; failure := Some IndexError |}, w')
            end
        | None =>
            ({| emitted := [];
                failure := Some (RuntimeError (py "dangling reference")) |}, w')
        end
    | (Raise e, w') => ({| emitted := []; failure := Some e |}, w')
    end.

End Llmx.

Arguments GenerationConfig : clear implicits.
Arguments pyval : clear implicits.
Arguments Ok {pyfloat A} a.
Arguments Raise {pyfloat A} e.
Arguments exn : clear implicits.
Arguments result : clear implicits.
Arguments world : clear implicits.
Arguments M : clear implicits.
Arguments kwargs : clear implicits.
Arguments stream_run : clear implicits.
Arguments generator : clear implicits.
Arguments Adapter : clear implicits.
Arguments LLMGenerator : clear implicits.
Arguments raw_message : clear implicits.
Arguments generated : clear implicits.
Arguments http_response : clear implicits.
Arguments http_outcome : clear implicits.





(** What [json.dumps] writes for an optional field. *)
Definition dump_opt {A} (f : A -> pystr) (o : option A) : pystr :=
  match o with
  | Some a => f a
  | None => py "null"
  end.

(** The characters of the decimal text of an integer. *)
Definition int_char (c : N) : Prop := c = 45 \/ (48 <= c <= 57).

(** The characters [json.dumps] uses for a float: those of a decimal or
    exponent literal and of NaN, Infinity and -Infinity. *)
Definition float_char (c : N) : Prop := In c (py "0123456789+-.eEINafinty").

(** The strings that enter a cache key are well formed. *)
Definition messages_wf (l : list Message) : Prop :=
  Forall (fun m => wf_str (msg_content m)) l.

Definition key_inputs_wf {pyfloat} (messages : list Message)
    (config : GenerationConfig pyfloat) (provider_name : pystr) : Prop :=
  messages_wf messages
  /\ (forall s, gc_model config = Some s -> wf_str s)
  /\ wf_str provider_name.

(** Two configurations agree on the fields that enter a cache key. *)
Definition same_key_fields {pyfloat}
    (c1 c2 : GenerationConfig pyfloat) : Prop :=
  gc_model c1 = gc_model c2
  /\ gc_max_tokens c1 = gc_max_tokens c2
  /\ gc_temperature c1 = gc_temperature c2
  /\ gc_top_p c1 = gc_top_p c2.


(** Concrete inputs used to exercise the cache key. *)
Definition two_floats_json (b : bool) : pystr :=
  if b then py "0.5" else py "1.0".

Definition hello_messages : list Message :=
  [{| msg_role := user; msg_content := py "Hello!" |}].

Definition hi_messages : list Message :=
  [{| msg_role := user; msg_content := py "Hi!" |}].

Definition example_config : GenerationConfig bool :=
  {| gc_model := Some (py "X"); gc_max_tokens := Some 10%Z;
     gc_temperature := Some true; gc_top_p := None;
     gc_stream := false; gc_use_cache := true |}.

Definition default_cache_config : CacheConfig :=
  {| enabled := true; redis_url := None; ttl := 3600; key_prefix := py "llmx:" |}.

(** U+1F600 as one code point, and as the two surrogates D83D DE00. *)
Definition astral_messages : list Message :=
  [{| msg_role := user; msg_content := [128512] |}].

Definition surrogate_messages : list Message :=
  [{| msg_role := user; msg_content := [55357; 56832] |}].

(** ** A scripted run

    The parameters instantiated the way the tests of the package mock them:
    no external store, a transport that answers by endpoint, parsers that
    return a fixed response. Floats are the two values of [two_floats_json]. *)

Definition hello_world_response (provider_name model_name : pystr) : Response :=
  {| text := [{| content := py "Hello, world!"; finish_reason := Some (py "stop") |}];
     usage := Some {| prompt_tokens := 10; completion_tokens := 5; total_tokens := 15 |};
     provider := provider_name;
     model := model_name;
     cached := false |}.

Definition fresh_world : world unit := mkWorld ∅ 0%nat ∅ tt 0%nat 0%nat.

Definition no_redis_get (key : pystr) (s : unit) :
    result bool (option pystr) * unit :=
  (Raise (CacheError (py "no store")), s).

Definition no_redis_setex (key : pystr) (t : Z) (data : pystr) (s : unit) :
    result bool unit * unit :=
  (Raise (CacheError (py "no store")), s).

Definition no_redis_keys (pattern : pystr) (s : unit) :
    result bool (list pystr) * unit :=
  (Raise (CacheError (py "no store")), s).

Definition no_redis_delete (keys : list pystr) (s : unit) :
    result bool unit * unit :=
  (Raise (CacheError (py "no store")), s).

Definition no_pickle_dumps (r : Response) : pystr := [].

Definition no_pickle_loads (data : pystr) : result bool Response :=
  Raise (CacheError (py "no store")).

Definition memory_cache_manager : CacheManager :=
  {| cm_config := default_cache_config; cm_redis_client := false |}.

Definition http_error_reply (code : Z) : http_response bool :=
  {| status := code; json_body := None; error_str := py "HTTP error" |}.

Definition http_ok_reply (data : pyval bool) : http_response bool :=
  {| status := 200; json_body := Some data; error_str := [] |}.

(** The OpenAI endpoint rejects the key three times and is rate limited
    afterwards; the Anthropic endpoint is rate limited; the Cohere endpoint
    answers; every other URL (the Hugging Face models) answers 503 three
    times and then completes the transcript of [hello_messages]. *)
Definition scripted_http (n : nat) (url : pystr) (payload : pyval bool) :
    http_outcome bool :=
  if pystr_eqb url (py "/chat/completions")
  then HttpReplied (http_error_reply (if (n <? 3)%nat then 401 else 429))
  else if pystr_eqb url (py "/messages") then HttpReplied (http_error_reply 429)
  else if pystr_eqb url (py "/chat")
  then HttpReplied (http_ok_reply (PDict [(py "text", PStr (py "Hello, world!"))]))
  else if (n <? 3)%nat then HttpReplied (http_error_reply 503)
  else
    HttpReplied
      (http_ok_reply
         (PList [PDict [(py "generated_text",
                         PStr (_convert_messages_to_hf hello_messages
                               ++ py " Hello, world!"))]])).

(** A Hugging Face backend that returns the prompt and nothing more. *)
Definition echo_http (n : nat) (url : pystr) (payload : pyval bool) :
    http_outcome bool :=
  HttpReplied
    (http_ok_reply
       (PList [PDict [(py "generated_text",
                       PStr (_convert_messages_to_hf hello_messages))]])).

Definition scripted_parse (cls : provider_class) (data : pyval bool)
    (model_name : pystr) : result bool Response :=
  match cls with
  | OpenAIProvider => Ok (hello_world_response (py "openai") model_name)
  | ClaudeProvider => Ok (hello_world_response (py "claude") model_name)
  | _ => Ok (hello_world_response (py "cohere") model_name)
  end.

Definition scripted_py_str (v : pyval bool) : pystr := py "<object>".

(** The streams of the adapters other than Hugging Face are not scripted. *)
Definition unscripted_stream (messages : list Message)
    (config : GenerationConfig bool) (kw : kwargs bool) :
    generator bool unit :=
  fun w => ({| emitted := []; failure := Some (StreamingError (py "not scripted")) |}, w).

Definition scripted_instantiate (cls : provider_class) (cfg : ProviderConfig) :
    M bool unit (Adapter bool unit) :=
  match cls with
  | OpenAIProvider =>
      ret {| provider_config := cfg;
             adapter_default_model := openai_default_model;
             adapter_generate := openai_generate scripted_http scripted_parse;
             adapter_generate_stream := unscripted_stream |}
  | ClaudeProvider =>
      ret {| provider_config := cfg;
             adapter_default_model := claude_default_model;
             adapter_generate := claude_generate scripted_http scripted_parse;
             adapter_generate_stream := unscripted_stream |}
  | CohereProvider =>
      ret {| provider_config := cfg;
             adapter_default_model := cohere_default_model;
             adapter_generate := cohere_generate scripted_http scripted_parse;
             adapter_generate_stream := unscripted_stream |}
  | HuggingFaceProvider =>
      ret {| provider_config := cfg;
             adapter_default_model := hf_default_model;
             adapter_generate := hf_generate scripted_http scripted_py_str cfg;
             adapter_generate_stream :=
               hf_generate_stream scripted_http scripted_py_str cfg |}
  | GrokProvider =>
      raise (AuthenticationError
               (py "API key not found. Set XAI_API_KEY environment variable or pass api_key parameter.")
               (py "GrokProvider"))
  end.

Definition test_provider_config : ProviderConfig :=
  {| api_key := Some (py "test-key"); api_base := None; organization := None;
     timeout := 30; max_retries := 3 |}.

Definition scripted_adapter (cls : provider_class) :
    Adapter bool unit :=
  match scripted_instantiate cls test_provider_config fresh_world with
  | (Ok a, _) => a
  | (Raise _, _) =>
      {| provider_config := test_provider_config;
         adapter_default_model := [];
         adapter_generate := fun _ _ _ => raise (RuntimeError (py "no adapter"));
         adapter_generate_stream := unscripted_stream |}
  end.

(** [llm(provider=name, fallback_providers=fallbacks)] *)
Definition scripted_generator (name : pystr) (cls : provider_class)
    (fallbacks : list pystr) : LLMGenerator bool unit :=
  {| gen_provider_name := name;
     gen_fallback_providers := fallbacks;
     gen_cache := memory_cache_manager;
     gen_provider := scripted_adapter cls;
     gen_default_model := adapter_default_model (scripted_adapter cls) |}.

Definition scripted_generate (self : LLMGenerator bool unit)
    (messages : list (raw_message bool))
    (stream use_cache : bool) : M bool unit (generated bool unit) :=
  generate two_floats_json (fun s => s) no_redis_get no_redis_setex
    no_pickle_dumps no_pickle_loads (fun s => s) scripted_instantiate
    self messages None None None None stream use_cache [].

Definition hello_raw : list (raw_message bool) :=
  [RawDict [(py "role", PStr (py "user")); (py "content", PStr (py "Hello!"))]].

(** The configuration [generate] builds for a call without parameters. *)
Definition scripted_config (self : LLMGenerator bool unit)
    (stream use_cache : bool) : GenerationConfig bool :=
  {| gc_model := Some (opt_str_or None (gen_default_model self));
     gc_max_tokens := None;
     gc_temperature := None;
     gc_top_p := None;
     gc_stream := stream;
     gc_use_cache := use_cache |}.

Definition openai_with_azure_fallback : LLMGenerator bool unit :=
  scripted_generator (py "openai") OpenAIProvider [py "azure"].

Definition cohere_generator : LLMGenerator bool unit :=
  scripted_generator (py "cohere") CohereProvider [].

Definition hf_with_hf_fallback : LLMGenerator bool unit :=
  scripted_generator (py "huggingface") HuggingFaceProvider [py "hf"].

(** The OpenAI adapter called on the scripted transport. *)
Definition rejected_openai_call : result bool loc * world unit :=
  openai_generate scripted_http scripted_parse hello_messages
    (scripted_config openai_with_azure_fallback false true) [] fresh_world.




(** The transcript sent for [hello_messages], and a completion of it. *)
Definition hello_transcript : pystr := _convert_messages_to_hf hello_messages.

Definition echoed_completion : pystr := hello_transcript ++ py " Hello, world!".

(** ** Further code of the package: credentials and the Claude stream *)

Section LlmxMore.
Context {pyfloat redis_state : Type}.

(** [os.getenv] *)
Context (getenv : pystr -> option pystr).

(** [a or b] on optional strings: [a] when it is a non-empty string. *)
Definition opt_or (a b : option pystr) : option pystr :=
  match a with
  | Some s => if str_truthy s then Some s else b
  | None => b
  end.

(** providers/base.py, [_get_api_key] *)
Definition _get_api_key (config : ProviderConfig) (class_name env_var : pystr) :
    result pyfloat pystr :=
  match opt_or (api_key config) (getenv env_var) with
  | Some key =>
      if str_truthy key then Ok key
      else
        Raise (AuthenticationError
                 (py "API key not found. Set " ++ env_var
                  ++ py " environment variable or pass api_key parameter.")
                 class_name)
  | None =>
      Raise (AuthenticationError
               (py "API key not found. Set " ++ env_var
                ++ py " environment variable or pass api_key parameter.")
               class_name)
  end.

(** The environment variable each class reads, and its name. *)
Definition class_name (cls : provider_class) : pystr :=
  match cls with
  | OpenAIProvider => py "OpenAIProvider"
  | ClaudeProvider => py "ClaudeProvider"
  | GrokProvider => py "GrokProvider"
  | CohereProvider => py "CohereProvider"
  | HuggingFaceProvider => py "HuggingFaceProvider"
  end.

(** [_validate_config] of the four classes whose source is present. *)
Definition openai_validate_config (config : ProviderConfig) : result pyfloat unit :=
  match _get_api_key config (py "OpenAIProvider") (py "OPENAI_API_KEY") with
  | Ok _ => Ok tt
  | Raise e => Raise e
  end.

Definition claude_validate_config (config : ProviderConfig) : result pyfloat unit :=
  match _get_api_key config (py "ClaudeProvider") (py "ANTHROPIC_API_KEY") with
  | Ok _ => Ok tt
  | Raise e => Raise e
  end.

Definition cohere_validate_config (config : ProviderConfig) : result pyfloat unit :=
  match _get_api_key config (py "CohereProvider") (py "COHERE_API_KEY") with
  | Ok _ => Ok tt
  | Raise e => Raise e
  end.

Definition hf_validate_config (config : ProviderConfig) : result pyfloat unit :=
  Ok tt.

(** [_get_headers], as the items of the dictionary. *)
Definition openai_get_headers (config : ProviderConfig) :
    result pyfloat (list (pystr * pystr)) :=
  match _get_api_key config (py "OpenAIProvider") (py "OPENAI_API_KEY") with
  | Ok key =>
      let headers :=
        [(py "Authorization", py "Bearer " ++ key);
         (py "Content-Type", py "application/json")] in
      Ok (match organization config with
          | Some org =>
              if str_truthy org
              then dict_set (py "OpenAI-Organization") org headers
              else headers
          | None => headers
          end)
  | Raise e => Raise e
  end.

Definition claude_get_headers (config : ProviderConfig) :
    result pyfloat (list (pystr * pystr)) :=
  match _get_api_key config (py "ClaudeProvider") (py "ANTHROPIC_API_KEY") with
  | Ok key =>
      Ok [(py "x-api-key", key);
          (py "Content-Type", py "application/json");
          (py "anthropic-version", py "2023-06-01")]
  | Raise e => Raise e
  end.

(** The token is optional: [AuthenticationError] is caught. Any other
    exception would propagate, and [_get_api_key] raises no other. *)
Definition hf_get_headers (config : ProviderConfig) :
    result pyfloat (list (pystr * pystr)) :=
  let headers := [(py "Content-Type", py "application/json")] in
  match _get_api_key config (py "HuggingFaceProvider") (py "HUGGINGFACE_API_TOKEN") with
  | Ok token => Ok (dict_set (py "Authorization") (py "Bearer " ++ token) headers)
  | Raise (AuthenticationError _ _) => Ok headers
  | Raise e => Raise e
  end.

(** *** providers/claude.py: the stream

    [http_stream n url payload] is what [client.stream("POST", ...)] meets
    for the [n]-th request: an exception of the transport, or a response
    with its status, what [response.json()] gives in [_handle_http_error]
    ([None] when it raises, as it does on a body that has not been read),
    the text of its [HTTPStatusError], the lines [iter_lines] yields and the
    exception, if any, that interrupts the iteration after them.
    [json_loads] is [json.loads]; [None] stands for [JSONDecodeError]. *)

Record stream_reply := {
  stream_status : Z;
  stream_json_body : option (pyval pyfloat);
  stream_error_str : pystr;
  stream_lines : list pystr;
  stream_broken : option (exn pyfloat)
}.

Inductive stream_outcome :=
  | StreamFailed (e : exn pyfloat)
  | StreamOpened (r : stream_reply).

Context (http_stream : nat -> pystr -> pyval pyfloat -> stream_outcome).
Context (json_loads : pystr -> option (pyval pyfloat)).

(** [v == s] for a decoded JSON value and a string. *)
Definition pyval_is_str (v : option (pyval pyfloat)) (s : pystr) : bool :=
  match v with
  | Some (PStr t) => pystr_eqb t s
  | _ => false
  end.

(** [_parse_stream_chunk]. [data.get] raises [AttributeError] on anything
    but an object; [StreamChunk(content=...)] accepts a string only. *)
Definition claude_parse_stream_chunk (data : pyval pyfloat) :
    result pyfloat (option StreamChunk) :=
  match data with
  | PDict d =>
      if pyval_is_str (dict_get (py "type") d) (py "content_block_delta") then
        match dict_get (py "delta") d with
        | None => Ok None
        | Some (PDict delta) =>
            if pyval_is_str (dict_get (py "type") delta) (py "text_delta") then
              match dict_get (py "text") delta with
              | None =>
                  Ok (Some {| chunk_content := []; chunk_finish_reason := None;
                              done := false |})
              | Some (PStr t) =>
                  Ok (Some {| chunk_content := t; chunk_finish_reason := None;
                              done := false |})
              | Some _ => Raise PydanticValidationError
              end
            else Ok None
        | Some _ => Raise AttributeError
        end
      else if pyval_is_str (dict_get (py "type") d) (py "message_stop") then
        Ok (Some {| chunk_content := [];
                    chunk_finish_reason := Some (py "stop");
                    done := true |})
      else Ok None
  | _ => Raise AttributeError
  end.

(** The loop over the lines: the chunks yielded, and the exception that
    escapes, if one does. *)
Fixpoint claude_stream_lines (lines : list pystr) :
    list StreamChunk * option (exn pyfloat) :=
  match lines with
  | [] => ([], None)
  | line :: rest =>
      if startswith line (py "data: ") then
        match json_loads (skipn 6 line) with
        | Some chunk_data =>
            match claude_parse_stream_chunk chunk_data with
            | Ok (Some chunk) =>
                let (chunks, failed) := claude_stream_lines rest in
                (chunk :: chunks, failed)
            | Ok None => claude_stream_lines rest
            | Raise e => ([], Some e)
            end
        | None => claude_stream_lines rest
        end
      else claude_stream_lines rest
  end.

Definition claude_stream_payload (model : pystr) (messages : list Message)
    (config : GenerationConfig pyfloat) (kw : kwargs pyfloat) : pyval pyfloat :=
  let (system_message, claude_messages) := claude_convert messages in
  let payload :=
    [(py "model", PStr model);
     (py "messages", PList claude_messages);
     (py "max_tokens", PInt (int_or (gc_max_tokens config) 1024));
     (py "stream", PBool true)] in
  let payload :=
    match system_message with
    | Some s => if str_truthy s then dict_set (py "system") (PStr s) payload else payload
    | None => payload
    end in
  let payload := set_if_not_none (py "temperature") (gc_temperature config) payload in
  let payload := set_if_not_none (py "top_p") (gc_top_p config) payload in
  PDict (dict_update payload kw).

(** [generate_stream]: no retry decorator here. *)
Definition claude_generate_stream (messages : list Message)
    (config : GenerationConfig pyfloat) (kw : kwargs pyfloat) :
    generator pyfloat redis_state :=
  fun w =>
    let model := opt_str_or (gc_model config) claude_default_model in
    match _validate_model (pyfloat:=pyfloat) (py "ClaudeProvider")
            claude_supported_models model with
    | Raise e => ({| emitted := []; failure := Some e |}, w)
    | Ok _ =>
        match http_stream (http_requests w) (py "/messages")
                (claude_stream_payload model messages config kw) with
        | StreamFailed e =>
            ({| emitted := []; failure := Some e |}, request_sent w)
        | StreamOpened r =>
            if ((200 <=? stream_status r) && (stream_status r <=? 299))%Z then
              match claude_stream_lines (stream_lines r) with
              | (chunks, Some e) =>
                  ({| emitted := chunks; failure := Some e |}, request_sent w)
              | (chunks, None) =>
                  ({| emitted := chunks; failure := stream_broken r |},
                   request_sent w)
              end
            else
              ({| emitted := [];
                  failure :=
                    Some (claude_handle_http_error
                            {| status := stream_status r;
                               json_body := stream_json_body r;
                               error_str := stream_error_str r |}) |},
               request_sent w)
        end
    end.

End LlmxMore.

Arguments stream_reply : clear implicits.
Arguments stream_outcome : clear implicits.

(** Managers and stores used to exercise the cache with an external store. *)
Definition redis_manager : CacheManager :=
  {| cm_config := default_cache_config; cm_redis_client := true |}.

Definition disabled_manager : CacheManager :=
  {| cm_config := {| enabled := false; redis_url := None; ttl := 3600;
                     key_prefix := py "llmx:" |};
     cm_redis_client := false |}.

Definition ok_redis_setex (key : pystr) (t : Z) (data : pystr) (s : unit) :
    result bool unit * unit :=
  (Ok tt, s).

Definition full_redis_get (key : pystr) (s : unit) :
    result bool (option pystr) * unit :=
  (Ok (Some (py "pickled")), s).

Definition mock_pickle_dumps (r : Response) : pystr := py "pickled".

Definition mock_pickle_loads (data : pystr) : result bool Response :=
  Ok (hello_world_response (py "test") (py "test-model")).

Definition stored_world : world unit :=
  mkWorld {[ 0%nat := hello_world_response (py "test") (py "test-model") ]}
    1%nat ∅ tt 0%nat 0%nat.

(** A decoded JSON value passed to [generate] as a message: a [dict] is
    taken as one, any other value is rejected with the text of its type. *)
Definition raw_of_pyval {pyfloat} (v : pyval pyfloat) : raw_message pyfloat :=
  match v with
  | PDict d => RawDict d
  | PNone => RawOther (py "<class 'NoneType'>")
  | PBool _ => RawOther (py "<class 'bool'>")
  | PInt _ => RawOther (py "<class 'int'>")
  | PFloat _ => RawOther (py "<class 'float'>")
  | PStr _ => RawOther (py "<class 'str'>")
  | PList _ => RawOther (py "<class 'list'>")
  end.

(** Generators over the scripted transport: OpenAI alone, and OpenAI with
    three fallbacks of which the second is the first to answer. *)
Definition openai_alone : LLMGenerator bool unit :=
  scripted_generator (py "openai") OpenAIProvider [].

Definition openai_with_three_fallbacks : LLMGenerator bool unit :=
  scripted_generator (py "openai") OpenAIProvider
    [py "azure"; py "hf"; py "cohere"].

(** [payload.get(key)] on a request body. *)
Definition payload_get {pyfloat} (key : pystr) (payload : pyval pyfloat) :
    option (pyval pyfloat) :=
  match payload with
  | PDict d => dict_get key d
  | _ => None
  end.

(** The [n]-th request fails (the transport raises, or the reply is outside
    2xx), or is answered within 2xx with the JSON body [data]. *)
Definition request_fails {pyfloat}
    (http_post : nat -> pystr -> pyval pyfloat -> http_outcome pyfloat)
    (n : nat) (url : pystr) (payload : pyval pyfloat) : Prop :=
  match http_post n url payload with
  | HttpFailed _ => True
  | HttpReplied r => is_success r = false
  end.

Definition request_answers {pyfloat}
    (http_post : nat -> pystr -> pyval pyfloat -> http_outcome pyfloat)
    (n : nat) (url : pystr) (payload data : pyval pyfloat) : Prop :=
  exists r, http_post n url payload = HttpReplied r
            /\ is_success r = true /\ json_body r = Some data.

(** The world after a failed attempt, the wait that follows and an attempt
    that built [resp]. *)
Definition after_recovery {redis_state} (resp : Response)
    (w : world redis_state) : world redis_state :=
  mkWorld (<[next_loc w := resp]> (heap w)) (S (next_loc w)) (memory_cache w)
    (redis w) (S (S (http_requests w))) (S (sleeps w)).

(** What a run from [w] may have done: at most [k] requests and [s] waits,
    the caches untouched, and either one [Response] built at the next free
    location (the result) or a heap left as it was. *)
Definition footprint {pyfloat redis_state} (k s : nat) (w : world redis_state)
    (run : result pyfloat loc * world redis_state) : Prop :=
  (http_requests w <= http_requests (snd run) <= http_requests w + k)%nat
  /\ (sleeps w <= sleeps (snd run) <= sleeps w + s)%nat
  /\ memory_cache (snd run) = memory_cache w
  /\ redis (snd run) = redis w
  /\ match fst run with
     | Ok l =>
         l = next_loc w /\ next_loc (snd run) = S (next_loc w)
         /\ exists r, heap (snd run) = <[l := r]> (heap w)
     | Raise _ => heap (snd run) = heap w /\ next_loc (snd run) = next_loc w
     end.

(** A transport that drops the first request and answers the others. *)
Definition flaky_http (n : nat) (url : pystr) (payload : pyval bool) :
    http_outcome bool :=
  if (n =? 0)%nat then HttpFailed (TransportError (py "connection reset"))
  else HttpReplied (http_ok_reply (PDict [(py "text", PStr (py "Hello, world!"))])).

Definition unsupported_model_config : GenerationConfig bool :=
  {| gc_model := Some (py "gpt-5"); gc_max_tokens := None;
     gc_temperature := None; gc_top_p := None;
     gc_stream := false; gc_use_cache := true |}.

(** The code points [json.dumps] may write with [ensure_ascii]. *)
Definition printable_ascii (c : N) : Prop := 32 <= c <= 126.

(** A chunk of the Claude stream is a piece of text, or the final marker. *)
Definition claude_chunk_shape (chunk : StreamChunk) : Prop :=
  if done chunk
  then chunk_content chunk = [] /\ chunk_finish_reason chunk = Some (py "stop")
  else chunk_finish_reason chunk = None.

(** A line of the stream that the loop looks at: it starts with [data: ] and
    what follows decodes. *)
Definition claude_relevant_line {pyfloat}
    (json_loads : pystr -> option (pyval pyfloat)) (line : pystr) : bool :=
  startswith line (py "data: ")
  && match json_loads (skipn 6 line) with Some _ => true | None => false end.

(** A streaming endpoint that refuses the key, and a decoder that is never
    reached. *)
Definition unauthorized_stream (n : nat) (url : pystr) (payload : pyval bool) :
    stream_outcome bool :=
  StreamOpened
    {| stream_status := 401; stream_json_body := None;
       stream_error_str := py "HTTP error"; stream_lines := [];
       stream_broken := None |}.

Definition no_json_loads (s : pystr) : option (pyval bool) := None.

Definition claude_stream_config : GenerationConfig bool :=
  {| gc_model := None; gc_max_tokens := None; gc_temperature := None;
     gc_top_p := None; gc_stream := true; gc_use_cache := true |}.

(** A configuration that names a model of the OpenAI list. *)
Definition gpt4_config : GenerationConfig bool :=
  {| gc_model := Some (py "gpt-4"); gc_max_tokens := None;
     gc_temperature := None; gc_top_p := None;
     gc_stream := false; gc_use_cache := true |}.


(** * Part II: properties *)

(** Linear arithmetic with division and remainder by constants. *)
Ltac lia_div := zify; Z.to_euclidean_division_equations; lia.

(** String literals are kept folded by [simpl] and spelled out on demand. *)
Arguments py : simpl never.
Arguments repr_int : simpl never.
Arguments escape_char : simpl never.

Ltac py_lits :=
  repeat match goal with
  | |- context [py ?s] =>
      let v := eval vm_compute in (py s) in change (py s) with v
  end.

Ltac py_lits_in H :=
  repeat match type of H with
  | context [py ?s] =>
      let v := eval vm_compute in (py s) in change (py s) with v in H
  end.

(** ** Decimal and hexadecimal digits *)

Lemma of_string_inj (a b : string) : of_string a = of_string b -> a = b.
Proof.
  revert b. induction a as [|x a IH]; intros [|y b] H; simpl in H;
    try discriminate; [reflexivity|].
  injection H as Hxy Hab. f_equal; [|auto].
  rewrite <- (ascii_N_embedding x), <- (ascii_N_embedding y). congruence.
Qed.

Lemma repr_int_inj (x y : Z) : repr_int x = repr_int y -> x = y.
Proof. intros H. apply of_string_inj in H. by apply (inj pretty) in H. Qed.

Lemma pretty_N_char_digit (x : N) : int_char (N_of_ascii (pretty_N_char x)).
Proof. unfold pretty_N_char, int_char. repeat case_match; simpl; lia. Qed.

Lemma pretty_N_go_chars (x : N) (s : string) :
  Forall int_char (of_string s) -> Forall int_char (of_string (pretty_N_go x s)).
Proof.
  revert s. induction (N.lt_wf_0 x) as [x _ IH]; intros s Hs.
  destruct (decide (x = 0)) as [->|Hx].
  - by rewrite pretty_N_go_0.
  - rewrite pretty_N_go_step by lia. apply IH.
    + apply N.div_lt; lia.
    + simpl. constructor; [apply pretty_N_char_digit | exact Hs].
Qed.

Lemma repr_int_chars (z : Z) : Forall int_char (repr_int z).
Proof.
  unfold repr_int, pretty, pretty_Z, pretty, pretty_positive, pretty, pretty_N.
  destruct z as [|p|p]; simpl.
  - constructor; [right; lia | constructor].
  - apply pretty_N_go_chars. constructor.
  - constructor; [left; reflexivity|]. apply pretty_N_go_chars. constructor.
Qed.

Lemma unhex_hex_digit (d : N) : d < 16 -> unhex_digit (hex_digit d) = Some d.
Proof.
  intros Hd. unfold hex_digit, unhex_digit.
  destruct (N.ltb_spec d 10).
  - replace ((48 <=? 48 + d) && (48 + d <=? 57)) with true
      by (symmetry; apply andb_true_iff; split; apply N.leb_le; lia).
    f_equal. lia.
  - replace ((48 <=? 87 + d) && (87 + d <=? 57)) with false
      by (symmetry; apply andb_false_iff; right; apply N.leb_gt; lia).
    replace ((97 <=? 87 + d) && (87 + d <=? 102)) with true
      by (symmetry; apply andb_true_iff; split; apply N.leb_le; lia).
    f_equal. lia.
Qed.

Lemma hex4_sum (c : N) :
  c < 65536 ->
  4096 * (c / 4096 mod 16) + 256 * (c / 256 mod 16) + 16 * (c / 16 mod 16)
    + c mod 16 = c.
Proof. intros Hc. lia_div. Qed.

Lemma unhex4_hex4 (c : N) (r : pystr) :
  c < 65536 -> unhex4 (hex4 c ++ r) = Some (c, r).
Proof.
  intros Hc. unfold hex4, unhex4. simpl.
  rewrite !unhex_hex_digit by (apply N.mod_lt; lia).
  by rewrite hex4_sum.
Qed.

(** ** One escaped code point reads back *)

Lemma lor_surrogate_table :
  forallb (fun x => (N.lor 55296 x =? 55296 + x) && (N.lor 56320 x =? 56320 + x))
    (List.map N.of_nat (seq 0 1024)) = true.
Proof. vm_compute. reflexivity. Qed.

Lemma lor_surrogate (x : N) :
  x < 1024 -> N.lor 55296 x = 55296 + x /\ N.lor 56320 x = 56320 + x.
Proof.
  intros Hx. pose proof lor_surrogate_table as T.
  rewrite forallb_forall in T. specialize (T x).
  rewrite andb_true_iff, !N.eqb_eq in T. apply T.
  rewrite <- (N2Nat.id x). apply in_map, in_seq. lia.
Qed.

Lemma high_unit (n : N) :
  n < 1048576 -> N.lor 55296 (N.land (N.shiftr n 10) 1023) = 55296 + n / 1024.
Proof.
  intros Hn. rewrite N.shiftr_div_pow2. change 1023 with (N.ones 10).
  rewrite N.land_ones. change (2 ^ 10) with 1024.
  assert (n / 1024 < 1024) by (apply N.Div0.div_lt_upper_bound; lia).
  rewrite N.mod_small by assumption. by apply lor_surrogate.
Qed.

Lemma low_unit (n : N) : N.lor 56320 (N.land n 1023) = 56320 + n mod 1024.
Proof.
  change 1023 with (N.ones 10). rewrite N.land_ones. change (2 ^ 10) with 1024.
  apply lor_surrogate. apply N.mod_lt. lia.
Qed.

Lemma read_u_escape_hex4 (c : N) (r : pystr) :
  c < 65536 -> read_u_escape (92 :: 117 :: hex4 c ++ r) = Some (c, r).
Proof. intros Hc. unfold read_u_escape. simpl. by apply unhex4_hex4. Qed.

Lemma unescape_one_u (x : pystr) :
  unescape_one (92 :: 117 :: x) =
    match read_u_escape (92 :: 117 :: x) with
    | Some (v, r1) =>
        if is_high_surrogate v then
          match read_u_escape r1 with
          | Some (v', r2) =>
              if is_low_surrogate v'
              then Some (65536 + (v - 55296) * 1024 + (v' - 56320), r2)
              else Some (v, r1)
          | None => Some (v, r1)
          end
        else Some (v, r1)
    | None => None
    end.
Proof. reflexivity. Qed.

Lemma unescape_escape_char (c : N) (r : pystr) :
  code_point c ->
  (is_high_surrogate c = true -> low_escape_ahead r = false) ->
  unescape_one (escape_char c ++ r) = Some (c, r).
Proof.
  intros Hc Hahead. unfold escape_char.
  repeat match goal with
  | |- context [N.eqb c ?k] => destruct (N.eqb_spec c k) as [->|?]; [reflexivity|]
  end.
  destruct (andb (32 <=? c) (c <=? 126)) eqn:Hprint.
  - simpl. rewrite (proj2 (N.eqb_neq c 34)), (proj2 (N.eqb_neq c 92)) by assumption.
    reflexivity.
  - destruct (N.ltb_spec c 65536) as [Hbmp|Hastral].
    + change (([92; 117] ++ hex4 c) ++ r) with (92 :: 117 :: hex4 c ++ r).
      rewrite unescape_one_u, read_u_escape_hex4 by assumption.
      destruct (is_high_surrogate c) eqn:Hhigh; [|reflexivity].
      specialize (Hahead eq_refl). unfold low_escape_ahead in Hahead.
      destruct (read_u_escape r) as [[v' r2]|]; [|reflexivity].
      by rewrite Hahead.
    + unfold code_point in Hc. cbv zeta.
      remember (c - 65536) as off eqn:Hoff.
      assert (off < 1048576) by lia.
      rewrite high_unit, low_unit by lia.
      rewrite <- !app_assoc.
      change ([92; 117] ++ hex4 (55296 + off / 1024) ++ ?x)
        with (92 :: 117 :: hex4 (55296 + off / 1024) ++ x).
      rewrite unescape_one_u, read_u_escape_hex4 by lia_div.
      replace (is_high_surrogate (55296 + off / 1024)) with true
        by (symmetry; apply andb_true_iff; split; apply N.leb_le; lia_div).
      change ([92; 117] ++ hex4 (56320 + off mod 1024) ++ r)
        with (92 :: 117 :: hex4 (56320 + off mod 1024) ++ r).
      rewrite read_u_escape_hex4 by lia_div.
      replace (is_low_surrogate (56320 + off mod 1024)) with true
        by (symmetry; apply andb_true_iff; split; apply N.leb_le; lia_div).
      f_equal. f_equal. lia_div.
Qed.


(** ** Escaped strings are self-delimiting *)

Lemma low_escape_ahead_quote (r : pystr) : low_escape_ahead (34 :: r) = false.
Proof. by destruct r. Qed.

Lemma low_escape_ahead_escape (d : N) (x : pystr) :
  code_point d -> is_low_surrogate d = false ->
  low_escape_ahead (escape_char d ++ x) = false.
Proof.
  intros Hd Hlow. unfold escape_char.
  repeat match goal with
  | |- context [N.eqb d ?k] => destruct (N.eqb_spec d k) as [->|?]; [reflexivity|]
  end.
  destruct (andb (32 <=? d) (d <=? 126)) eqn:Hprint.
  - unfold low_escape_ahead, read_u_escape. simpl.
    destruct x as [|e x]; [reflexivity|].
    by rewrite (proj2 (N.eqb_neq d 92)) by assumption.
  - unfold low_escape_ahead. destruct (N.ltb_spec d 65536) as [Hbmp|Hastral].
    + change (([92; 117] ++ hex4 d) ++ x) with (92 :: 117 :: hex4 d ++ x).
      by rewrite read_u_escape_hex4.
    + unfold code_point in Hd. cbv zeta.
      remember (d - 65536) as off eqn:Hoff.
      assert (off < 1048576) by lia.
      rewrite high_unit by lia. rewrite <- !app_assoc.
      change ([92; 117] ++ hex4 (55296 + off / 1024) ++ ?y)
        with (92 :: 117 :: hex4 (55296 + off / 1024) ++ y).
      rewrite read_u_escape_hex4 by lia_div.
      apply andb_false_iff. left. apply N.leb_gt. lia_div.
Qed.

Lemma wf_str_cons_inv (c : N) (s : pystr) :
  wf_str (c :: s) -> code_point c /\ wf_str s.
Proof.
  intros [Hcp Hpair]. inversion Hcp as [|? ? Hc Hs]; subst.
  split; [assumption|]. split; [assumption|].
  destruct s as [|d s]; [reflexivity|].
  simpl in Hpair. apply andb_true_iff in Hpair. apply Hpair.
Qed.

Lemma wf_str_ahead (c : N) (s r : pystr) :
  wf_str (c :: s) -> is_high_surrogate c = true ->
  low_escape_ahead (flat_map escape_char s ++ 34 :: r) = false.
Proof.
  intros Hwf Hhigh. destruct s as [|d s].
  - apply low_escape_ahead_quote.
  - destruct Hwf as [Hcp Hpair]. simpl in Hpair. rewrite Hhigh in Hpair.
    apply andb_true_iff in Hpair as [Hlow _]. apply negb_true_iff in Hlow.
    simpl in Hlow. simpl. rewrite <- app_assoc.
    apply low_escape_ahead_escape; [|assumption].
    inversion Hcp as [|? ? _ Hs]; subst. by inversion Hs.
Qed.

Lemma escape_lockstep (s1 s2 r1 r2 : pystr) :
  wf_str s1 -> wf_str s2 ->
  flat_map escape_char s1 ++ 34 :: r1 = flat_map escape_char s2 ++ 34 :: r2 ->
  s1 = s2 /\ r1 = r2.
Proof.
  revert s2. induction s1 as [|c1 s1 IH]; intros [|c2 s2] Hw1 Hw2 H.
  - simpl in H. by injection H as ->.
  - exfalso. apply (f_equal unescape_one) in H. simpl flat_map in H.
    rewrite <- app_assoc in H.
    rewrite unescape_escape_char in H
      by (first [apply (wf_str_cons_inv _ _ Hw2) | by apply wf_str_ahead]).
    discriminate H.
  - exfalso. apply (f_equal unescape_one) in H. simpl flat_map in H.
    rewrite <- app_assoc in H.
    rewrite unescape_escape_char in H
      by (first [apply (wf_str_cons_inv _ _ Hw1) | by apply wf_str_ahead]).
    discriminate H.
  - apply (f_equal unescape_one) in H. simpl flat_map in H.
    rewrite <- !app_assoc in H.
    rewrite !unescape_escape_char in H
      by (first [apply (wf_str_cons_inv _ _ Hw1) | apply (wf_str_cons_inv _ _ Hw2)
                | by apply wf_str_ahead]).
    injection H as -> H.
    destruct (IH s2 (proj2 (wf_str_cons_inv _ _ Hw1))
                (proj2 (wf_str_cons_inv _ _ Hw2)) H) as [-> ->].
    by split.
Qed.

Lemma encode_basestring_lockstep (s1 s2 r1 r2 : pystr) :
  wf_str s1 -> wf_str s2 ->
  encode_basestring_ascii s1 ++ r1 = encode_basestring_ascii s2 ++ r2 ->
  s1 = s2 /\ r1 = r2.
Proof.
  intros Hw1 Hw2 H. unfold encode_basestring_ascii in H. simpl in H.
  injection H as H. rewrite <- !app_assoc in H. simpl in H.
  by apply escape_lockstep.
Qed.

(** ** Fields of the cache string are self-delimiting *)

Lemma sep_lockstep (P : N -> Prop) (a b : pystr) (c d : N) (r1 r2 : pystr) :
  Forall P a -> Forall P b -> ~ P c -> ~ P d ->
  a ++ c :: r1 = b ++ d :: r2 -> a = b /\ c :: r1 = d :: r2.
Proof.
  revert b. induction a as [|x a IH]; intros [|y b] Ha Hb Hc Hd H; simpl in H.
  - by split.
  - injection H as -> _. inversion Hb; subst. contradiction.
  - injection H as -> _. inversion Ha; subst. contradiction.
  - injection H as -> H. inversion Ha; inversion Hb; subst.
    destruct (IH b) as [-> ?]; auto.
Qed.

Lemma int_char_not_comma : ~ int_char 44.
Proof. unfold int_char. lia. Qed.

Lemma null_not_int : ~ Forall int_char (py "null").
Proof.
  py_lits. intros H. inversion H as [|? ? Hn _]. unfold int_char in Hn. lia.
Qed.

Lemma opt_int_lockstep (o1 o2 : option Z) (r1 r2 : pystr) :
  dump_opt repr_int o1 ++ py ", " ++ r1 = dump_opt repr_int o2 ++ py ", " ++ r2 ->
  o1 = o2 /\ r1 = r2.
Proof.
  change (py ", " ++ r1) with (44 :: 32 :: r1).
  change (py ", " ++ r2) with (44 :: 32 :: r2).
  assert (Forall (fun c => c <> 44) (py "null")) as Hnull
    by (py_lits; repeat constructor; discriminate).
  assert (forall z, Forall (fun c => c <> 44) (repr_int z)) as Hint.
  { intros z. eapply Forall_impl; [apply repr_int_chars|].
    intros c Hc ->. by apply int_char_not_comma. }
  intros H.
  apply (sep_lockstep (fun c => c <> 44)) in H as [H1 H2];
    [| destruct o1; cbn [dump_opt]; auto | destruct o2; cbn [dump_opt]; auto | tauto | tauto].
  injection H2 as ->. split; [|reflexivity].
  destruct o1 as [z1|], o2 as [z2|]; cbn [dump_opt] in H1.
  - f_equal. by apply repr_int_inj.
  - exfalso. apply null_not_int. rewrite <- H1. apply repr_int_chars.
  - exfalso. apply null_not_int. rewrite H1. apply repr_int_chars.
  - reflexivity.
Qed.

Lemma opt_str_lockstep (o1 o2 : option pystr) (r1 r2 : pystr) :
  (forall s, o1 = Some s -> wf_str s) -> (forall s, o2 = Some s -> wf_str s) ->
  dump_opt encode_basestring_ascii o1 ++ r1
    = dump_opt encode_basestring_ascii o2 ++ r2 ->
  o1 = o2 /\ r1 = r2.
Proof.
  intros Hw1 Hw2 H. destruct o1 as [s1|], o2 as [s2|]; cbn [dump_opt] in H.
  - apply encode_basestring_lockstep in H as [-> ->]; auto.
  - py_lits_in H. discriminate H.
  - py_lits_in H. discriminate H.
  - apply app_inv_head in H. by subst.
Qed.

Lemma float_char_not_sep (c : N) : float_char c -> c <> 44 /\ c <> 125.
Proof.
  unfold float_char. py_lits. simpl. intros H.
  repeat (destruct H as [<-|H]; [split; discriminate|]). destruct H.
Qed.

Lemma null_not_float : ~ Forall float_char (py "null").
Proof.
  unfold float_char. py_lits.
  intros H. inversion H as [|? ? _ H1]. inversion H1 as [|? ? Hu _].
  simpl in Hu.
  repeat (destruct Hu as [Hu|Hu]; [discriminate Hu|]). destruct Hu.
Qed.

Section FloatField.
Context {pyfloat : Type} (float_json : pyfloat -> pystr).
Hypothesis float_json_inj : forall f g, float_json f = float_json g -> f = g.
Hypothesis float_json_chars : forall f, Forall float_char (float_json f).

Lemma opt_float_lockstep (k : N) (o1 o2 : option pyfloat) (r1 r2 : pystr) :
  k = 44 \/ k = 125 ->
  dump_opt float_json o1 ++ k :: r1 = dump_opt float_json o2 ++ k :: r2 ->
  o1 = o2 /\ r1 = r2.
Proof using float_json_inj float_json_chars.
  intros Hk H.
  assert (Forall (fun c => c <> 44 /\ c <> 125) (py "null")) as Hnull
    by (py_lits; repeat constructor; discriminate).
  assert (forall f, Forall (fun c => c <> 44 /\ c <> 125) (float_json f)) as Hfl.
  { intros f. eapply Forall_impl; [apply float_json_chars|].
    apply float_char_not_sep. }
  apply (sep_lockstep (fun c => c <> 44 /\ c <> 125)) in H as [H1 H2];
    [| destruct o1; cbn [dump_opt]; auto | destruct o2; cbn [dump_opt]; auto | tauto | tauto].
  injection H2 as ->. split; [|reflexivity].
  destruct o1 as [f1|], o2 as [f2|]; cbn [dump_opt] in H1.
  - f_equal. by apply float_json_inj.
  - exfalso. apply null_not_float. rewrite <- H1. apply float_json_chars.
  - exfalso. apply null_not_float. rewrite H1. apply float_json_chars.
  - reflexivity.
Qed.
End FloatField.

(** ** Messages *)

Lemma role_str_wf (r : role) : wf_str (role_str r).
Proof.
  destruct r; (split; [|reflexivity]); unfold role_str; py_lits;
    repeat constructor.
Qed.

Lemma role_str_inj (r1 r2 : role) : role_str r1 = role_str r2 -> r1 = r2.
Proof.
  destruct r1, r2; unfold role_str; py_lits; intros H;
    first [reflexivity | discriminate H].
Qed.

Lemma join_cons (sep x : pystr) (l : list pystr) :
  join sep (x :: l) = x ++ flat_map (app sep) l.
Proof.
  revert x. induction l as [|y l IH]; intros x.
  - simpl. by rewrite app_nil_r.
  - change (join sep (x :: y :: l)) with (x ++ sep ++ join sep (y :: l)).
    rewrite IH. simpl. by rewrite <- app_assoc.
Qed.

Section CacheString.
Context {pyfloat : Type} (float_json : pyfloat -> pystr).

Lemma message_dump_eq (m : Message) :
  json_dumps float_json (message_dict m) =
    py "{"
    ++ (dump_item (py "content", encode_basestring_ascii (msg_content m))
        ++ py ", "
        ++ dump_item (py "role", encode_basestring_ascii (role_str (msg_role m))))
    ++ py "}".
Proof. reflexivity. Qed.

Lemma message_lockstep (m1 m2 : Message) (x y : pystr) :
  wf_str (msg_content m1) -> wf_str (msg_content m2) ->
  json_dumps float_json (message_dict m1) ++ x
    = json_dumps float_json (message_dict m2) ++ y ->
  m1 = m2 /\ x = y.
Proof.
  intros Hw1 Hw2 H. rewrite !message_dump_eq in H.
  unfold dump_item in H. cbn [fst snd] in H. rewrite <- !app_assoc in H.
  do 3 apply app_inv_head in H.
  apply encode_basestring_lockstep in H as [Hc H]; [|assumption..].
  do 3 apply app_inv_head in H.
  apply encode_basestring_lockstep in H as [Hr H]; [|apply role_str_wf..].
  apply app_inv_head in H. apply role_str_inj in Hr.
  destruct m1, m2; simpl in *. by subst.
Qed.

Lemma message_dump_head (m : Message) :
  exists t, json_dumps float_json (message_dict m) = 123 :: t.
Proof. rewrite message_dump_eq. py_lits. by eexists. Qed.

Lemma messages_tail_lockstep (l1 l2 : list Message) (r1 r2 : pystr) :
  messages_wf l1 -> messages_wf l2 ->
  flat_map (app (py ", ")) (List.map (fun m => json_dumps float_json (message_dict m)) l1)
    ++ 93 :: r1
  = flat_map (app (py ", ")) (List.map (fun m => json_dumps float_json (message_dict m)) l2)
    ++ 93 :: r2 ->
  l1 = l2 /\ r1 = r2.
Proof.
  revert l2. induction l1 as [|m1 l1 IH]; intros [|m2 l2] Hw1 Hw2 H;
    cbn [flat_map List.map] in H.
  - simpl in H. by injection H as ->.
  - py_lits_in H. discriminate H.
  - py_lits_in H. discriminate H.
  - rewrite <- !app_assoc in H. apply app_inv_head in H.
    inversion Hw1; inversion Hw2; subst.
    apply message_lockstep in H as [-> H]; [|assumption..].
    destruct (IH l2) as [-> ->]; auto.
Qed.

Lemma messages_lockstep (l1 l2 : list Message) (r1 r2 : pystr) :
  messages_wf l1 -> messages_wf l2 ->
  join (py ", ") (List.map (fun m => json_dumps float_json (message_dict m)) l1)
    ++ 93 :: r1
  = join (py ", ") (List.map (fun m => json_dumps float_json (message_dict m)) l2)
    ++ 93 :: r2 ->
  l1 = l2 /\ r1 = r2.
Proof.
  intros Hw1 Hw2 H. destruct l1 as [|m1 l1], l2 as [|m2 l2].
  - simpl in H. by injection H as ->.
  - exfalso. rewrite map_cons, join_cons in H.
    destruct (message_dump_head m2) as [t Ht]. rewrite Ht in H.
    discriminate H.
  - exfalso. rewrite map_cons, join_cons in H.
    destruct (message_dump_head m1) as [t Ht]. rewrite Ht in H.
    discriminate H.
  - rewrite !map_cons, !join_cons, <- !app_assoc in H.
    inversion Hw1; inversion Hw2; subst.
    apply message_lockstep in H as [-> H]; [|assumption..].
    apply messages_tail_lockstep in H as [-> ->]; auto.
Qed.

Lemma cache_string_eq (msgs : list Message) (cfg : GenerationConfig pyfloat)
    (prov : pystr) :
  cache_string float_json msgs cfg prov =
    py "{"
    ++ (dump_item (py "max_tokens", dump_opt repr_int (gc_max_tokens cfg))
        ++ py ", "
        ++ dump_item (py "messages",
             py "["
             ++ join (py ", ")
                  (List.map (fun m => json_dumps float_json (message_dict m)) msgs)
             ++ py "]")
        ++ py ", "
        ++ dump_item (py "model",
             dump_opt encode_basestring_ascii (gc_model cfg))
        ++ py ", "
        ++ dump_item (py "provider", encode_basestring_ascii prov)
        ++ py ", "
        ++ dump_item (py "temperature", dump_opt float_json (gc_temperature cfg))
        ++ py ", "
        ++ dump_item (py "top_p", dump_opt float_json (gc_top_p cfg)))
    ++ py "}".
Proof.
  rewrite <- (List.map_map message_dict (json_dumps float_json)).
  unfold cache_string, cache_data.
  destruct (gc_max_tokens cfg), (gc_model cfg), (gc_temperature cfg),
    (gc_top_p cfg); reflexivity.
Qed.

Lemma cache_string_same_fields (msgs : list Message)
    (c1 c2 : GenerationConfig pyfloat) (prov : pystr) :
  same_key_fields c1 c2 ->
  cache_string float_json msgs c1 prov = cache_string float_json msgs c2 prov.
Proof.
  intros (Hm & Ht & Htemp & Hp). unfold cache_string, cache_data.
  by rewrite Hm, Ht, Htemp, Hp.
Qed.

Hypothesis float_json_inj : forall f g, float_json f = float_json g -> f = g.
Hypothesis float_json_chars : forall f, Forall float_char (float_json f).

Lemma cache_string_inj (m1 m2 : list Message)
    (c1 c2 : GenerationConfig pyfloat) (p1 p2 : pystr) :
  key_inputs_wf m1 c1 p1 -> key_inputs_wf m2 c2 p2 ->
  cache_string float_json m1 c1 p1 = cache_string float_json m2 c2 p2 ->
  m1 = m2 /\ same_key_fields c1 c2 /\ p1 = p2.
Proof using float_json_inj float_json_chars.
  intros (Hm1 & Hmod1 & Hp1) (Hm2 & Hmod2 & Hp2) H.
  rewrite !cache_string_eq in H. unfold dump_item in H. cbn [fst snd] in H.
  rewrite <- !app_assoc in H.
  do 3 apply app_inv_head in H.
  apply opt_int_lockstep in H as [Hmt H].
  do 3 apply app_inv_head in H.
  change (py "]" ++ ?x) with (93 :: x) in H.
  apply messages_lockstep in H as [Hmsgs H]; [|assumption..].
  do 3 apply app_inv_head in H.
  apply opt_str_lockstep in H as [Hmodel H]; [|assumption..].
  do 3 apply app_inv_head in H.
  apply encode_basestring_lockstep in H as [Hprov H]; [|assumption..].
  do 3 apply app_inv_head in H.
  change (py ", " ++ ?x) with (44 :: 32 :: x) in H.
  apply (opt_float_lockstep float_json float_json_inj float_json_chars) in H
    as [Htemp H]; [|by left].
  injection H as H.
  change (py "}") with [125] in H.
  apply (opt_float_lockstep float_json float_json_inj float_json_chars) in H
    as [Htop _]; [|by right].
  repeat split; assumption.
Qed.
End CacheString.

(** ** The cache key *)

(** C1, counterexample. A content made of the surrogates D83D DE00 and a
    content made of the single code point U+1F600 are different strings, and
    [json.dumps] writes both as the same twelve characters: the two requests
    get the same cache string, hence the same key under every digest. *)
Lemma get_cache_key_surrogate_collision :
  surrogate_messages <> astral_messages
  /\ cache_string two_floats_json surrogate_messages example_config (py "openai")
     = cache_string two_floats_json astral_messages example_config (py "openai")
  /\ forall digest : pystr -> pystr,
       get_cache_key two_floats_json digest default_cache_config
         surrogate_messages example_config (py "openai")
       = get_cache_key two_floats_json digest default_cache_config
           astral_messages example_config (py "openai").
Proof.
  assert (cache_string two_floats_json surrogate_messages example_config (py "openai")
          = cache_string two_floats_json astral_messages example_config (py "openai"))
    as Hcs by (vm_compute; reflexivity).
  split; [discriminate|]. split; [exact Hcs|].
  intros digest. unfold get_cache_key. by rewrite Hcs.
Qed.

(** C1, as amended. [get_cache_key] is a function of the messages, of the
    model, max_tokens, temperature and top_p of the configuration and of the
    provider name: equal inputs give equal keys. Conversely, when the strings
    involved are Python strings in which no high surrogate is immediately
    followed by a low surrogate, the canonical serialization is injective:
    two requests whose keys agree, and whose cache strings the digest does
    not collide on, have the same messages (content, role and order), the
    same four parameters and the same provider name. The text written for a
    float is assumed to determine the float and to be made of the characters
    of a JSON number, of NaN and of Infinity, as [float.__repr__] does (all
    NaNs counting as one value). *)
Theorem get_cache_key_deterministic_and_sensitive
    {pyfloat : Type} (float_json : pyfloat -> pystr)
    (sha256_hexdigest : pystr -> pystr) (cc : CacheConfig)
    (m1 m2 : list Message) (c1 c2 : GenerationConfig pyfloat) (p1 p2 : pystr) :
  (forall f g, float_json f = float_json g -> f = g) ->
  (forall f, Forall float_char (float_json f)) ->
  key_inputs_wf m1 c1 p1 -> key_inputs_wf m2 c2 p2 ->
  (m1 = m2 -> same_key_fields c1 c2 -> p1 = p2 ->
   get_cache_key float_json sha256_hexdigest cc m1 c1 p1
   = get_cache_key float_json sha256_hexdigest cc m2 c2 p2)
  /\ ((sha256_hexdigest (cache_string float_json m1 c1 p1)
       = sha256_hexdigest (cache_string float_json m2 c2 p2) ->
       cache_string float_json m1 c1 p1 = cache_string float_json m2 c2 p2) ->
      get_cache_key float_json sha256_hexdigest cc m1 c1 p1
      = get_cache_key float_json sha256_hexdigest cc m2 c2 p2 ->
      m1 = m2 /\ same_key_fields c1 c2 /\ p1 = p2).
Proof.
  intros Hinj Hchars Hw1 Hw2. split.
  - intros -> Hsame ->. unfold get_cache_key.
    by rewrite (cache_string_same_fields float_json m2 c1 c2 p2 Hsame).
  - intros Hfree Hkey. unfold get_cache_key in Hkey.
    apply app_inv_head in Hkey.
    apply (cache_string_inj float_json Hinj Hchars); auto.
Qed.

Lemma two_floats_json_inj (f g : bool) :
  two_floats_json f = two_floats_json g -> f = g.
Proof. destruct f, g; vm_compute; intros H; first [reflexivity | discriminate H]. Qed.

Lemma two_floats_json_chars (f : bool) : Forall float_char (two_floats_json f).
Proof.
  destruct f; unfold two_floats_json, float_char; py_lits;
    repeat (constructor;
            [simpl; repeat (first [left; reflexivity | right])|]);
    constructor.
Qed.

Lemma ascii_wf_str (s : string) : wf_str (py s).
Proof.
  unfold py. induction s as [|a s IH]; [by split; [constructor|]|].
  assert (N_of_ascii a < 256) as Ha by apply N_ascii_bounded.
  destruct IH as [IH1 IH2]. split.
  - constructor; [unfold code_point; lia | exact IH1].
  - simpl. destruct (of_string s) as [|d r] eqn:E; [reflexivity|].
    apply andb_true_iff. split; [|exact IH2].
    apply negb_true_iff, andb_false_iff. left.
    apply andb_false_iff. left. apply N.leb_gt. lia.
Qed.

Lemma example_inputs_wf (msgs : list Message) :
  messages_wf msgs -> key_inputs_wf msgs example_config (py "openai").
Proof.
  intros H. split; [exact H|]. split; [|apply ascii_wf_str].
  intros s [= <-]. apply ascii_wf_str.
Qed.

Lemma get_cache_key_deterministic_and_sensitive_witness :
  key_inputs_wf hello_messages example_config (py "openai")
  /\ key_inputs_wf hi_messages example_config (py "openai")
  /\ (hello_messages = hi_messages ->
      same_key_fields example_config example_config ->
      py "openai" = py "openai" ->
      get_cache_key two_floats_json (fun s => s) default_cache_config
        hello_messages example_config (py "openai")
      = get_cache_key two_floats_json (fun s => s) default_cache_config
          hi_messages example_config (py "openai"))
  /\ ((cache_string two_floats_json hello_messages example_config (py "openai")
       = cache_string two_floats_json hi_messages example_config (py "openai") ->
       cache_string two_floats_json hello_messages example_config (py "openai")
       = cache_string two_floats_json hi_messages example_config (py "openai")) ->
      get_cache_key two_floats_json (fun s => s) default_cache_config
        hello_messages example_config (py "openai")
      = get_cache_key two_floats_json (fun s => s) default_cache_config
          hi_messages example_config (py "openai") ->
      hello_messages = hi_messages
      /\ same_key_fields example_config example_config
      /\ py "openai" = py "openai").
Proof.
  assert (key_inputs_wf hello_messages example_config (py "openai")) as H1
    by (apply example_inputs_wf; repeat constructor; apply ascii_wf_str).
  assert (key_inputs_wf hi_messages example_config (py "openai")) as H2
    by (apply example_inputs_wf; repeat constructor; apply ascii_wf_str).
  split; [exact H1|]. split; [exact H2|].
  exact (get_cache_key_deterministic_and_sensitive two_floats_json (fun s => s)
           default_cache_config hello_messages hi_messages
           example_config example_config (py "openai") (py "openai")
           two_floats_json_inj two_floats_json_chars H1 H2).
Defined.

(** ** The cache manager *)

Section CacheManagerProps.
Context {pyfloat redis_state : Type}.
Context (redis_get : pystr -> redis_state -> result pyfloat (option pystr) * redis_state).
Context (redis_setex :
  pystr -> Z -> pystr -> redis_state -> result pyfloat unit * redis_state).
Context (redis_keys :
  pystr -> redis_state -> result pyfloat (list pystr) * redis_state).
Context (redis_delete :
  list pystr -> redis_state -> result pyfloat unit * redis_state).
Context (pickle_dumps : Response -> pystr).
Context (pickle_loads : pystr -> result pyfloat Response).

Context (self : CacheManager).
Hypothesis cache_enabled : enabled (cm_config self) = true.
Hypothesis no_redis : cm_redis_client self = false.

Lemma cache_get_memory (key : pystr) (w : world redis_state) :
  cache_get redis_get pickle_loads self key w = (Ok (memory_cache w !! key), w).
Proof using cache_enabled no_redis.
  unfold cache_get. by rewrite cache_enabled, no_redis.
Qed.

Lemma cache_set_memory (key : pystr) (r : loc) (w : world redis_state) :
  cache_set redis_setex pickle_dumps self key r w
  = (Ok tt, set_memory_cache (<[key := r]> (memory_cache w)) w).
Proof using cache_enabled no_redis.
  unfold cache_set. by rewrite cache_enabled, no_redis.
Qed.

Lemma cache_clear_memory (w : world redis_state) :
  cache_clear redis_keys redis_delete self w = (Ok tt, set_memory_cache ∅ w).
Proof using cache_enabled no_redis.
  unfold cache_clear. by rewrite cache_enabled, no_redis.
Qed.

Lemma cache_set_all_memory (entries : list (pystr * loc)) (w : world redis_state) :
  exists m,
    cache_set_all redis_setex pickle_dumps self entries w
    = (Ok tt, set_memory_cache m w)
    /\ forall k, k ∉ List.map fst entries -> m !! k = memory_cache w !! k.
Proof using cache_enabled no_redis.
  revert w. induction entries as [|[k r] rest IH]; intros w.
  - exists (memory_cache w). split; [by destruct w|done].
  - cbn [cache_set_all]. unfold bind. rewrite cache_set_memory.
    destruct (IH (set_memory_cache (<[k:=r]> (memory_cache w)) w))
      as (m & Hrun & Hm).
    exists m. split; [by rewrite Hrun|].
    intros k' Hk'. cbn [List.map fst] in Hk'.
    apply not_elem_of_cons in Hk' as [Hne Hk'].
    rewrite (Hm k' Hk'). cbn. by rewrite lookup_insert_ne.
Qed.

(** C4. Cache round-trip, caching enabled and no external store. After any
    run of [set] calls on a fresh manager: [set key r] followed by [get key]
    returns [r] itself, and no [Response] of the heap has changed (so what is
    read is equal to [r] in every field); [get] on a key that was never set
    returns nothing; after [clear], [get] returns nothing for every key. *)
Theorem cache_round_trip (entries : list (pystr * loc)) (key : pystr) (r : loc)
    (w0 : world redis_state) :
  memory_cache w0 = ∅ ->
  let w := snd (cache_set_all redis_setex pickle_dumps self entries w0) in
  let w1 := snd (cache_set redis_setex pickle_dumps self key r w) in
  let w2 := snd (cache_clear redis_keys redis_delete self w1) in
  (cache_get redis_get pickle_loads self key w1 = (Ok (Some r), w1)
   /\ heap w1 = heap w0)
  /\ (forall k, k ∉ List.map fst entries ->
       cache_get redis_get pickle_loads self k w = (Ok None, w))
  /\ (forall k, cache_get redis_get pickle_loads self k w2 = (Ok None, w2)).
Proof using cache_enabled no_redis.
  intros Hfresh.
  destruct (cache_set_all_memory entries w0) as (m & Hrun & Hm).
  rewrite Hrun. cbn [snd]. rewrite cache_set_memory. cbn [snd].
  rewrite cache_clear_memory. cbn [snd].
  rewrite !cache_get_memory. repeat split.
  - cbn. by rewrite lookup_insert_eq.
  - intros k Hk. rewrite cache_get_memory. cbn.
    by rewrite (Hm k Hk), Hfresh, lookup_empty.
  - intros k. rewrite cache_get_memory. cbn. by rewrite lookup_empty.
Qed.
End CacheManagerProps.

Lemma cache_round_trip_witness :
  enabled (cm_config memory_cache_manager) = true
  /\ cm_redis_client memory_cache_manager = false
  /\ memory_cache fresh_world = ∅
  /\ cache_get no_redis_get no_pickle_loads memory_cache_manager (py "test-key")
       (snd (cache_set no_redis_setex no_pickle_dumps memory_cache_manager
               (py "test-key") 0%nat fresh_world))
     = (Ok (Some 0%nat),
        snd (cache_set no_redis_setex no_pickle_dumps memory_cache_manager
               (py "test-key") 0%nat fresh_world)).
Proof.
  split; [reflexivity|]. split; [reflexivity|]. split; [reflexivity|].
  exact (proj1 (proj1
    (cache_round_trip no_redis_get no_redis_setex no_redis_keys no_redis_delete
       no_pickle_dumps no_pickle_loads memory_cache_manager eq_refl eq_refl
       [] (py "test-key") 0%nat fresh_world eq_refl))).
Defined.

(** ** The dispatcher *)

Section DispatcherProps.
Context {pyfloat redis_state : Type}.
Context (float_json : pyfloat -> pystr) (sha256_hexdigest : pystr -> pystr).
Context (redis_get : pystr -> redis_state -> result pyfloat (option pystr) * redis_state).
Context (redis_setex :
  pystr -> Z -> pystr -> redis_state -> result pyfloat unit * redis_state).
Context (pickle_dumps : Response -> pystr).
Context (pickle_loads : pystr -> result pyfloat Response).
Context (py_lower : pystr -> pystr).
Context (instantiate :
  provider_class -> ProviderConfig -> M pyfloat redis_state (Adapter pyfloat redis_state)).

Local Abbreviation generate' :=
  (generate float_json sha256_hexdigest redis_get redis_setex pickle_dumps
     pickle_loads py_lower instantiate).

Local Abbreviation request_config self model max_tokens temperature top_p stream use_cache :=
  {| gc_model := Some (opt_str_or model (gen_default_model self));
     gc_max_tokens := max_tokens;
     gc_temperature := temperature;
     gc_top_p := top_p;
     gc_stream := stream;
     gc_use_cache := use_cache |}.

(** C5. On a cache hit served from the in-memory cache, [generate] returns
    the very object the cache holds after setting its [cached] field: the
    entry stored under the key now has [cached = true]. The claim (the stored
    entry keeps [cached = false]) fails at every hit. *)
Theorem cache_hit_marks_stored_entry (self : LLMGenerator pyfloat redis_state)
    (messages : list (raw_message pyfloat)) (normalized : list Message)
    (model : option pystr) (max_tokens : option Z)
    (temperature top_p : option pyfloat) (kw : kwargs pyfloat)
    (w : world redis_state) (hit : loc) (r : Response) :
  enabled (cm_config (gen_cache self)) = true ->
  cm_redis_client (gen_cache self) = false ->
  _normalize_messages messages = Ok normalized ->
  let config := request_config self model max_tokens temperature top_p false true in
  let cache_key :=
    get_cache_key float_json sha256_hexdigest (cm_config (gen_cache self))
      normalized config (gen_provider_name self) in
  memory_cache w !! cache_key = Some hit ->
  heap w !! hit = Some r ->
  let run := generate' self messages model max_tokens temperature top_p
               false true kw w in
  fst run = Ok (GResponse hit)
  /\ memory_cache (snd run) !! cache_key = Some hit
  /\ heap (snd run) !! hit = Some (with_cached true r)
  /\ cached (with_cached true r) = true.
Proof.
  intros Hen Hred Hnorm config cache_key Hhit Hr run.
  subst run. unfold generate, bind, lift. rewrite Hnorm. cbn [andb negb].
  rewrite (cache_get_memory redis_get pickle_loads _ Hen Hred).
  fold config. fold cache_key. rewrite Hhit.
  unfold set_cached, ret. cbn. repeat split; [assumption|].
  by rewrite lookup_alter_eq, Hr.
Qed.



End DispatcherProps.



(** C5, at the failing input: two identical calls through the Cohere
    adapter. The first call stores the response it returns, with
    [cached = false]; the second call is a hit, and afterwards the entry
    held by the cache (the object the first caller still holds) has
    [cached = true]. *)
Lemma cache_hit_marks_stored_entry_witness :
  let w1 := snd (scripted_generate cohere_generator hello_raw false true
                   fresh_world) in
  let run := scripted_generate cohere_generator hello_raw false true w1 in
  fst (scripted_generate cohere_generator hello_raw false true fresh_world)
  = Ok (GResponse 0%nat)
  /\ heap w1 !! 0%nat
     = Some (hello_world_response (py "cohere") (py "command"))
  /\ fst run = Ok (GResponse 0%nat)
  /\ heap (snd run) !! 0%nat
     = Some (with_cached true (hello_world_response (py "cohere") (py "command"))).
Proof.
  intros w1 run.
  split; [vm_compute; reflexivity|]. split; [vm_compute; reflexivity|].
  pose proof (cache_hit_marks_stored_entry two_floats_json (fun s => s)
                no_redis_get no_redis_setex no_pickle_dumps no_pickle_loads
                (fun s => s) scripted_instantiate cohere_generator hello_raw
                hello_messages None None None None [] w1 0%nat
                (hello_world_response (py "cohere") (py "command"))
                eq_refl eq_refl) as H.
  cbv zeta in H. fold run in H.
  destruct H as (H1 & _ & H3 & _).
  - vm_compute. reflexivity.
  - vm_compute. reflexivity.
  - vm_compute. reflexivity.
  - split; assumption.
Defined.



(** ** The adapters: retries and error classification *)

Section AdapterProps.
Context {pyfloat redis_state : Type}.
Context (http_post : nat -> pystr -> pyval pyfloat -> http_outcome pyfloat).
Context (parse_response :
  provider_class -> pyval pyfloat -> pystr -> result pyfloat Response).
Context (py_str : pyval pyfloat -> pystr).

Lemma retry_three_failures {A} (body : M pyfloat redis_state A)
    (w w1 w2 w3 : world redis_state) (e1 e2 e3 : exn pyfloat) :
  body w = (Raise e1, w1) ->
  body (waited w1) = (Raise e2, w2) ->
  body (waited w2) = (Raise e3, w3) ->
  retry_stop_after_3 body w = (Raise e3, w3).
Proof.
  intros H1 H2 H3. unfold retry_stop_after_3. cbn [retrying].
  unfold try_except at 1. rewrite H1. unfold bind at 1, wait at 1.
  unfold try_except at 1. rewrite H2. unfold bind at 1, wait at 1.
  exact H3.
Qed.

(** An attempt whose request is answered outside 2xx raises what
    [_handle_http_error] builds. *)
Lemma attempt_http_error {A} (prelude : result pyfloat unit) (url : pystr)
    (payload : pyval pyfloat) (handle : http_response pyfloat -> exn pyfloat)
    (on_success : http_response pyfloat -> M pyfloat redis_state A)
    (w : world redis_state) (r : http_response pyfloat) :
  prelude = Ok tt ->
  http_post (http_requests w) url payload = HttpReplied r ->
  is_success r = false ->
  bind (lift prelude)
    (fun _ =>
       bind (client_post http_post url payload)
         (fun response =>
            if is_success response then on_success response
            else raise (handle response))) w
  = (Raise (handle r), request_sent w).
Proof.
  intros -> Hpost Hfail. unfold bind, lift, client_post.
  rewrite Hpost. by rewrite Hfail.
Qed.

Lemma _validate_model_ok (class_name : pystr) (supported : list pystr)
    (model : pystr) :
  existsb (pystr_eqb model) supported = true ->
  _validate_model (pyfloat:=pyfloat) class_name supported model = Ok tt.
Proof. intros H. unfold _validate_model. by rewrite H. Qed.

Lemma attempts_exhausted {A} (prelude : result pyfloat unit) (url : pystr)
    (payload : pyval pyfloat) (handle : http_response pyfloat -> exn pyfloat)
    (on_success : http_response pyfloat -> M pyfloat redis_state A)
    (w : world redis_state) (r1 r2 r3 : http_response pyfloat) :
  prelude = Ok tt ->
  three_error_replies http_post url payload (http_requests w) r1 r2 r3 ->
  retry_stop_after_3
    (bind (lift prelude)
       (fun _ =>
          bind (client_post http_post url payload)
            (fun response =>
               if is_success response then on_success response
               else raise (handle response)))) w
  = (Raise (handle r3), after_three_attempts w).
Proof.
  intros Hpre ((H1 & H2 & H3) & (F1 & F2 & F3)).
  apply (retry_three_failures _ w (request_sent w)
           (request_sent (waited (request_sent w))) _ (handle r1) (handle r2)).
  - by apply attempt_http_error.
  - by apply attempt_http_error.
  - by apply attempt_http_error.
Qed.

(** C3, as amended. The retry decorator carries no predicate: an attempt that
    fails is retried whatever the exception, a 4xx status such as 401
    included. When three requests in a row are answered outside 2xx, each
    adapter sends all three, waits twice, and only then raises the typed
    error of the last reply. *)
Theorem every_http_error_is_retried (self : ProviderConfig)
    (messages : list Message) (config : GenerationConfig pyfloat)
    (kw : kwargs pyfloat) (w : world redis_state)
    (r1 r2 r3 : http_response pyfloat) :
  (let model := opt_str_or (gc_model config) openai_default_model in
   existsb (pystr_eqb model) openai_supported_models = true ->
   three_error_replies http_post (py "/chat/completions")
     (openai_payload model messages config kw) (http_requests w) r1 r2 r3 ->
   openai_generate http_post parse_response messages config kw w
   = (Raise (openai_handle_http_error r3), after_three_attempts w))
  /\ (let model := opt_str_or (gc_model config) claude_default_model in
      existsb (pystr_eqb model) claude_supported_models = true ->
      three_error_replies http_post (py "/messages")
        (claude_payload model messages config kw) (http_requests w) r1 r2 r3 ->
      claude_generate http_post parse_response messages config kw w
      = (Raise (claude_handle_http_error r3), after_three_attempts w))
  /\ (let model := opt_str_or (gc_model config) cohere_default_model in
      existsb (pystr_eqb model) cohere_supported_models = true ->
      three_error_replies http_post (py "/chat")
        (cohere_payload model messages config kw) (http_requests w) r1 r2 r3 ->
      cohere_generate http_post parse_response messages config kw w
      = (Raise (cohere_handle_http_error r3), after_three_attempts w))
  /\ (let model := opt_str_or (gc_model config) hf_default_model in
      three_error_replies http_post (hf_url self model)
        (hf_payload (_convert_messages_to_hf messages) config kw)
        (http_requests w) r1 r2 r3 ->
      hf_generate http_post py_str self messages config kw w
      = (Raise (hf_handle_http_error r3), after_three_attempts w)).
Proof.
  repeat split.
  - intros model Hmodel H.
    apply (attempts_exhausted _ _ _ openai_handle_http_error _ w r1 r2 r3);
      [by apply _validate_model_ok | exact H].
  - intros model Hmodel H.
    apply (attempts_exhausted _ _ _ claude_handle_http_error _ w r1 r2 r3);
      [by apply _validate_model_ok | exact H].
  - intros model Hmodel H.
    apply (attempts_exhausted _ _ _ cohere_handle_http_error _ w r1 r2 r3);
      [by apply _validate_model_ok | exact H].
  - intros model H.
    exact (attempts_exhausted (Ok tt) _ _ hf_handle_http_error _ w r1 r2 r3 eq_refl H).
Qed.
End AdapterProps.

(** C3, counterexample. Every request to the OpenAI endpoint is answered 401
    here. [generate] does not stop at the first answer: it sends three
    requests, waiting twice, before it raises [AuthenticationError]. *)
Lemma non_retryable_error_counterexample :
  (forall n, (n < 3)%nat ->
     scripted_http n (py "/chat/completions")
       (openai_payload (py "gpt-3.5-turbo") hello_messages
          (scripted_config openai_with_azure_fallback false true) [])
     = HttpReplied (http_error_reply 401))
  /\ fst rejected_openai_call
     = Raise (AuthenticationError (py "Invalid API key") (py "openai"))
  /\ http_requests (snd rejected_openai_call) = 3%nat
  /\ sleeps (snd rejected_openai_call) = 2%nat
  /\ http_requests (snd rejected_openai_call) <> 1%nat.
Proof.
  split.
  - intros n Hn. unfold scripted_http.
    replace (pystr_eqb (py "/chat/completions") (py "/chat/completions"))
      with true by (vm_compute; reflexivity).
    apply Nat.ltb_lt in Hn. by rewrite Hn.
  - repeat split; vm_compute; first [reflexivity | discriminate].
Qed.

Lemma every_http_error_is_retried_witness :
  rejected_openai_call
  = (Raise (openai_handle_http_error (http_error_reply 401)),
     after_three_attempts fresh_world).
Proof.
  refine (proj1 (every_http_error_is_retried scripted_http scripted_parse
                   scripted_py_str test_provider_config hello_messages
                   (scripted_config openai_with_azure_fallback false true) []
                   fresh_world (http_error_reply 401) (http_error_reply 401)
                   (http_error_reply 401)) _ _).
  - vm_compute. reflexivity.
  - repeat split; vm_compute; reflexivity.
Defined.

(** ** Names in a joined list *)



(** ** The Claude payload *)

Lemma dict_get_set_ne {A} (key key' : pystr) (v : A) (d : list (pystr * A)) :
  pystr_eqb key' key = false ->
  dict_get key (dict_set key' v d) = dict_get key d.
Proof.
  intros Hne. induction d as [|[k x] d IH]; cbn [dict_set dict_get].
  - by rewrite Hne.
  - destruct (pystr_eqb k key') eqn:Ek; cbn [dict_get].
    + apply bool_decide_eq_true in Ek. subst k. by rewrite Hne.
    + destruct (pystr_eqb k key); [reflexivity|exact IH].
Qed.

Lemma dict_get_set_eq {A} (key : pystr) (v : A) (d : list (pystr * A)) :
  dict_get key (dict_set key v d) = Some v.
Proof.
  assert (Hkey : pystr_eqb key key = true) by by apply bool_decide_eq_true_2.
  induction d as [|[k x] d IH]; cbn [dict_set dict_get].
  - by rewrite Hkey.
  - destruct (pystr_eqb k key) eqn:E; cbn [dict_get]; rewrite E;
      [reflexivity|exact IH].
Qed.

Lemma dict_get_app {A} (key : pystr) (a b : list (pystr * A)) :
  dict_get key (a ++ b)
  = match dict_get key a with Some v => Some v | None => dict_get key b end.
Proof.
  induction a as [|[k x] a IH]; [reflexivity|].
  cbn [app dict_get]. by destruct (pystr_eqb k key).
Qed.

(** [d.update(other)]: the value under a key is the one [other] gives it
    last, and the one [d] had when [other] does not mention the key. *)
Lemma dict_get_update {A} (key : pystr) (d other : list (pystr * A)) :
  dict_get key (dict_update d other)
  = match dict_get key (rev other) with
    | Some v => Some v
    | None => dict_get key d
    end.
Proof.
  unfold dict_update. revert d.
  induction other as [|[k v] other IH]; intros d; [reflexivity|].
  cbn [fold_left fst snd rev]. rewrite IH, dict_get_app.
  destruct (dict_get key (rev other)); [reflexivity|].
  cbn [dict_get]. destruct (pystr_eqb k key) eqn:E.
  - apply bool_decide_eq_true in E. subst k. apply dict_get_set_eq.
  - by apply dict_get_set_ne.
Qed.

Section ClaudePayload.
Context {pyfloat : Type}.



End ClaudePayload.



(** ** The Hugging Face adapter: prompt echo *)

Lemma startswith_app (p r : pystr) : startswith (p ++ r) p = true.
Proof.
  induction p as [|c p IH]; [reflexivity|].
  cbn. by rewrite N.eqb_refl, IH.
Qed.

Lemma startswith_inv (s p : pystr) :
  startswith s p = true -> s = p ++ skipn (length p) s.
Proof.
  revert s. induction p as [|c p IH]; intros s H; [reflexivity|].
  destruct s as [|d s]; [discriminate H|].
  cbn in H. apply andb_true_iff in H as [Hd Hs].
  apply N.eqb_eq in Hd. subst d. cbn. f_equal. by apply IH.
Qed.

Lemma skipn_length_app (p r : pystr) : skipn (length p) (p ++ r) = r.
Proof. induction p as [|c p IH]; [reflexivity|exact IH]. Qed.

Section PromptEcho.
Context {pyfloat : Type} (py_str : pyval pyfloat -> pystr).

(** C10, as amended. When the body is a non-empty list whose first element
    is an object with a string under [generated_text]: if that string is the
    transcript followed by some [tail], the content of the single choice is
    [tail] stripped of surrounding whitespace; if it does not begin with the
    transcript, the content is the whole string, unchanged. *)
Theorem hf_prompt_echo_stripping (d : list (pystr * pyval pyfloat))
    (others : list (pyval pyfloat)) (model_name input_text generated_text : pystr) :
  dict_get (py "generated_text") d = Some (PStr generated_text) ->
  exists (r : Response) (content : pystr),
    hf_parse_response py_str (PList (PDict d :: others)) model_name input_text = Ok r
    /\ text r = [{| content := content; finish_reason := Some (py "stop") |}]
    /\ (forall tail, generated_text = input_text ++ tail -> content = strip tail)
    /\ ((forall tail, generated_text <> input_text ++ tail) ->
        content = generated_text).
Proof.
  intros Hd. unfold hf_parse_response, hf_content. rewrite Hd.
  destruct (startswith generated_text input_text) eqn:Hs.
  - eexists _, _. split; [reflexivity|]. split; [reflexivity|]. split.
    + intros tail ->. unfold slice_from. by rewrite skipn_length_app.
    + intros Hno. exfalso. apply startswith_inv in Hs.
      exact (Hno _ Hs).
  - eexists _, _. split; [reflexivity|]. split; [reflexivity|]. split.
    + intros tail ->. by rewrite startswith_app in Hs.
    + reflexivity.
Qed.
End PromptEcho.

(** C10, counterexample. In the other format the code accepts, an object
    with [generated_text] at top level, the transcript is not removed: the
    content is the whole text although it begins with the transcript. *)
Lemma hf_dict_format_counterexample :
  startswith echoed_completion hello_transcript = true
  /\ hf_parse_response scripted_py_str
       (PDict [(py "generated_text", PStr echoed_completion)])
       hf_default_model hello_transcript
     = Ok {| text := [{| content := echoed_completion;
                         finish_reason := Some (py "stop") |}];
             usage := Some {| prompt_tokens := 3; completion_tokens := 5;
                              total_tokens := 8 |};
             provider := py "huggingface";
             model := hf_default_model;
             cached := false |}
  /\ echoed_completion <> strip (py " Hello, world!").
Proof.
  split; [vm_compute; reflexivity|]. split; [vm_compute; reflexivity|].
  vm_compute. discriminate.
Qed.

Lemma hf_prompt_echo_stripping_witness :
  exists (r : Response) (content : pystr),
    hf_parse_response scripted_py_str
      (PList [PDict [(py "generated_text", PStr echoed_completion)]])
      hf_default_model hello_transcript = Ok r
    /\ text r = [{| content := content; finish_reason := Some (py "stop") |}]
    /\ content = strip (py " Hello, world!").
Proof.
  destruct (hf_prompt_echo_stripping scripted_py_str
              [(py "generated_text", PStr echoed_completion)] []
              hf_default_model hello_transcript echoed_completion eq_refl)
    as (r & content & Hr & Ht & Hstrip & _).
  exists r, content. split; [exact Hr|]. split; [exact Ht|].
  apply Hstrip. reflexivity.
Defined.

(** ** The Hugging Face adapter: simulated streaming *)

Lemma range_from_last (fuel start stop : nat) :
  (start < stop)%nat -> (stop - start <= fuel)%nat ->
  exists init last,
    range_from fuel start stop chunk_size = init ++ [last]
    /\ (stop <= last + chunk_size)%nat
    /\ Forall (fun i => (i + chunk_size < stop)%nat) init.
Proof.
  revert start. induction fuel as [|fuel IH]; intros start Hlt Hfuel; [lia|].
  cbn [range_from]. rewrite (proj2 (Nat.ltb_lt start stop) Hlt).
  destruct (Nat.lt_ge_cases (start + chunk_size) stop) as [Hmore|Hdone].
  - destruct (IH (start + chunk_size)%nat Hmore) as (init & last & Hr & Hl & Hi).
    { unfold chunk_size in *. lia. }
    exists (start :: init), last. rewrite Hr. split; [reflexivity|].
    split; [exact Hl|]. by constructor.
  - exists [], start. split; [|split; [exact Hdone|constructor]].
    destruct fuel as [|fuel']; [reflexivity|].
    cbn [range_from].
    by rewrite (proj2 (Nat.ltb_ge (start + chunk_size) stop) Hdone).
Qed.

Lemma hf_stream_chunks_nonempty (c : N) (s : pystr) :
  exists init last,
    hf_stream_chunks (c :: s) = init ++ [last]
    /\ done last = true
    /\ Forall (fun chunk => done chunk = false) init.
Proof.
  unfold hf_stream_chunks, py_range.
  destruct (range_from_last (length (c :: s)) 0 (length (c :: s)))
    as (init & last & Hr & Hl & Hi); [cbn; lia | lia |].
  rewrite Hr, map_app. eexists _, _. split; [reflexivity|]. split.
  - unfold hf_stream_chunk. cbn [done]. by apply Nat.leb_le.
  - apply Forall_map. eapply Forall_impl; [exact Hi|].
    intros i Hlt. unfold hf_stream_chunk. cbn [done].
    apply Nat.leb_gt. exact Hlt.
Qed.

(** C6. When the backend returns the prompt and nothing more, the content of
    the response is empty and the simulated stream ends normally without
    having produced any chunk: no chunk has [done = true]. For a content that
    is not empty the chunks are as claimed: the last one, and only the last
    one, has [done = true]. *)
Theorem hf_stream_terminal_chunk :
  fst (hf_generate_stream echo_http scripted_py_str test_provider_config
         hello_messages (scripted_config hf_with_hf_fallback true true) []
         fresh_world)
  = {| emitted := []; failure := None |}
  /\ hf_stream_chunks [] = []
  /\ forall (c : N) (s : pystr),
       exists init last,
         hf_stream_chunks (c :: s) = init ++ [last]
         /\ done last = true
         /\ Forall (fun chunk => done chunk = false) init.
Proof.
  split; [vm_compute; reflexivity|]. split; [reflexivity|].
  exact hf_stream_chunks_nonempty.
Qed.

(** * Part III: further properties of the code *)

(** ** The cache manager, with and without an external store *)

Section CacheManagerMore.
Context {pyfloat redis_state : Type}.
Context (redis_get : pystr -> redis_state -> result pyfloat (option pystr) * redis_state).
Context (redis_setex :
  pystr -> Z -> pystr -> redis_state -> result pyfloat unit * redis_state).
Context (redis_keys :
  pystr -> redis_state -> result pyfloat (list pystr) * redis_state).
Context (redis_delete :
  list pystr -> redis_state -> result pyfloat unit * redis_state).
Context (pickle_dumps : Response -> pystr).
Context (pickle_loads : pystr -> result pyfloat Response).

Lemma cache_set_all_disabled (self : CacheManager)
    (entries : list (pystr * loc)) (w : world redis_state) :
  enabled (cm_config self) = false ->
  cache_set_all redis_setex pickle_dumps self entries w = (Ok tt, w).
Proof.
  intros Hoff. revert w. induction entries as [|[k r] rest IH]; intros w.
  - reflexivity.
  - cbn [cache_set_all]. unfold bind, cache_set at 1. rewrite Hoff. cbn.
    apply IH.
Qed.

(** X1. Cache bypass. When caching is disabled, whatever was [set] before,
    [get] returns nothing, and [set], [clear] and [get] leave the memory
    cache and the external store exactly as they were. *)
Theorem cache_disabled_bypass (self : CacheManager)
    (entries : list (pystr * loc)) (key : pystr) (w : world redis_state) :
  enabled (cm_config self) = false ->
  cache_set_all redis_setex pickle_dumps self entries w = (Ok tt, w)
  /\ cache_get redis_get pickle_loads self key w = (Ok None, w)
  /\ cache_clear redis_keys redis_delete self w = (Ok tt, w).
Proof.
  intros Hoff. split; [by apply cache_set_all_disabled|].
  unfold cache_get, cache_clear. by rewrite Hoff.
Qed.

(** X2. The cache is best effort: whatever the external store and pickle do
    (raise included), [get], [set] and [clear] return normally. *)
Theorem cache_operations_never_raise (self : CacheManager) (key : pystr)
    (r : loc) (w : world redis_state) :
  (exists o, fst (cache_get redis_get pickle_loads self key w) = Ok o)
  /\ fst (cache_set redis_setex pickle_dumps self key r w) = Ok tt
  /\ fst (cache_clear redis_keys redis_delete self w) = Ok tt.
Proof.
  unfold cache_get, cache_set, cache_clear, memory_get, memory_set,
    memory_clear, deref, bind, ret, alloc.
  destruct (enabled (cm_config self)), (cm_redis_client self); cbn [negb].
  - split; [|split].
    + destruct (redis_get key (redis w)) as [[[data|]|e] rs]; cbn; eauto.
      destruct (str_truthy data); cbn; eauto.
      destruct (pickle_loads data); cbn; eauto.
    + destruct (heap w !! r); [|reflexivity].
      by destruct (redis_setex _ _ _ _) as [[[]|e] rs].
    + destruct (redis_keys _ _) as [[[|k ks]|e] rs]; try reflexivity.
      by destruct (redis_delete _ _) as [[[]|e] rs'].
  - eauto.
  - eauto.
  - eauto.
Qed.

(** X3. With an external store, [set] writes the memory cache only after the
    store accepted the entry: when [SETEX] raises, the exception is swallowed
    and the memory cache is left without the entry; when it succeeds, the
    memory cache holds the reference under the key. *)
Theorem cache_set_follows_store (self : CacheManager) (key : pystr) (r : loc)
    (resp : Response) (w : world redis_state) :
  enabled (cm_config self) = true ->
  cm_redis_client self = true ->
  heap w !! r = Some resp ->
  let sent := redis_setex key (ttl (cm_config self)) (pickle_dumps resp) (redis w) in
  let w' := snd (cache_set redis_setex pickle_dumps self key r w) in
  redis w' = snd sent
  /\ heap w' = heap w
  /\ memory_cache w'
     = match fst sent with
       | Ok _ => <[key := r]> (memory_cache w)
       | Raise _ => memory_cache w
       end.
Proof.
  intros Hon Hred Hr sent w'. subst sent w'.
  unfold cache_set. rewrite Hon, Hred. cbn [negb]. unfold deref. rewrite Hr.
  by destruct (redis_setex _ _ _ _) as [[[]|e] rs].
Qed.

(** X4. A hit served by the external store is a fresh object: [get] builds a
    new [Response] from the pickled bytes at a new location and leaves every
    location of the heap other than that one, and the memory cache, as they
    were. *)
Theorem cache_get_store_hit_is_fresh (self : CacheManager) (key data : pystr)
    (resp : Response) (rs : redis_state) (w : world redis_state) :
  enabled (cm_config self) = true ->
  cm_redis_client self = true ->
  redis_get key (redis w) = (Ok (Some data), rs) ->
  str_truthy data = true ->
  pickle_loads data = Ok resp ->
  let run := cache_get redis_get pickle_loads self key w in
  fst run = Ok (Some (next_loc w))
  /\ heap (snd run) !! next_loc w = Some resp
  /\ (forall l, l <> next_loc w -> heap (snd run) !! l = heap w !! l)
  /\ memory_cache (snd run) = memory_cache w
  /\ next_loc (snd run) = S (next_loc w).
Proof.
  intros Hon Hred Hget Hdata Hload run. subst run.
  unfold cache_get. rewrite Hon, Hred. cbn [negb].
  rewrite Hget, Hdata, Hload. cbn.
  repeat split.
  - by rewrite lookup_insert_eq.
  - intros l Hl. by rewrite lookup_insert_ne.
Qed.

(** X5. [clear] with an external store: when [KEYS] or [DEL] raises, the
    exception is swallowed and the memory cache is left as it was, entries
    included; when the store answers, the memory cache is emptied, and [DEL] is
    sent only if [KEYS] returned at least one key. *)
Theorem cache_clear_follows_store (self : CacheManager) (w : world redis_state) :
  enabled (cm_config self) = true ->
  cm_redis_client self = true ->
  let listed := redis_keys (key_prefix (cm_config self) ++ py "*") (redis w) in
  let w' := snd (cache_clear redis_keys redis_delete self w) in
  heap w' = heap w
  /\ match fst listed with
     | Raise _ => memory_cache w' = memory_cache w /\ redis w' = snd listed
     | Ok [] => memory_cache w' = ∅ /\ redis w' = snd listed
     | Ok (k :: ks) =>
         redis w' = snd (redis_delete (k :: ks) (snd listed))
         /\ memory_cache w'
            = match fst (redis_delete (k :: ks) (snd listed)) with
              | Ok _ => ∅
              | Raise _ => memory_cache w
              end
     end.
Proof.
  intros Hon Hred listed w'. subst listed w'.
  unfold cache_clear. rewrite Hon, Hred. cbn [negb].
  destruct (redis_keys _ _) as [[[|k ks]|e] rs]; cbn; [done| |done].
  by destruct (redis_delete _ _) as [[[]|e] rs'].
Qed.
End CacheManagerMore.

Lemma cache_disabled_bypass_witness :
  cache_set_all ok_redis_setex mock_pickle_dumps disabled_manager
    [(py "test-key", 0%nat)] stored_world = (Ok tt, stored_world)
  /\ cache_get full_redis_get mock_pickle_loads disabled_manager (py "test-key")
       stored_world = (Ok None, stored_world)
  /\ cache_clear no_redis_keys no_redis_delete disabled_manager stored_world
     = (Ok tt, stored_world).
Proof.
  exact (cache_disabled_bypass full_redis_get ok_redis_setex no_redis_keys
           no_redis_delete mock_pickle_dumps mock_pickle_loads disabled_manager
           [(py "test-key", 0%nat)] (py "test-key") stored_world eq_refl).
Defined.

Lemma cache_set_follows_store_witness :
  memory_cache (snd (cache_set no_redis_setex mock_pickle_dumps redis_manager
                       (py "test-key") 0%nat stored_world)) = ∅
  /\ memory_cache (snd (cache_set ok_redis_setex mock_pickle_dumps redis_manager
                          (py "test-key") 0%nat stored_world))
     = <[py "test-key" := 0%nat]> ∅.
Proof.
  split.
  - exact (proj2 (proj2
      (cache_set_follows_store no_redis_setex mock_pickle_dumps redis_manager
         (py "test-key") 0%nat
         (hello_world_response (py "test") (py "test-model")) stored_world
         eq_refl eq_refl eq_refl))).
  - exact (proj2 (proj2
      (cache_set_follows_store ok_redis_setex mock_pickle_dumps redis_manager
         (py "test-key") 0%nat
         (hello_world_response (py "test") (py "test-model")) stored_world
         eq_refl eq_refl eq_refl))).
Defined.

Lemma cache_get_store_hit_is_fresh_witness :
  fst (cache_get full_redis_get mock_pickle_loads redis_manager (py "test-key")
         stored_world) = Ok (Some 1%nat).
Proof.
  exact (proj1
    (cache_get_store_hit_is_fresh full_redis_get mock_pickle_loads
       redis_manager (py "test-key") (py "pickled")
       (hello_world_response (py "test") (py "test-model")) tt stored_world
       eq_refl eq_refl eq_refl eq_refl eq_refl)).
Defined.

Lemma cache_clear_follows_store_witness :
  memory_cache (snd (cache_clear no_redis_keys no_redis_delete redis_manager
                       (snd (memory_set (pyfloat:=bool) (py "test-key") 0%nat stored_world))))
  = <[py "test-key" := 0%nat]> ∅.
Proof.
  exact (proj1 (proj2
    (cache_clear_follows_store no_redis_keys no_redis_delete redis_manager
       (snd (memory_set (pyfloat:=bool) (py "test-key") 0%nat stored_world))
       eq_refl eq_refl))).
Defined.

(** ** The dispatcher: normalization, cache use and fallbacks *)

Lemma role_of_str_role_str (r : role) : role_of_str (role_str r) = Some r.
Proof. destruct r; vm_compute; reflexivity. Qed.

Lemma Message_of_message_dict {pyfloat} (m : Message) :
  normalize_message (pyfloat:=pyfloat) (raw_of_pyval (message_dict m)) = Ok m.
Proof.
  destruct m as [r c]. cbn [message_dict raw_of_pyval normalize_message].
  unfold Message_of_dict.
  replace (dict_get (py "role") _)
    with (Some (PStr (pyfloat:=pyfloat) (role_str r)))
    by (vm_compute; reflexivity).
  replace (dict_get (py "content") _)
    with (Some (PStr (pyfloat:=pyfloat) c))
    by (vm_compute; reflexivity).
  cbn [msg_role msg_content]. by rewrite role_of_str_role_str.
Qed.

Lemma _normalize_messages_app {pyfloat} (pre rest : list (raw_message pyfloat))
    (ok : list Message) :
  _normalize_messages pre = Ok ok ->
  _normalize_messages (pre ++ rest)
  = match _normalize_messages rest with
    | Ok l => Ok (ok ++ l)
    | Raise e => Raise e
    end.
Proof.
  revert ok. induction pre as [|x pre IH]; intros ok H.
  - cbn in H. injection H as <-. cbn. by destruct (_normalize_messages rest).
  - cbn [_normalize_messages app] in *.
    destruct (normalize_message x) as [m|e]; [|discriminate H].
    destruct (_normalize_messages pre) as [l|e] eqn:E; [|discriminate H].
    injection H as <-. rewrite (IH l eq_refl).
    by destruct (_normalize_messages rest).
Qed.

(** X6. Message round trip. Messages given as [Message] objects are kept as
    they are, and the dictionaries [_prepare_messages] writes for a list of
    messages are read back by [_normalize_messages] as that same list. *)
Theorem normalize_messages_round_trip {pyfloat} (l : list Message) :
  _normalize_messages (pyfloat:=pyfloat) (List.map (@RawMessage pyfloat) l) = Ok l
  /\ _normalize_messages (pyfloat:=pyfloat)
       (List.map raw_of_pyval (_prepare_messages l)) = Ok l.
Proof.
  split.
  - induction l as [|m l IH]; [reflexivity|].
    cbn [List.map _normalize_messages normalize_message]. by rewrite IH.
  - unfold _prepare_messages. induction l as [|m l IH]; [reflexivity|].
    cbn [List.map _normalize_messages].
    by rewrite Message_of_message_dict, IH.
Qed.

Section DispatcherMore.
Context {pyfloat redis_state : Type}.
Context (float_json : pyfloat -> pystr) (sha256_hexdigest : pystr -> pystr).
Context (redis_get : pystr -> redis_state -> result pyfloat (option pystr) * redis_state).
Context (redis_setex :
  pystr -> Z -> pystr -> redis_state -> result pyfloat unit * redis_state).
Context (pickle_dumps : Response -> pystr).
Context (pickle_loads : pystr -> result pyfloat Response).
Context (py_lower : pystr -> pystr).
Context (instantiate :
  provider_class -> ProviderConfig -> M pyfloat redis_state (Adapter pyfloat redis_state)).

Local Abbreviation generate' :=
  (generate float_json sha256_hexdigest redis_get redis_setex pickle_dumps
     pickle_loads py_lower instantiate).

Local Abbreviation request_config self model max_tokens temperature top_p stream use_cache :=
  {| gc_model := Some (opt_str_or model (gen_default_model self));
     gc_max_tokens := max_tokens;
     gc_temperature := temperature;
     gc_top_p := top_p;
     gc_stream := stream;
     gc_use_cache := use_cache |}.

(** X7. An invalid message stops [generate] before anything else happens:
    when the messages before it are valid and it is rejected with [e] (a
    value that is neither a dict nor a [Message], or a dict pydantic
    refuses), [generate] raises [e] and the world is untouched: no cache
    access, no request, no fallback, whatever the parameters and the
    messages that follow. *)
Theorem generate_rejects_invalid_message
    (self : LLMGenerator pyfloat redis_state)
    (pre rest : list (raw_message pyfloat)) (bad : raw_message pyfloat)
    (ok : list Message) (e : exn pyfloat)
    (model : option pystr) (max_tokens : option Z)
    (temperature top_p : option pyfloat) (stream use_cache : bool)
    (kw : kwargs pyfloat) (w : world redis_state) :
  _normalize_messages pre = Ok ok ->
  normalize_message bad = Raise e ->
  generate' self (pre ++ bad :: rest) model max_tokens temperature top_p
    stream use_cache kw w = (Raise e, w).
Proof.
  intros Hpre Hbad. unfold generate, bind, lift.
  rewrite (_normalize_messages_app pre (bad :: rest) ok Hpre).
  cbn [_normalize_messages]. by rewrite Hbad.
Qed.

(** X8. A repeated call is served from the cache. With the in-memory cache
    enabled, a non-streaming call that misses and whose provider answers [r]
    stores [r]; the same call made again, even with other extra keyword
    arguments (they are not part of the key), returns the same object [r]
    without running the provider: no request is sent and nothing is
    allocated, only the [cached] flag of [r] is set. *)
Theorem repeated_call_is_served_from_cache
    (self : LLMGenerator pyfloat redis_state)
    (messages : list (raw_message pyfloat)) (normalized : list Message)
    (model : option pystr) (max_tokens : option Z)
    (temperature top_p : option pyfloat) (kw kw' : kwargs pyfloat)
    (w w1 : world redis_state) (r : loc) :
  enabled (cm_config (gen_cache self)) = true ->
  cm_redis_client (gen_cache self) = false ->
  _normalize_messages messages = Ok normalized ->
  let config := request_config self model max_tokens temperature top_p false true in
  let cache_key :=
    get_cache_key float_json sha256_hexdigest (cm_config (gen_cache self))
      normalized config (gen_provider_name self) in
  memory_cache w !! cache_key = None ->
  adapter_generate (gen_provider self) normalized config kw w = (Ok r, w1) ->
  let first := generate' self messages model max_tokens temperature top_p
                 false true kw w in
  let second := generate' self messages model max_tokens temperature top_p
                  false true kw' (snd first) in
  fst first = Ok (GResponse r)
  /\ heap (snd first) = heap w1
  /\ fst second = Ok (GResponse r)
  /\ heap (snd second) = alter (with_cached true) r (heap w1)
  /\ next_loc (snd second) = next_loc w1
  /\ http_requests (snd second) = http_requests w1
  /\ sleeps (snd second) = sleeps w1.
Proof.
  intros Hen Hred Hnorm config cache_key Hmiss Hgen first second.
  assert (Hfirst : first
    = (Ok (GResponse r),
       set_memory_cache (<[cache_key := r]> (memory_cache w1)) w1)).
  { subst first. unfold generate, bind, lift. rewrite Hnorm. cbn [andb negb].
    rewrite (cache_get_memory redis_get pickle_loads _ Hen Hred).
    fold config. fold cache_key. rewrite Hmiss.
    unfold try_except. rewrite Hgen.
    by rewrite (cache_set_memory redis_setex pickle_dumps _ Hen Hred). }
  subst second. rewrite Hfirst. cbn [fst snd].
  unfold generate, bind, lift. rewrite Hnorm. cbn [andb negb].
  rewrite (cache_get_memory redis_get pickle_loads _ Hen Hred).
  fold config. fold cache_key. cbn [memory_cache set_memory_cache].
  rewrite lookup_insert_eq. by cbn.
Qed.

(** X9. Without the cache ([use_cache] false) a successful non-streaming
    call is the provider's: [generate] returns the provider's response and
    leaves the world as the provider left it, whatever the cache holds under
    the key and whether it is enabled or not: it is neither read nor
    written. *)
Theorem generate_without_cache
    (self : LLMGenerator pyfloat redis_state)
    (messages : list (raw_message pyfloat)) (normalized : list Message)
    (model : option pystr) (max_tokens : option Z)
    (temperature top_p : option pyfloat) (kw : kwargs pyfloat)
    (w w1 : world redis_state) (r : loc) :
  _normalize_messages messages = Ok normalized ->
  adapter_generate (gen_provider self) normalized
    (request_config self model max_tokens temperature top_p false false) kw w
  = (Ok r, w1) ->
  generate' self messages model max_tokens temperature top_p false false kw w
  = (Ok (GResponse r), w1).
Proof.
  intros Hnorm Hgen. unfold generate, bind, lift. rewrite Hnorm.
  cbn [andb negb]. unfold ret at 1. unfold try_except. by rewrite Hgen.
Qed.

(** X10. No fallback configured: when the provider raises [e] on a
    non-streaming call that misses the cache (or does not use it),
    [generate] raises [e] itself and stores nothing: the world is as the
    provider left it. *)
Theorem primary_error_without_fallbacks
    (self : LLMGenerator pyfloat redis_state)
    (messages : list (raw_message pyfloat)) (normalized : list Message)
    (model : option pystr) (max_tokens : option Z)
    (temperature top_p : option pyfloat) (use_cache : bool)
    (kw : kwargs pyfloat) (w w1 w2 : world redis_state) (e : exn pyfloat) :
  _normalize_messages messages = Ok normalized ->
  let config := request_config self model max_tokens temperature top_p false use_cache in
  let cache_key :=
    get_cache_key float_json sha256_hexdigest (cm_config (gen_cache self))
      normalized config (gen_provider_name self) in
  (if use_cache
   then cache_get redis_get pickle_loads (gen_cache self) cache_key
   else ret None) w = (Ok None, w1) ->
  adapter_generate (gen_provider self) normalized config kw w1 = (Raise e, w2) ->
  gen_fallback_providers self = [] ->
  generate' self messages model max_tokens temperature top_p false use_cache
    kw w = (Raise e, w2).
Proof.
  intros Hnorm config cache_key Hmiss Hprimary Hfb.
  unfold generate, bind, lift. rewrite Hnorm. rewrite andb_true_r.
  fold config. fold cache_key. rewrite Hmiss.
  unfold try_except at 1. rewrite Hprimary. by rewrite Hfb.
Qed.

Lemma _try_fallback_loop_first_success (self : LLMGenerator pyfloat redis_state)
    (active : option (exn pyfloat)) (pre post : list pystr) (f : pystr)
    (messages : list Message) (config : GenerationConfig pyfloat)
    (kw : kwargs pyfloat) :
  forall (last e0 : exn pyfloat) (w w1 w2 : world redis_state) (r : loc),
  failed_fallbacks py_lower instantiate self pre messages config kw e0 w
    = Some (last, w1) ->
  fallback_attempt py_lower instantiate self f messages config kw w1
    = (Ok r, w2) ->
  _try_fallback_loop py_lower instantiate self active (pre ++ f :: post)
    messages config kw w = (Ok r, w2).
Proof.
  induction pre as [|fb pre IH]; intros last e0 w w1 w2 r Hfail Hok.
  - cbn in Hfail. injection Hfail as _ <-.
    cbn [app _try_fallback_loop]. unfold try_except. by rewrite Hok.
  - cbn [failed_fallbacks] in Hfail. cbn [app _try_fallback_loop].
    unfold try_except.
    destruct (fallback_attempt py_lower instantiate self fb messages config kw w)
      as [[l|x] w'] eqn:E; [discriminate Hfail|].
    exact (IH last x w' w1 w2 r Hfail Hok).
Qed.

(** X11. The first fallback that answers wins. When the provider raises on a
    non-streaming call and the fallbacks before [f] fail one after the
    other, the response of [f] is what [generate] returns; the fallbacks
    after [f] are not tried and the response is not stored in the cache: the
    world is as [f] left it. *)
Theorem first_successful_fallback_answers
    (self : LLMGenerator pyfloat redis_state)
    (messages : list (raw_message pyfloat)) (normalized : list Message)
    (model : option pystr) (max_tokens : option Z)
    (temperature top_p : option pyfloat) (use_cache : bool)
    (kw : kwargs pyfloat) (w w1 w2 w3 w4 : world redis_state)
    (e last : exn pyfloat) (pre post : list pystr) (f : pystr) (r : loc) :
  _normalize_messages messages = Ok normalized ->
  let config := request_config self model max_tokens temperature top_p false use_cache in
  let cache_key :=
    get_cache_key float_json sha256_hexdigest (cm_config (gen_cache self))
      normalized config (gen_provider_name self) in
  (if use_cache
   then cache_get redis_get pickle_loads (gen_cache self) cache_key
   else ret None) w = (Ok None, w1) ->
  adapter_generate (gen_provider self) normalized config kw w1 = (Raise e, w2) ->
  gen_fallback_providers self = pre ++ f :: post ->
  failed_fallbacks py_lower instantiate self pre normalized config kw e w2
    = Some (last, w3) ->
  fallback_attempt py_lower instantiate self f normalized config kw w3
    = (Ok r, w4) ->
  generate' self messages model max_tokens temperature top_p false use_cache
    kw w = (Ok (GResponse r), w4).
Proof.
  intros Hnorm config cache_key Hmiss Hprimary Hfb Hfail Hok.
  unfold generate, bind, lift. rewrite Hnorm. rewrite andb_true_r.
  fold config. fold cache_key. rewrite Hmiss.
  unfold try_except at 1. rewrite Hprimary. cbn beta iota.
  unfold _try_fallback. rewrite Hfb.
  replace (list_truthy (pre ++ f :: post)) with true by (by destruct pre).
  by rewrite (_try_fallback_loop_first_success self (Some e) pre post f
                normalized config kw last e w2 w3 w4 r Hfail Hok).
Qed.
End DispatcherMore.

Lemma generate_rejects_invalid_message_witness :
  scripted_generate cohere_generator
    (hello_raw ++ [RawOther (py "<class 'str'>")]) false true fresh_world
  = (Raise (ValidationError (py "Invalid message type: " ++ py "<class 'str'>")),
     fresh_world).
Proof.
  apply (generate_rejects_invalid_message two_floats_json (fun s => s)
           no_redis_get no_redis_setex no_pickle_dumps no_pickle_loads
           (fun s => s) scripted_instantiate cohere_generator hello_raw []
           (RawOther (py "<class 'str'>")) hello_messages).
  - vm_compute. reflexivity.
  - reflexivity.
Defined.

Lemma repeated_call_is_served_from_cache_witness :
  let first := scripted_generate cohere_generator hello_raw false true
                 fresh_world in
  let second :=
    generate two_floats_json (fun s => s) no_redis_get no_redis_setex
      no_pickle_dumps no_pickle_loads (fun s => s) scripted_instantiate
      cohere_generator hello_raw None None None None false true
      [(py "seed", PInt 7)] (snd first) in
  fst first = Ok (GResponse 0%nat)
  /\ fst second = Ok (GResponse 0%nat)
  /\ http_requests (snd second) = 1%nat.
Proof.
  intros first second.
  pose (w1 := snd (adapter_generate (gen_provider cohere_generator)
                     hello_messages (scripted_config cohere_generator false true)
                     [] fresh_world)).
  destruct (repeated_call_is_served_from_cache two_floats_json (fun s => s)
              no_redis_get no_redis_setex no_pickle_dumps no_pickle_loads
              (fun s => s) scripted_instantiate cohere_generator hello_raw
              hello_messages None None None None [] [(py "seed", PInt 7)]
              fresh_world w1 0%nat eq_refl eq_refl)
    as (H1 & _ & H3 & _ & _ & H6 & _).
  - vm_compute. reflexivity.
  - vm_compute. reflexivity.
  - vm_compute. reflexivity.
  - split; [exact H1|]. split; [exact H3|]. exact H6.
Defined.

Lemma generate_without_cache_witness :
  scripted_generate cohere_generator hello_raw false false fresh_world
  = (Ok (GResponse 0%nat),
     snd (adapter_generate (gen_provider cohere_generator) hello_messages
            (scripted_config cohere_generator false false) [] fresh_world)).
Proof.
  apply (generate_without_cache two_floats_json (fun s => s) no_redis_get
           no_redis_setex no_pickle_dumps no_pickle_loads (fun s => s)
           scripted_instantiate cohere_generator hello_raw hello_messages).
  - vm_compute. reflexivity.
  - vm_compute. reflexivity.
Defined.

Lemma primary_error_without_fallbacks_witness :
  scripted_generate openai_alone hello_raw false true fresh_world
  = (Raise (AuthenticationError (py "Invalid API key") (py "openai")),
     after_three_attempts fresh_world).
Proof.
  apply (primary_error_without_fallbacks two_floats_json (fun s => s)
           no_redis_get no_redis_setex no_pickle_dumps no_pickle_loads
           (fun s => s) scripted_instantiate openai_alone hello_raw
           hello_messages None None None None true [] fresh_world fresh_world).
  - vm_compute. reflexivity.
  - vm_compute. reflexivity.
  - vm_compute. reflexivity.
  - reflexivity.
Defined.

Lemma first_successful_fallback_answers_witness :
  fst (scripted_generate openai_with_three_fallbacks hello_raw false true
         fresh_world) = Ok (GResponse 0%nat)
  /\ http_requests (snd (scripted_generate openai_with_three_fallbacks
                           hello_raw false true fresh_world)) = 7%nat
  /\ memory_cache (snd (scripted_generate openai_with_three_fallbacks
                          hello_raw false true fresh_world)) = ∅.
Proof.
  pose (cfg := scripted_config openai_with_three_fallbacks false true).
  pose (w2 := snd (adapter_generate (gen_provider openai_with_three_fallbacks)
                     hello_messages cfg [] fresh_world)).
  pose (w3 := snd (fallback_attempt (fun s => s) scripted_instantiate
                     openai_with_three_fallbacks (py "azure") hello_messages
                     cfg [] w2)).
  pose (w4 := snd (fallback_attempt (fun s => s) scripted_instantiate
                     openai_with_three_fallbacks (py "hf") hello_messages
                     cfg [] w3)).
  unfold scripted_generate.
  rewrite (first_successful_fallback_answers two_floats_json (fun s => s)
             no_redis_get no_redis_setex no_pickle_dumps no_pickle_loads
             (fun s => s) scripted_instantiate openai_with_three_fallbacks
             hello_raw hello_messages None None None None true []
             fresh_world fresh_world w2 w3 w4
             (AuthenticationError (py "Invalid API key") (py "openai"))
             (RateLimitError (py "Rate limit exceeded") (py "openai"))
             [py "azure"] [py "cohere"] (py "hf") 0%nat).
  - repeat split; vm_compute; reflexivity.
  - vm_compute. reflexivity.
  - vm_compute. reflexivity.
  - vm_compute. reflexivity.
  - reflexivity.
  - vm_compute. reflexivity.
  - vm_compute. reflexivity.
Defined.

(** ** The adapters: attempts, waits and what is sent *)

Section AdapterMore.
Context {pyfloat redis_state : Type}.
Context (http_post : nat -> pystr -> pyval pyfloat -> http_outcome pyfloat).
Context (parse_response :
  provider_class -> pyval pyfloat -> pystr -> result pyfloat Response).
Context (py_str : pyval pyfloat -> pystr).

Lemma retry_second_success {A} (body : M pyfloat redis_state A)
    (w w1 w2 : world redis_state) (e : exn pyfloat) (a : A) :
  body w = (Raise e, w1) ->
  body (waited w1) = (Ok a, w2) ->
  retry_stop_after_3 body w = (Ok a, w2).
Proof.
  intros H1 H2. unfold retry_stop_after_3. cbn [retrying].
  unfold try_except at 1. rewrite H1. unfold bind at 1, wait at 1.
  unfold try_except at 1. by rewrite H2.
Qed.

Lemma retry_pure_failure {A} (body : M pyfloat redis_state A) (e : exn pyfloat) :
  (forall w, body w = (Raise e, w)) ->
  forall w, retry_stop_after_3 body w = (Raise e, waited (waited w)).
Proof.
  intros H w. unfold retry_stop_after_3. cbn [retrying].
  unfold try_except at 1. rewrite H. unfold bind at 1, wait at 1.
  unfold try_except at 1. rewrite H. unfold bind at 1, wait at 1.
  apply H.
Qed.

(** The body every adapter runs inside the retry loop. *)
Local Abbreviation attempt prelude url payload handle parse :=
  (bind (lift prelude)
     (fun _ =>
        bind (client_post http_post url payload)
          (fun response =>
             if is_success response then
               bind (response_json response)
                 (fun data => bind (lift (parse data)) alloc)
             else raise (handle response)))).

Lemma attempt_fails (prelude : result pyfloat unit) (url : pystr)
    (payload : pyval pyfloat) (handle : http_response pyfloat -> exn pyfloat)
    (parse : pyval pyfloat -> result pyfloat Response) (w : world redis_state) :
  prelude = Ok tt ->
  request_fails http_post (http_requests w) url payload ->
  exists e, attempt prelude url payload handle parse w = (Raise e, request_sent w).
Proof.
  intros -> Hfail. unfold request_fails in Hfail.
  unfold bind, lift, client_post.
  destruct (http_post (http_requests w) url payload) as [e|r]; [by eexists|].
  rewrite Hfail. by eexists.
Qed.

Lemma attempt_answers (prelude : result pyfloat unit) (url : pystr)
    (payload data : pyval pyfloat) (handle : http_response pyfloat -> exn pyfloat)
    (parse : pyval pyfloat -> result pyfloat Response) (resp : Response)
    (w : world redis_state) :
  prelude = Ok tt ->
  request_answers http_post (http_requests w) url payload data ->
  parse data = Ok resp ->
  attempt prelude url payload handle parse w
  = (Ok (next_loc w),
     mkWorld (<[next_loc w := resp]> (heap w)) (S (next_loc w)) (memory_cache w)
       (redis w) (S (http_requests w)) (sleeps w)).
Proof.
  intros -> (r & Hpost & Hok & Hbody) Hparse.
  unfold bind, lift, client_post, response_json.
  rewrite Hpost, Hok, Hbody. unfold ret. by rewrite Hparse.
Qed.

Lemma attempt_recovers (prelude : result pyfloat unit) (url : pystr)
    (payload data : pyval pyfloat) (handle : http_response pyfloat -> exn pyfloat)
    (parse : pyval pyfloat -> result pyfloat Response) (resp : Response)
    (w : world redis_state) :
  prelude = Ok tt ->
  request_fails http_post (http_requests w) url payload ->
  request_answers http_post (S (http_requests w)) url payload data ->
  parse data = Ok resp ->
  retry_stop_after_3 (attempt prelude url payload handle parse) w
  = (Ok (next_loc w), after_recovery resp w).
Proof.
  intros Hpre Hfail Hans Hparse.
  destruct (attempt_fails prelude url payload handle parse w Hpre Hfail)
    as [e He].
  rewrite (retry_second_success _ w (request_sent w) _ e (next_loc w) He
             (attempt_answers prelude url payload data handle parse resp
                (waited (request_sent w)) Hpre Hans Hparse)).
  reflexivity.
Qed.

(** X12. Recovery. When the first request of a call fails (the transport
    raises, or the reply is outside 2xx) and the second is answered within
    2xx with a body the adapter can parse, each adapter returns the parsed
    response, built at a fresh location, after exactly two requests and one
    wait: the first error is dropped. *)
Theorem second_attempt_recovers (self : ProviderConfig)
    (messages : list Message) (config : GenerationConfig pyfloat)
    (kw : kwargs pyfloat) (w : world redis_state) (data : pyval pyfloat)
    (resp : Response) :
  (let model := opt_str_or (gc_model config) openai_default_model in
   let payload := openai_payload model messages config kw in
   existsb (pystr_eqb model) openai_supported_models = true ->
   request_fails http_post (http_requests w) (py "/chat/completions") payload ->
   request_answers http_post (S (http_requests w)) (py "/chat/completions")
     payload data ->
   parse_response OpenAIProvider data model = Ok resp ->
   openai_generate http_post parse_response messages config kw w
   = (Ok (next_loc w), after_recovery resp w))
  /\ (let model := opt_str_or (gc_model config) claude_default_model in
      let payload := claude_payload model messages config kw in
      existsb (pystr_eqb model) claude_supported_models = true ->
      request_fails http_post (http_requests w) (py "/messages") payload ->
      request_answers http_post (S (http_requests w)) (py "/messages")
        payload data ->
      parse_response ClaudeProvider data model = Ok resp ->
      claude_generate http_post parse_response messages config kw w
      = (Ok (next_loc w), after_recovery resp w))
  /\ (let model := opt_str_or (gc_model config) cohere_default_model in
      let payload := cohere_payload model messages config kw in
      existsb (pystr_eqb model) cohere_supported_models = true ->
      request_fails http_post (http_requests w) (py "/chat") payload ->
      request_answers http_post (S (http_requests w)) (py "/chat")
        payload data ->
      parse_response CohereProvider data model = Ok resp ->
      cohere_generate http_post parse_response messages config kw w
      = (Ok (next_loc w), after_recovery resp w))
  /\ (let model := opt_str_or (gc_model config) hf_default_model in
      let input_text := _convert_messages_to_hf messages in
      let payload := hf_payload input_text config kw in
      request_fails http_post (http_requests w) (hf_url self model) payload ->
      request_answers http_post (S (http_requests w)) (hf_url self model)
        payload data ->
      hf_parse_response py_str data model input_text = Ok resp ->
      hf_generate http_post py_str self messages config kw w
      = (Ok (next_loc w), after_recovery resp w)).
Proof.
  repeat split.
  - intros model payload Hmodel Hfail Hans Hparse.
    exact (attempt_recovers _ _ _ data openai_handle_http_error
             (fun d => parse_response OpenAIProvider d model) resp w
             (_validate_model_ok _ _ _ Hmodel) Hfail Hans Hparse).
  - intros model payload Hmodel Hfail Hans Hparse.
    exact (attempt_recovers _ _ _ data claude_handle_http_error
             (fun d => parse_response ClaudeProvider d model) resp w
             (_validate_model_ok _ _ _ Hmodel) Hfail Hans Hparse).
  - intros model payload Hmodel Hfail Hans Hparse.
    exact (attempt_recovers _ _ _ data cohere_handle_http_error
             (fun d => parse_response CohereProvider d model) resp w
             (_validate_model_ok _ _ _ Hmodel) Hfail Hans Hparse).
  - intros model input_text payload Hfail Hans Hparse.
    exact (attempt_recovers (Ok tt) _ _ data hf_handle_http_error
             (fun d => hf_parse_response py_str d model input_text) resp w
             eq_refl Hfail Hans Hparse).
Qed.

(** X13. A model the adapter does not list is rejected without any request,
    but not at once: the check runs inside the retried body, so the OpenAI,
    Claude and Cohere adapters make three attempts, waiting twice, before
    [ConfigurationError] reaches the caller. *)
Theorem unsupported_model_is_retried (messages : list Message)
    (config : GenerationConfig pyfloat) (kw : kwargs pyfloat)
    (w : world redis_state) :
  (let model := opt_str_or (gc_model config) openai_default_model in
   existsb (pystr_eqb model) openai_supported_models = false ->
   openai_generate http_post parse_response messages config kw w
   = (Raise (ConfigurationError
               (py "Model '" ++ model ++ py "' not supported by "
                ++ py "OpenAIProvider" ++ py ". Supported models: "
                ++ join (py ", ") openai_supported_models)),
      waited (waited w)))
  /\ (let model := opt_str_or (gc_model config) claude_default_model in
      existsb (pystr_eqb model) claude_supported_models = false ->
      claude_generate http_post parse_response messages config kw w
      = (Raise (ConfigurationError
                  (py "Model '" ++ model ++ py "' not supported by "
                   ++ py "ClaudeProvider" ++ py ". Supported models: "
                   ++ join (py ", ") claude_supported_models)),
         waited (waited w)))
  /\ (let model := opt_str_or (gc_model config) cohere_default_model in
      existsb (pystr_eqb model) cohere_supported_models = false ->
      cohere_generate http_post parse_response messages config kw w
      = (Raise (ConfigurationError
                  (py "Model '" ++ model ++ py "' not supported by "
                   ++ py "CohereProvider" ++ py ". Supported models: "
                   ++ join (py ", ") cohere_supported_models)),
         waited (waited w))).
Proof.
  repeat split; intros model Hmodel; apply retry_pure_failure; intros w';
    [unfold openai_generate_once | unfold claude_generate_once
     | unfold cohere_generate_once];
    fold model; unfold _validate_model; rewrite Hmodel; reflexivity.
Qed.

Lemma retrying_footprint (body : M pyfloat redis_state loc) (n : nat) :
  (forall w, footprint 1 0 w (body w)) ->
  forall w, footprint (S n) n w (retrying n body w).
Proof.
  intros Hbody. induction n as [|n IH]; intros w.
  - exact (Hbody w).
  - cbn [retrying]. unfold try_except, bind, wait.
    pose proof (Hbody w) as H. unfold footprint in *.
    destruct (body w) as [[l|e] w1].
    + destruct H as (Hr & Hs & Hm & Hd & Hh). cbn [fst snd] in *.
      split; [lia|]. split; [lia|]. split; [exact Hm|]. split; [exact Hd|].
      exact Hh.
    + destruct H as (Hr & Hs & Hm & Hd & Hh & Hn). cbn [fst snd] in *.
      pose proof (IH (waited w1)) as H'.
      destruct (retrying n body (waited w1)) as [res w2].
      destruct H' as (Hr' & Hs' & Hm' & Hd' & Hh'). cbn [fst snd] in *.
      cbn [waited http_requests sleeps memory_cache redis heap next_loc] in *.
      split; [lia|]. split; [lia|]. split; [congruence|]. split; [congruence|].
      destruct res as [l|e'].
      * destruct Hh' as (-> & Hn' & r & Hr2).
        split; [congruence|]. split; [congruence|]. exists r. congruence.
      * destruct Hh' as (Hh' & Hn'). split; congruence.
Qed.

Lemma attempt_footprint (prelude : result pyfloat unit) (url : pystr)
    (payload : pyval pyfloat) (handle : http_response pyfloat -> exn pyfloat)
    (parse : pyval pyfloat -> result pyfloat Response) (w : world redis_state) :
  footprint 1 0 w (attempt prelude url payload handle parse w).
Proof.
  unfold footprint, bind, lift, client_post, response_json, alloc, raise, ret.
  destruct prelude as [[]|e]; [|cbn; repeat split; lia].
  destruct (http_post (http_requests w) url payload) as [e|r];
    [cbn; repeat split; lia|].
  destruct (is_success r); [|cbn; repeat split; lia].
  destruct (json_body r) as [data|]; [|cbn; repeat split; lia].
  destruct (parse data) as [resp|e]; cbn; repeat split; try lia.
  by exists resp.
Qed.

(** X14. The footprint of a call. Whatever the transport answers and
    whatever the parser does, [generate] of each adapter sends at most three
    requests and waits at most twice, never touches the cache or the
    external store, and changes the heap in one way only: a successful call
    adds the response it returns at the next free location; a failed call
    leaves the heap as it was. *)
Theorem generate_footprint (self : ProviderConfig) (messages : list Message)
    (config : GenerationConfig pyfloat) (kw : kwargs pyfloat)
    (w : world redis_state) :
  footprint 3 2 w (openai_generate http_post parse_response messages config kw w)
  /\ footprint 3 2 w
       (claude_generate http_post parse_response messages config kw w)
  /\ footprint 3 2 w
       (cohere_generate http_post parse_response messages config kw w)
  /\ footprint 3 2 w (hf_generate http_post py_str self messages config kw w).
Proof.
  split; [|split; [|split]]; apply (retrying_footprint _ 2); intros w'.
  - exact (attempt_footprint _ _ _ openai_handle_http_error
             (fun d => parse_response OpenAIProvider d _) w').
  - exact (attempt_footprint _ _ _ claude_handle_http_error
             (fun d => parse_response ClaudeProvider d _) w').
  - exact (attempt_footprint _ _ _ cohere_handle_http_error
             (fun d => parse_response CohereProvider d _) w').
  - exact (attempt_footprint (Ok tt) _ _ hf_handle_http_error
             (fun d => hf_parse_response py_str d _ _) w').
Qed.
End AdapterMore.

Lemma second_attempt_recovers_witness :
  cohere_generate flaky_http scripted_parse hello_messages
    (scripted_config cohere_generator false true) [] fresh_world
  = (Ok 0%nat,
     after_recovery (hello_world_response (py "cohere") (py "command"))
       fresh_world).
Proof.
  refine (proj1 (proj2 (proj2
    (second_attempt_recovers flaky_http scripted_parse scripted_py_str
       test_provider_config hello_messages
       (scripted_config cohere_generator false true) [] fresh_world
       (PDict [(py "text", PStr (py "Hello, world!"))])
       (hello_world_response (py "cohere") (py "command"))))) _ _ _ _).
  - vm_compute. reflexivity.
  - exact I.
  - eexists. repeat split; vm_compute; reflexivity.
  - vm_compute. reflexivity.
Defined.

Lemma unsupported_model_is_retried_witness :
  fst (openai_generate scripted_http scripted_parse hello_messages
         unsupported_model_config [] fresh_world)
  = Raise (ConfigurationError
             (py "Model 'gpt-5' not supported by OpenAIProvider. Supported models: gpt-3.5-turbo, gpt-3.5-turbo-16k, gpt-4, gpt-4-32k, gpt-4-turbo, gpt-4o, gpt-4o-mini"))
  /\ http_requests (snd (openai_generate scripted_http scripted_parse
                           hello_messages unsupported_model_config []
                           fresh_world)) = 0%nat
  /\ sleeps (snd (openai_generate scripted_http scripted_parse hello_messages
                    unsupported_model_config [] fresh_world)) = 2%nat.
Proof.
  rewrite (proj1 (unsupported_model_is_retried scripted_http scripted_parse
                    hello_messages unsupported_model_config [] fresh_world)).
  - repeat split; vm_compute; reflexivity.
  - vm_compute. reflexivity.
Defined.

(** ** What the request bodies carry *)

Section Payloads.
Context {pyfloat : Type}.

(** X15. Extra keyword arguments win. In the bodies of the OpenAI, Claude
    and Cohere requests, a field named by an extra keyword argument carries
    that argument's value, whatever the configuration put there, and every
    other field is as without extra arguments. The Hugging Face body takes
    them inside [parameters] only: [inputs] is the transcript whatever they
    are. *)
Theorem kwargs_override_payload (model input_text : pystr)
    (messages : list Message) (config : GenerationConfig pyfloat)
    (kw : kwargs pyfloat) (key : pystr) :
  let merged (base sent : option (pyval pyfloat)) :=
    sent = match dict_get key (rev kw) with Some v => Some v | None => base end in
  merged (payload_get key (openai_payload model messages config []))
    (payload_get key (openai_payload model messages config kw))
  /\ merged (payload_get key (claude_payload model messages config []))
       (payload_get key (claude_payload model messages config kw))
  /\ merged (payload_get key (cohere_payload model messages config []))
       (payload_get key (cohere_payload model messages config kw))
  /\ payload_get (py "inputs") (hf_payload input_text config kw)
     = Some (PStr input_text)
  /\ exists p0 p,
       payload_get (py "parameters") (hf_payload input_text config [])
       = Some (PDict p0)
       /\ payload_get (py "parameters") (hf_payload input_text config kw)
          = Some (PDict p)
       /\ merged (dict_get key p0) (dict_get key p).
Proof.
  intros merged. subst merged. cbv beta.
  split; [|split; [|split; [|split]]].
  - unfold openai_payload, payload_get. apply dict_get_update.
  - unfold claude_payload, payload_get. apply dict_get_update.
  - unfold cohere_payload, payload_get. apply dict_get_update.
  - reflexivity.
  - unfold hf_payload, payload_get. eexists _, _.
    split; [reflexivity|]. split; [reflexivity|]. apply dict_get_update.
Qed.

(** X16. How the generation parameters reach the wire, when no extra
    keyword argument names them. OpenAI and Cohere send [max_tokens] only
    when it is a non-zero integer ([0] is dropped like [None]); Claude always
    sends it, [1024] standing for [None] and [0]; Hugging Face sends it as
    [max_new_tokens] inside [parameters]. [temperature] and [top_p] are sent
    whenever they are not [None], [0.0] included; Cohere names [top_p]
    [p]. *)
Theorem generation_parameters_on_the_wire (model input_text : pystr)
    (messages : list Message) (config : GenerationConfig pyfloat) :
  let max_tokens_field :=
    match gc_max_tokens config with
    | Some z => if (z =? 0)%Z then None else Some (PInt z)
    | None => None
    end in
  let temperature_field := option_map PFloat (gc_temperature config) in
  let top_p_field := option_map PFloat (gc_top_p config) in
  (let sent := openai_payload model messages config [] in
   payload_get (py "max_tokens") sent = max_tokens_field
   /\ payload_get (py "temperature") sent = temperature_field
   /\ payload_get (py "top_p") sent = top_p_field)
  /\ (let sent := cohere_payload model messages config [] in
      payload_get (py "max_tokens") sent = max_tokens_field
      /\ payload_get (py "temperature") sent = temperature_field
      /\ payload_get (py "p") sent = top_p_field
      /\ payload_get (py "top_p") sent = None)
  /\ (let sent := claude_payload model messages config [] in
      payload_get (py "max_tokens") sent
      = Some (PInt (match gc_max_tokens config with
                    | Some z => if (z =? 0)%Z then 1024%Z else z
                    | None => 1024%Z
                    end))
      /\ payload_get (py "temperature") sent = temperature_field
      /\ payload_get (py "top_p") sent = top_p_field)
  /\ (exists parameters,
        payload_get (py "parameters") (hf_payload input_text config [])
        = Some (PDict parameters)
        /\ dict_get (py "max_new_tokens") parameters = max_tokens_field
        /\ dict_get (py "max_tokens") parameters = None
        /\ dict_get (py "temperature") parameters = temperature_field
        /\ dict_get (py "top_p") parameters = top_p_field).
Proof.
  intros max_tokens_field temperature_field top_p_field.
  subst max_tokens_field temperature_field top_p_field.
  split; [|split; [|split]].
  - unfold openai_payload, set_if_truthy_int, int_truthy.
    destruct (gc_max_tokens config) as [[|z|z]|],
      (gc_temperature config), (gc_top_p config);
      repeat split; vm_compute; reflexivity.
  - unfold cohere_payload, set_if_truthy_int, int_truthy.
    destruct (gc_max_tokens config) as [[|z|z]|],
      (gc_temperature config), (gc_top_p config);
      repeat split; vm_compute; reflexivity.
  - unfold claude_payload, claude_base_payload, int_or, int_truthy.
    destruct (claude_convert messages) as [[[|c s]|] claude_messages],
      (gc_max_tokens config) as [[|z|z]|],
      (gc_temperature config), (gc_top_p config);
      repeat split; vm_compute; reflexivity.
  - unfold hf_payload, set_if_truthy_int, int_truthy. eexists.
    split; [reflexivity|].
    destruct (gc_max_tokens config) as [[|z|z]|],
      (gc_temperature config), (gc_top_p config);
      repeat split; vm_compute; reflexivity.
Qed.
End Payloads.

(** ** Hugging Face: the transcript and the simulated stream *)

Lemma join_snoc (sep x : pystr) (l : list pystr) :
  l <> [] -> join sep (l ++ [x]) = join sep l ++ sep ++ x.
Proof.
  induction l as [|y l IH]; intros Hne; [done|].
  destruct l as [|z l]; [reflexivity|].
  change (join sep ((y :: z :: l) ++ [x]))
    with (y ++ sep ++ join sep ((z :: l) ++ [x])).
  rewrite IH by done.
  change (join sep (y :: z :: l)) with (y ++ sep ++ join sep (z :: l)).
  by rewrite <- !app_assoc.
Qed.

Lemma hf_part_assistant (m : Message) :
  startswith (hf_part m) (py "Assistant:")
  = bool_decide (msg_role m = assistant).
Proof. destruct m as [[] c]; vm_compute; reflexivity. Qed.

(** X17. The transcript sent to Hugging Face ends with an open assistant
    turn: the cue [Assistant:] is appended as a line of its own when the
    list is empty or its last message is not the assistant's; when the last
    message is the assistant's, nothing is appended and the transcript ends
    with that message, left for the model to continue. *)
Theorem hf_transcript_cue (pre : list Message) (m : Message) :
  _convert_messages_to_hf [] = py "Assistant:"
  /\ _convert_messages_to_hf (pre ++ [m])
     = if bool_decide (msg_role m = assistant)
       then join [10] (List.map hf_part (pre ++ [m]))
       else join [10] (List.map hf_part (pre ++ [m])) ++ [10] ++ py "Assistant:".
Proof.
  split; [reflexivity|].
  unfold _convert_messages_to_hf. rewrite map_app. cbn [List.map].
  rewrite last_last, hf_part_assistant.
  replace (list_truthy (List.map hf_part pre ++ [hf_part m])) with true
    by (by destruct (List.map hf_part pre)).
  cbn [negb orb]. destruct (bool_decide (msg_role m = assistant)); cbn [negb].
  - reflexivity.
  - apply join_snoc. by destruct (List.map hf_part pre).
Qed.

Lemma range_chunks_concat (content : pystr) (fuel start : nat) :
  (length content - start <= fuel)%nat ->
  concat (List.map (fun i => chunk_content (hf_stream_chunk content i))
            (range_from fuel start (length content) chunk_size))
  = skipn start content.
Proof.
  revert start. induction fuel as [|fuel IH]; intros start Hfuel.
  - cbn. symmetry. apply skipn_all2. lia.
  - cbn [range_from]. destruct (start <? length content)%nat eqn:Hlt.
    + cbn [List.map concat]. rewrite IH by (unfold chunk_size; lia).
      unfold hf_stream_chunk. cbn [chunk_content].
      transitivity (firstn chunk_size (skipn start content)
                    ++ skipn chunk_size (skipn start content));
        [|apply firstn_skipn].
      f_equal. rewrite skipn_skipn. f_equal. lia.
    + apply Nat.ltb_ge in Hlt. cbn. symmetry. by apply skipn_all2.
Qed.

Lemma range_chunks_sizes (content : pystr) (fuel start : nat) :
  Forall (fun i => (1 <= length (chunk_content (hf_stream_chunk content i))
                    <= chunk_size)%nat)
    (range_from fuel start (length content) chunk_size).
Proof.
  revert start. induction fuel as [|fuel IH]; intros start; [constructor|].
  cbn [range_from]. destruct (start <? length content)%nat eqn:Hlt;
    [|constructor].
  apply Nat.ltb_lt in Hlt. constructor; [|apply IH].
  unfold hf_stream_chunk. cbn [chunk_content].
  rewrite length_firstn, length_skipn. unfold chunk_size. lia.
Qed.

Lemma hf_stream_chunks_concat (content : pystr) :
  concat (List.map chunk_content (hf_stream_chunks content)) = content.
Proof.
  unfold hf_stream_chunks, py_range. rewrite List.map_map.
  by rewrite range_chunks_concat by lia.
Qed.

(** X18. The chunks of the simulated stream are the content cut in pieces:
    put end to end they give the content back, and each of them holds
    between one and ten characters. *)
Theorem hf_stream_chunks_rebuild_content (content : pystr) :
  concat (List.map chunk_content (hf_stream_chunks content)) = content
  /\ Forall (fun chunk => (1 <= length (chunk_content chunk) <= 10)%nat)
       (hf_stream_chunks content).
Proof.
  split; [apply hf_stream_chunks_concat|].
  unfold hf_stream_chunks, py_range.
  apply Forall_map. exact (range_chunks_sizes content _ 0).
Qed.

Section HfStream.
Context {pyfloat redis_state : Type}.
Context (http_post : nat -> pystr -> pyval pyfloat -> http_outcome pyfloat).
Context (py_str : pyval pyfloat -> pystr).

Lemma retrying_outcome {A} (body : M pyfloat redis_state A)
    (P : result pyfloat A * world redis_state -> Prop) (n : nat) :
  (forall w, P (body w)) -> forall w, P (retrying n body w).
Proof.
  intros Hbody. induction n as [|n IH]; intros w; [apply Hbody|].
  cbn [retrying]. unfold try_except, bind, wait.
  pose proof (Hbody w) as H. destruct (body w) as [[a|e] w1]; [exact H|].
  apply IH.
Qed.

Lemma hf_parse_response_one_choice (data : pyval pyfloat)
    (model input_text : pystr) (r : Response) :
  hf_parse_response py_str data model input_text = Ok r ->
  exists c, text r = [c].
Proof.
  unfold hf_parse_response.
  destruct (hf_content py_str data input_text) as [[]|e]; try discriminate.
  intros [= <-]. by eexists.
Qed.

Lemma hf_generate_stores_one_choice (self : ProviderConfig)
    (messages : list Message) (config : GenerationConfig pyfloat)
    (kw : kwargs pyfloat) (w : world redis_state) :
  match hf_generate http_post py_str self messages config kw w with
  | (Ok l, w') => exists r c, heap w' !! l = Some r /\ text r = [c]
  | (Raise _, _) => True
  end.
Proof.
  apply (retrying_outcome _
           (fun run => match run with
                       | (Ok l, w') => exists r c, heap w' !! l = Some r /\ text r = [c]
                       | (Raise _, _) => True
                       end) 2).
  intros w0. unfold hf_generate_once, bind, lift, client_post, response_json,
    alloc, raise, ret.
  destruct (http_post _ _ _) as [e|r]; [done|].
  destruct (is_success r); [|done].
  destruct (json_body r) as [data|]; [|done].
  destruct (hf_parse_response py_str data _ _) as [resp|e] eqn:E; [|done].
  destruct (hf_parse_response_one_choice _ _ _ _ E) as [c Hc].
  exists resp, c. cbn. by rewrite lookup_insert_eq.
Qed.

(** X19. The Hugging Face stream replays a complete call. Running the
    generator runs [generate] first, retries included, and leaves the world
    as that call left it. When the call raises, the stream raises the same
    exception before any chunk; when it returns, the stream ends normally and
    its chunks, put end to end, are the content of the one choice of the
    response the call built. *)
Theorem hf_stream_replays_generate (self : ProviderConfig)
    (messages : list Message) (config : GenerationConfig pyfloat)
    (kw : kwargs pyfloat) (w : world redis_state) :
  let run := hf_generate_stream http_post py_str self messages config kw w in
  let call := hf_generate http_post py_str self messages config kw w in
  snd run = snd call
  /\ match fst call with
     | Raise e => emitted (fst run) = [] /\ failure (fst run) = Some e
     | Ok l =>
         failure (fst run) = None
         /\ exists r c,
              heap (snd call) !! l = Some r /\ text r = [c]
              /\ concat (List.map chunk_content (emitted (fst run))) = content c
     end.
Proof.
  intros run call. subst run call. unfold hf_generate_stream.
  pose proof (hf_generate_stores_one_choice self messages config kw w) as H.
  destruct (hf_generate http_post py_str self messages config kw w)
    as [[l|e] w']; cbn [fst snd]; [|done].
  destruct H as (r & c & Hr & Hc). rewrite Hr, Hc. cbn [fst snd emitted failure].
  split; [reflexivity|]. split; [reflexivity|].
  exists r, c. split; [reflexivity|]. split; [exact Hc|].
  apply hf_stream_chunks_concat.
Qed.
End HfStream.

(** ** Claude: the stream *)

Section ClaudeStream.
Context {pyfloat redis_state : Type}.
Context (http_stream : nat -> pystr -> pyval pyfloat -> stream_outcome pyfloat).
Context (json_loads : pystr -> option (pyval pyfloat)).

Lemma claude_parse_stream_chunk_shape (data : pyval pyfloat) (chunk : StreamChunk) :
  claude_parse_stream_chunk data = Ok (Some chunk) -> claude_chunk_shape chunk.
Proof.
  unfold claude_parse_stream_chunk, claude_chunk_shape.
  destruct data as [| | | | |l|d]; try discriminate.
  destruct (pyval_is_str (dict_get (py "type") d) (py "content_block_delta")).
  - destruct (dict_get (py "delta") d) as [[| | | | |l|delta]|]; try discriminate.
    destruct (pyval_is_str (dict_get (py "type") delta) (py "text_delta"));
      [|discriminate].
    destruct (dict_get (py "text") delta) as [[| | | |t|l|d']|];
      try discriminate; by intros [= <-].
  - destruct (pyval_is_str (dict_get (py "type") d) (py "message_stop"));
      [|discriminate].
    by intros [= <-].
Qed.

Lemma claude_stream_lines_shape (lines : list pystr) :
  Forall claude_chunk_shape (fst (claude_stream_lines json_loads lines)).
Proof.
  induction lines as [|line rest IH]; [constructor|].
  cbn [claude_stream_lines].
  destruct (startswith line (py "data: ")); [|exact IH].
  destruct (json_loads (skipn 6 line)) as [data|]; [|exact IH].
  destruct (claude_parse_stream_chunk data) as [[chunk|]|e] eqn:E;
    [|exact IH|constructor].
  destruct (claude_stream_lines json_loads rest) as [chunks failed].
  constructor; [|exact IH]. by apply claude_parse_stream_chunk_shape in E.
Qed.

(** X20. The footprint of the Claude stream. Whatever the endpoint sends,
    running the generator sends at most one request, never waits (the stream
    is not retried) and leaves the heap, the cache and the external store as
    they were; and every chunk it yields is either a piece of text, with no
    finish reason, or the final marker: empty, with finish reason [stop]. *)
Theorem claude_stream_footprint (messages : list Message)
    (config : GenerationConfig pyfloat) (kw : kwargs pyfloat)
    (w : world redis_state) :
  let run := claude_generate_stream http_stream json_loads messages config kw w in
  (http_requests w <= http_requests (snd run) <= S (http_requests w))%nat
  /\ sleeps (snd run) = sleeps w
  /\ heap (snd run) = heap w
  /\ next_loc (snd run) = next_loc w
  /\ memory_cache (snd run) = memory_cache w
  /\ redis (snd run) = redis w
  /\ Forall claude_chunk_shape (emitted (fst run)).
Proof.
  intros run. subst run. unfold claude_generate_stream.
  destruct (_validate_model _ _ _) as [[]|e];
    [|cbn; repeat split; try lia; constructor].
  destruct (http_stream _ _ _) as [e|r];
    [cbn; repeat split; try lia; constructor|].
  destruct ((200 <=? stream_status r)%Z && (stream_status r <=? 299)%Z);
    [|cbn; repeat split; try lia; constructor].
  pose proof (claude_stream_lines_shape (stream_lines r)) as H.
  destruct (claude_stream_lines json_loads (stream_lines r)) as [chunks [e|]];
    cbn; repeat split; try lia; exact H.
Qed.

(** X21. Early failures of the Claude stream. A model the adapter does not
    list ends the stream with [ConfigurationError] before any request and
    without any wait; a reply outside 2xx ends it, after that one request
    and before any chunk, with the typed error of the reply
    ([AuthenticationError] for 401, [RateLimitError] for 429). *)
Theorem claude_stream_early_failure (messages : list Message)
    (config : GenerationConfig pyfloat) (kw : kwargs pyfloat)
    (w : world redis_state) (r : stream_reply pyfloat) :
  let model := opt_str_or (gc_model config) claude_default_model in
  let run := claude_generate_stream http_stream json_loads messages config kw w in
  (existsb (pystr_eqb model) claude_supported_models = false ->
   run = ({| emitted := [];
             failure :=
               Some (ConfigurationError
                       (py "Model '" ++ model ++ py "' not supported by "
                        ++ py "ClaudeProvider" ++ py ". Supported models: "
                        ++ join (py ", ") claude_supported_models)) |}, w))
  /\ (existsb (pystr_eqb model) claude_supported_models = true ->
      http_stream (http_requests w) (py "/messages")
        (claude_stream_payload model messages config kw) = StreamOpened r ->
      (stream_status r < 200 \/ 299 < stream_status r)%Z ->
      run = ({| emitted := [];
                failure :=
                  Some (claude_handle_http_error
                          {| status := stream_status r;
                             json_body := stream_json_body r;
                             error_str := stream_error_str r |}) |},
             request_sent w)).
Proof.
  intros model run. subst run. unfold claude_generate_stream. fold model.
  unfold _validate_model. split.
  - intros Hmodel. by rewrite Hmodel.
  - intros Hmodel Hopen Hstatus. rewrite Hmodel, Hopen.
    replace ((200 <=? stream_status r)%Z && (stream_status r <=? 299)%Z)
      with false; [reflexivity|].
    symmetry. apply andb_false_iff. destruct Hstatus as [H|H].
    + left. apply Z.leb_gt. exact H.
    + right. apply Z.leb_gt. exact H.
Qed.

(** X22. Reading the lines of the Claude stream. Lines that do not start
    with [data: ] and lines whose data does not decode are skipped: removing
    them changes nothing. The lines are read one after the other: the chunks
    of two runs of lines are those of the first followed by those of the
    second, unless the first run ends in an exception, after which nothing
    is read. *)
Theorem claude_stream_lines_compose (a b : list pystr) :
  claude_stream_lines json_loads
    (List.filter (claude_relevant_line json_loads) a)
  = claude_stream_lines json_loads a
  /\ claude_stream_lines json_loads (a ++ b)
     = match snd (claude_stream_lines json_loads a) with
       | Some e => claude_stream_lines json_loads a
       | None =>
           (fst (claude_stream_lines json_loads a)
            ++ fst (claude_stream_lines json_loads b),
            snd (claude_stream_lines json_loads b))
       end.
Proof.
  split.
  - induction a as [|line rest IH]; [reflexivity|].
    cbn [List.filter]. unfold claude_relevant_line at 1.
    cbn [claude_stream_lines].
    destruct (startswith line (py "data: ")) eqn:Hs; cbn [andb]; [|exact IH].
    destruct (json_loads (skipn 6 line)) as [data|] eqn:Hd; [|exact IH].
    cbn [claude_stream_lines]. rewrite Hs, Hd.
    destruct (claude_parse_stream_chunk data) as [[chunk|]|e];
      [by rewrite IH|exact IH|reflexivity].
  - induction a as [|line rest IH].
    + cbn. by destruct (claude_stream_lines json_loads b).
    + cbn [app claude_stream_lines].
      destruct (startswith line (py "data: ")); [|exact IH].
      destruct (json_loads (skipn 6 line)) as [data|]; [|exact IH].
      destruct (claude_parse_stream_chunk data) as [[chunk|]|e];
        [|exact IH|reflexivity].
      rewrite IH.
      by destruct (claude_stream_lines json_loads rest) as [chunks [e|]].
Qed.
End ClaudeStream.

Lemma claude_stream_early_failure_witness :
  claude_generate_stream (redis_state:=unit) unauthorized_stream no_json_loads
    hello_messages claude_stream_config [] fresh_world
  = ({| emitted := [];
        failure := Some (AuthenticationError (py "Invalid API key") (py "claude")) |},
     request_sent fresh_world).
Proof.
  refine (proj2
    (claude_stream_early_failure unauthorized_stream no_json_loads
       hello_messages claude_stream_config [] fresh_world
       {| stream_status := 401; stream_json_body := None;
          stream_error_str := py "HTTP error"; stream_lines := [];
          stream_broken := None |}) _ _ _).
  - vm_compute. reflexivity.
  - reflexivity.
  - right. cbn. lia.
Defined.

(** ** The cache string is plain ASCII *)

Lemma hex_digit_printable (d : N) : d < 16 -> printable_ascii (hex_digit d).
Proof.
  intros Hd. unfold hex_digit, printable_ascii.
  destruct (d <? 10) eqn:E; [apply N.ltb_lt in E|apply N.ltb_ge in E]; lia.
Qed.

Lemma hex4_printable (n : N) : Forall printable_ascii (hex4 n).
Proof.
  unfold hex4. repeat constructor; apply hex_digit_printable;
    apply N.mod_lt; lia.
Qed.

Lemma literal_printable (s : string) :
  forallb (fun c => (32 <=? c) && (c <=? 126)) (py s) = true ->
  Forall printable_ascii (py s).
Proof.
  intros H. apply Forall_forall. intros c Hc.
  rewrite forallb_forall in H. specialize (H c).
  assert (Hin : In c (py s)) by (by apply list_elem_of_In).
  apply H in Hin. apply andb_true_iff in Hin as [H1 H2].
  apply N.leb_le in H1, H2. split; assumption.
Qed.

Lemma escape_char_printable (c : N) : Forall printable_ascii (escape_char c).
Proof.
  unfold escape_char.
  repeat (match goal with
          | |- context [if ?b =? ?k then _ else _] =>
              destruct (b =? k); [repeat constructor; unfold printable_ascii; lia|]
          end).
  destruct ((32 <=? c) && (c <=? 126)) eqn:E.
  - apply andb_true_iff in E as [H1 H2]. apply N.leb_le in H1, H2.
    repeat constructor; assumption.
  - destruct (c <? 65536).
    + apply Forall_app. split; [|apply hex4_printable].
      repeat constructor; unfold printable_ascii; lia.
    + cbv zeta. repeat (apply Forall_app; split); try apply hex4_printable;
        repeat constructor; unfold printable_ascii; lia.
Qed.

Lemma encode_basestring_ascii_printable (s : pystr) :
  Forall printable_ascii (encode_basestring_ascii s).
Proof.
  unfold encode_basestring_ascii. apply Forall_app. split;
    [repeat constructor; unfold printable_ascii; lia|].
  apply Forall_app. split;
    [|repeat constructor; unfold printable_ascii; lia].
  induction s as [|c s IH]; [constructor|].
  cbn [flat_map]. apply Forall_app. split;
    [apply escape_char_printable|exact IH].
Qed.

Lemma join_printable (sep : pystr) (l : list pystr) :
  Forall printable_ascii sep -> Forall (Forall printable_ascii) l ->
  Forall printable_ascii (join sep l).
Proof.
  intros Hsep Hl. destruct l as [|x l]; [constructor|].
  rewrite join_cons. inversion Hl as [|? ? Hx Hl']; subst.
  apply Forall_app. split; [exact Hx|].
  induction Hl' as [|y l Hy Hl' IH]; [constructor|].
  cbn [flat_map]. apply Forall_app. split; [|apply IH; by constructor].
  apply Forall_app. by split.
Qed.

Lemma repr_int_printable (z : Z) : Forall printable_ascii (repr_int z).
Proof.
  eapply Forall_impl; [apply repr_int_chars|].
  intros c [->|H]; unfold printable_ascii; lia.
Qed.

Section CacheStringAscii.
Context {pyfloat : Type} (float_json : pyfloat -> pystr).
Hypothesis float_json_printable : forall f, Forall printable_ascii (float_json f).

Lemma dump_item_printable (k : string) (v : pystr) :
  Forall printable_ascii v -> Forall printable_ascii (dump_item (py k, v)).
Proof.
  intros Hv. unfold dump_item. cbn [fst snd].
  apply Forall_app. split; [apply encode_basestring_ascii_printable|].
  apply Forall_app. split; [|exact Hv].
  apply literal_printable. vm_compute. reflexivity.
Qed.

Lemma dump_opt_printable {A} (f : A -> pystr) (o : option A) :
  (forall a, Forall printable_ascii (f a)) ->
  Forall printable_ascii (dump_opt f o).
Proof.
  intros Hf. destruct o; [apply Hf|].
  apply (literal_printable "null"). vm_compute. reflexivity.
Qed.

(** X23. The string that is hashed into a cache key is made of printable
    ASCII characters only, whatever code points the messages, the model and
    the provider name contain (lone surrogates included): every other
    character is written as an escape. Encoding it for the hash therefore
    never fails. *)
Theorem cache_string_is_ascii (messages : list Message)
    (config : GenerationConfig pyfloat) (provider_name : pystr) :
  Forall printable_ascii (cache_string float_json messages config provider_name).
Proof using float_json_printable.
  rewrite cache_string_eq.
  assert (Hsep : Forall printable_ascii (py ", "))
    by (apply literal_printable; vm_compute; reflexivity).
  assert (Hmessage : forall m,
            Forall printable_ascii (json_dumps float_json (message_dict m))).
  { intros m. rewrite message_dump_eq.
    apply Forall_app_2; [apply literal_printable; vm_compute; reflexivity|].
    apply Forall_app_2; [|apply literal_printable; vm_compute; reflexivity].
    apply Forall_app_2;
      [apply dump_item_printable, encode_basestring_ascii_printable|].
    apply Forall_app_2; [exact Hsep|].
    apply dump_item_printable, encode_basestring_ascii_printable. }
  apply Forall_app_2; [apply literal_printable; vm_compute; reflexivity|].
  apply Forall_app_2; [|apply literal_printable; vm_compute; reflexivity].
  apply Forall_app_2;
    [apply dump_item_printable, dump_opt_printable, repr_int_printable|].
  apply Forall_app_2; [exact Hsep|].
  apply Forall_app_2.
  { apply dump_item_printable.
    apply Forall_app_2; [apply literal_printable; vm_compute; reflexivity|].
    apply Forall_app_2; [|apply literal_printable; vm_compute; reflexivity].
    apply join_printable; [exact Hsep|]. apply Forall_map.
    apply Forall_forall. intros m _. apply Hmessage. }
  apply Forall_app_2; [exact Hsep|].
  apply Forall_app_2;
    [apply dump_item_printable, dump_opt_printable,
       encode_basestring_ascii_printable|].
  apply Forall_app_2; [exact Hsep|].
  apply Forall_app_2;
    [apply dump_item_printable, encode_basestring_ascii_printable|].
  apply Forall_app_2; [exact Hsep|].
  apply Forall_app_2;
    [apply dump_item_printable, dump_opt_printable, float_json_printable|].
  apply Forall_app_2; [exact Hsep|].
  apply dump_item_printable, dump_opt_printable, float_json_printable.
Qed.
End CacheStringAscii.

Lemma cache_string_is_ascii_witness :
  Forall printable_ascii
    (cache_string two_floats_json surrogate_messages example_config (py "openai")).
Proof.
  apply (cache_string_is_ascii two_floats_json).
  intros [|]; apply literal_printable; vm_compute; reflexivity.
Defined.

(** ** Credentials *)

Section Credentials.
Context {pyfloat : Type}.
Context (getenv : pystr -> option pystr).

Lemma _get_api_key_raises (config : ProviderConfig) (cls env_var : pystr)
    (e : exn pyfloat) :
  _get_api_key getenv config cls env_var = Raise e ->
  e = AuthenticationError
        (py "API key not found. Set " ++ env_var
         ++ py " environment variable or pass api_key parameter.")
        cls.
Proof.
  unfold _get_api_key.
  destruct (opt_or (api_key config) (getenv env_var)) as [key|];
    [destruct (str_truthy key)|]; congruence.
Qed.

(** X24. Where the API key comes from. [_get_api_key] returns the key of the
    configuration when it is a non-empty string, whatever the environment
    holds, and otherwise the value of the environment variable when that is
    a non-empty string; a key that is returned is never empty. It raises
    [AuthenticationError], naming the variable and the class, exactly when
    both are missing or empty. *)
Theorem api_key_resolution (config : ProviderConfig) (cls env_var : pystr) :
  let missing (o : option pystr) := o = None \/ o = Some [] in
  match _get_api_key (pyfloat:=pyfloat) getenv config cls env_var with
  | Ok key =>
      key <> []
      /\ (api_key config = Some key
          \/ (missing (api_key config) /\ getenv env_var = Some key))
  | Raise e =>
      missing (api_key config) /\ missing (getenv env_var)
      /\ e = AuthenticationError
               (py "API key not found. Set " ++ env_var
                ++ py " environment variable or pass api_key parameter.")
               cls
  end.
Proof.
  intros missing. subst missing. cbv beta.
  unfold _get_api_key, opt_or.
  destruct (api_key config) as [[|c k]|]; cbn [str_truthy].
  - destruct (getenv env_var) as [[|c k]|]; cbn [str_truthy]; intuition done.
  - intuition done.
  - destruct (getenv env_var) as [[|c k]|]; cbn [str_truthy]; intuition done.
Qed.

(** X25. The Hugging Face token is optional. [_get_headers] of the Hugging
    Face adapter never raises: it always returns the content type, and adds
    the [Authorization] header exactly when a token is found. The OpenAI and
    Claude adapters, given the same configuration, return headers exactly
    when their own key is found. *)
Theorem hf_token_is_optional (config : ProviderConfig) :
  (exists headers,
     hf_get_headers (pyfloat:=pyfloat) getenv config = Ok headers
     /\ dict_get (py "Content-Type") headers = Some (py "application/json")
     /\ dict_get (py "Authorization") headers
        = match _get_api_key (pyfloat:=pyfloat) getenv config
                  (py "HuggingFaceProvider") (py "HUGGINGFACE_API_TOKEN") with
          | Ok token => Some (py "Bearer " ++ token)
          | Raise _ => None
          end)
  /\ match openai_get_headers (pyfloat:=pyfloat) getenv config,
           _get_api_key (pyfloat:=pyfloat) getenv config
             (py "OpenAIProvider") (py "OPENAI_API_KEY") with
     | Ok headers, Ok key =>
         dict_get (py "Authorization") headers = Some (py "Bearer " ++ key)
     | Raise e, Raise e' => e = e'
     | _, _ => False
     end
  /\ match claude_get_headers (pyfloat:=pyfloat) getenv config,
           _get_api_key (pyfloat:=pyfloat) getenv config
             (py "ClaudeProvider") (py "ANTHROPIC_API_KEY") with
     | Ok headers, Ok key => dict_get (py "x-api-key") headers = Some key
     | Raise e, Raise e' => e = e'
     | _, _ => False
     end.
Proof.
  split; [|split].
  - unfold hf_get_headers.
    destruct (_get_api_key getenv config _ _) as [token|e] eqn:E.
    + eexists. split; [reflexivity|]. split; vm_compute; reflexivity.
    + rewrite (_get_api_key_raises _ _ _ _ E). eexists.
      split; [reflexivity|]. split; vm_compute; reflexivity.
  - unfold openai_get_headers.
    destruct (_get_api_key getenv config _ _) as [key|e]; [|reflexivity].
    destruct (organization config) as [[|c org]|]; vm_compute; reflexivity.
  - unfold claude_get_headers.
    destruct (_get_api_key getenv config _ _) as [key|e]; [|reflexivity].
    vm_compute. reflexivity.
Qed.
End Credentials.

(** ** Hugging Face: the URL of the request *)

Lemma endswith_app (a p : pystr) : endswith (a ++ p) p = true.
Proof. unfold endswith. rewrite rev_app_distr. apply startswith_app. Qed.

(** X26. The URL of a Hugging Face request. The base URL is [api_base]
    when that is a non-empty string and the address of the inference API
    otherwise; the URL is the base URL when it already ends with the name of
    the model, and the base URL, a slash and the name of the model when it
    does not. So the URL always ends with the name of the model, and using
    it as the base URL gives the same URL again. *)
Theorem hf_url_ends_with_model (self : ProviderConfig) (model : pystr) :
  let base_url :=
    match api_base self with
    | Some (c :: u) => c :: u
    | _ => py "https://api-inference.huggingface.co/models"
    end in
  hf_url self model
  = (if endswith base_url model then base_url
     else base_url ++ py "/" ++ model)
  /\ endswith (hf_url self model) model = true
  /\ hf_url {| api_key := api_key self;
               api_base := Some (hf_url self model);
               organization := organization self;
               timeout := timeout self;
               max_retries := max_retries self |} model
     = hf_url self model.
Proof.
  intros base_url.
  assert (Hbase : opt_str_or (api_base self) hf_default_base_url = base_url).
  { subst base_url. by destruct (api_base self) as [[|c u]|]. }
  assert (Hurl : hf_url self model
                 = (if endswith base_url model then base_url
                    else base_url ++ py "/" ++ model)).
  { unfold hf_url. rewrite Hbase. by destruct (endswith base_url model). }
  assert (Hends : endswith (hf_url self model) model = true).
  { rewrite Hurl. destruct (endswith base_url model) eqn:E; [exact E|].
    rewrite app_assoc. apply endswith_app. }
  split; [exact Hurl|]. split; [exact Hends|].
  assert (Htruthy : str_truthy (hf_url self model) = true).
  { rewrite Hurl.
    assert (Hb : str_truthy base_url = true).
    { subst base_url. by destruct (api_base self) as [[|c u]|]. }
    destruct base_url as [|c u]; [discriminate Hb|].
    by destruct (endswith (c :: u) model). }
  unfold hf_url at 1. cbn [api_base].
  replace (opt_str_or (Some (hf_url self model)) hf_default_base_url)
    with (hf_url self model)
    by (unfold opt_str_or at 1; by rewrite Htruthy).
  by rewrite Hends.
Qed.

(** ** One model, one vendor *)

Lemma openai_models_elsewhere (m : pystr) :
  existsb (pystr_eqb m) openai_supported_models = true ->
  existsb (pystr_eqb m) claude_supported_models = false
  /\ existsb (pystr_eqb m) cohere_supported_models = false.
Proof.
  intros H. apply existsb_exists in H as (x & Hin & Heq).
  apply bool_decide_eq_true in Heq. subst x.
  unfold openai_supported_models in Hin. cbn [In] in Hin.
  repeat (destruct Hin as [<-|Hin]; [split; vm_compute; reflexivity|]).
  destruct Hin.
Qed.

Lemma claude_models_elsewhere (m : pystr) :
  existsb (pystr_eqb m) claude_supported_models = true ->
  existsb (pystr_eqb m) openai_supported_models = false
  /\ existsb (pystr_eqb m) cohere_supported_models = false.
Proof.
  intros H. apply existsb_exists in H as (x & Hin & Heq).
  apply bool_decide_eq_true in Heq. subst x.
  unfold claude_supported_models in Hin. cbn [In] in Hin.
  repeat (destruct Hin as [<-|Hin]; [split; vm_compute; reflexivity|]).
  destruct Hin.
Qed.

Lemma cohere_models_elsewhere (m : pystr) :
  existsb (pystr_eqb m) cohere_supported_models = true ->
  existsb (pystr_eqb m) openai_supported_models = false
  /\ existsb (pystr_eqb m) claude_supported_models = false.
Proof.
  intros H. apply existsb_exists in H as (x & Hin & Heq).
  apply bool_decide_eq_true in Heq. subst x.
  unfold cohere_supported_models in Hin. cbn [In] in Hin.
  repeat (destruct Hin as [<-|Hin]; [split; vm_compute; reflexivity|]).
  destruct Hin.
Qed.

Section Vendors.
Context {pyfloat redis_state : Type}.
Context (http_post : nat -> pystr -> pyval pyfloat -> http_outcome pyfloat).
Context (parse_response :
  provider_class -> pyval pyfloat -> pystr -> result pyfloat Response).

Local Abbreviation rejected w run :=
  (exists msg, run = (Raise (ConfigurationError msg), waited (waited w))).

Lemma openai_rejects (messages : list Message) (config : GenerationConfig pyfloat)
    (kw : kwargs pyfloat) (w : world redis_state) :
  existsb (pystr_eqb (opt_str_or (gc_model config) openai_default_model))
    openai_supported_models = false ->
  rejected w (openai_generate http_post parse_response messages config kw w).
Proof.
  intros H. eexists. apply retry_pure_failure. intros w'.
  unfold openai_generate_once, _validate_model. rewrite H. reflexivity.
Qed.

Lemma claude_rejects (messages : list Message) (config : GenerationConfig pyfloat)
    (kw : kwargs pyfloat) (w : world redis_state) :
  existsb (pystr_eqb (opt_str_or (gc_model config) claude_default_model))
    claude_supported_models = false ->
  rejected w (claude_generate http_post parse_response messages config kw w).
Proof.
  intros H. eexists. apply retry_pure_failure. intros w'.
  unfold claude_generate_once, _validate_model. rewrite H. reflexivity.
Qed.

Lemma cohere_rejects (messages : list Message) (config : GenerationConfig pyfloat)
    (kw : kwargs pyfloat) (w : world redis_state) :
  existsb (pystr_eqb (opt_str_or (gc_model config) cohere_default_model))
    cohere_supported_models = false ->
  rejected w (cohere_generate http_post parse_response messages config kw w).
Proof.
  intros H. eexists. apply retry_pure_failure. intros w'.
  unfold cohere_generate_once, _validate_model. rewrite H. reflexivity.
Qed.

(** X27. One model, one vendor. The lists of models of the OpenAI, Claude
    and Cohere adapters have no name in common, and a call carries one model
    name to whichever adapter runs it. So when the configuration names a
    model that one of the three lists, the two other adapters, called with
    the same configuration (as a fallback is), raise [ConfigurationError]
    after their three attempts, without sending anything. *)
Theorem model_accepted_by_one_vendor_only (messages : list Message)
    (config : GenerationConfig pyfloat) (kw : kwargs pyfloat)
    (w : world redis_state) (m : pystr) :
  gc_model config = Some m ->
  str_truthy m = true ->
  let openai := openai_generate http_post parse_response messages config kw w in
  let claude := claude_generate http_post parse_response messages config kw w in
  let cohere := cohere_generate http_post parse_response messages config kw w in
  (existsb (pystr_eqb m) openai_supported_models = true ->
   rejected w claude /\ rejected w cohere)
  /\ (existsb (pystr_eqb m) claude_supported_models = true ->
      rejected w openai /\ rejected w cohere)
  /\ (existsb (pystr_eqb m) cohere_supported_models = true ->
      rejected w openai /\ rejected w claude).
Proof.
  intros Hm Htruthy openai claude cohere. subst openai claude cohere.
  assert (Hmodel : forall d, opt_str_or (gc_model config) d = m).
  { intros d. unfold opt_str_or. by rewrite Hm, Htruthy. }
  split; [|split]; intros H.
  - apply openai_models_elsewhere in H as [H1 H2].
    split; [apply claude_rejects|apply cohere_rejects]; by rewrite Hmodel.
  - apply claude_models_elsewhere in H as [H1 H2].
    split; [apply openai_rejects|apply cohere_rejects]; by rewrite Hmodel.
  - apply cohere_models_elsewhere in H as [H1 H2].
    split; [apply openai_rejects|apply claude_rejects]; by rewrite Hmodel.
Qed.
End Vendors.

Lemma model_accepted_by_one_vendor_only_witness :
  (exists msg,
     claude_generate (redis_state:=unit) scripted_http scripted_parse
       hello_messages gpt4_config [] fresh_world
     = (Raise (ConfigurationError msg), waited (waited fresh_world)))
  /\ (exists msg,
        cohere_generate (redis_state:=unit) scripted_http scripted_parse
          hello_messages gpt4_config [] fresh_world
        = (Raise (ConfigurationError msg), waited (waited fresh_world))).
Proof.
  refine (proj1
    (model_accepted_by_one_vendor_only scripted_http scripted_parse
       hello_messages gpt4_config [] fresh_world (py "gpt-4") eq_refl _) _).
  - vm_compute. reflexivity.
  - vm_compute. reflexivity.
Defined.

(** ** Statuses other than 401 and 429 *)

Section OtherStatuses.
Context {pyfloat : Type}.

(** X28. A reply whose status is neither 401 nor 429 becomes a
    [ProviderError] that names the adapter and carries the status of the
    reply. Its message is the text of the HTTP error when the body of the
    reply is not JSON; the Hugging Face adapter answers 503 with a fixed
    message, whatever the body says. *)
Theorem other_statuses_give_provider_error (r : http_response pyfloat) :
  status r <> 401%Z -> status r <> 429%Z ->
  (exists msg,
     openai_handle_http_error r = ProviderError msg (py "openai") (status r)
     /\ (json_body r = None -> msg = PStr (error_str r)))
  /\ (exists msg,
        claude_handle_http_error r = ProviderError msg (py "claude") (status r)
        /\ (json_body r = None -> msg = PStr (error_str r)))
  /\ (exists msg,
        cohere_handle_http_error r = ProviderError msg (py "cohere") (status r)
        /\ (json_body r = None -> msg = PStr (error_str r)))
  /\ (exists msg,
        hf_handle_http_error r = ProviderError msg (py "huggingface") (status r)
        /\ (status r = 503%Z ->
            msg = PStr (py "Model is currently loading, please try again later"))
        /\ (status r <> 503%Z -> json_body r = None ->
            msg = PStr (error_str r))).
Proof.
  intros H401 H429.
  apply Z.eqb_neq in H401, H429.
  unfold openai_handle_http_error, claude_handle_http_error,
    cohere_handle_http_error, hf_handle_http_error.
  rewrite H401, H429.
  split; [|split; [|split]].
  - eexists. split; [reflexivity|].
    intros Hbody. unfold nested_error_message. by rewrite Hbody.
  - eexists. split; [reflexivity|].
    intros Hbody. unfold nested_error_message. by rewrite Hbody.
  - eexists. split; [reflexivity|].
    intros Hbody. unfold flat_error_message. by rewrite Hbody.
  - destruct (status r =? 503)%Z eqn:E.
    + eexists. split; [reflexivity|]. split; [reflexivity|].
      apply Z.eqb_eq in E. intros Hne. by destruct Hne.
    + eexists. split; [reflexivity|]. apply Z.eqb_neq in E. split; [done|].
      intros _ Hbody. unfold flat_error_message. by rewrite Hbody.
Qed.
End OtherStatuses.

Lemma other_statuses_give_provider_error_witness :
  exists msg,
    openai_handle_http_error (http_error_reply 500)
    = ProviderError msg (py "openai") 500%Z
    /\ msg = PStr (py "HTTP error").
Proof.
  destruct (proj1 (other_statuses_give_provider_error (http_error_reply 500)
                     ltac:(discriminate) ltac:(discriminate)))
    as (msg & Hmsg & Hbody).
  exists msg. split; [exact Hmsg|]. by apply Hbody.
Defined.

(** ** Error classification *)


Section ErrorClassification.
Context {pyfloat redis_state : Type}.
Context (http_post : nat -> pystr -> pyval pyfloat -> http_outcome pyfloat).
Context (parse_response :
  provider_class -> pyval pyfloat -> pystr -> result pyfloat Response).
Context (py_str : pyval pyfloat -> pystr).
Context (http_stream : nat -> pystr -> pyval pyfloat -> stream_outcome pyfloat).
Context (json_loads : pystr -> option (pyval pyfloat)).
Context (py_lower : pystr -> pystr).
Context (instantiate :
  provider_class -> ProviderConfig -> M pyfloat redis_state (Adapter pyfloat redis_state)).



(** A run ends in the typed error of the reply [r]. *)
Local Abbreviation classified r run w' provider auth_message :=
  ((status r = 401%Z ->
    run = (Raise (AuthenticationError auth_message provider), w'))
   /\ (status r = 429%Z ->
       run = (Raise (RateLimitError (py "Rate limit exceeded") provider), w'))).

End ErrorClassification.


